(** * Conference Presentation System: main (app.py) and backup (backup.py)

    A shallow embedding of the presentation-state handling of the two
    controller processes: the MQTT message handlers, the slide controller,
    the deadline timer, the WebSocket fan-out and the backup's
    heartbeat/failover monitor.

    Conventions of the embedding.
    - Python values that come from JSON payloads are kept dynamically typed
      ([value]); the operations on them return [None] where Python raises
      [TypeError].
    - [time.time()] is an input of every operation that reads the clock.
      Timestamps are floats in the source; here they are exact rationals
      ([Q]), and [int(...)] is truncation toward zero.
    - [STATE] and [CONFIG] are module-level dicts with a fixed key set; they
      are records here.  A statement that raises leaves the mutations made
      before it in place, which is what the [Py] monad below threads. *)

From Stdlib Require Import ZArith QArith Qround Qminmax Qabs Bool List String.
From Stdlib Require Import Ascii.
From Stdlib Require Import Lia Lqa.
Import ListNotations.
Open Scope string_scope.
Open Scope Q_scope.

Set Warnings "-register-all".

(** ** Python values *)

Inductive value : Type :=
| VNone
| VBool (b : bool)
| VNum (q : Q)
| VStr (s : string)
| VList (l : list value)
| VDict (d : list (string * value)).

(** Truth value of an object, as tested by [if x:] and [x and y]. *)
Definition truthy (v : value) : bool :=
  match v with
  | VNone => false
  | VBool b => b
  | VNum q => negb (Qeq_bool q 0)
  | VStr s => negb (String.eqb s "")
  | VList l => match l with [] => false | _ => true end
  | VDict d => match d with [] => false | _ => true end
  end.

(** The numeric reading of a value: [int], [float] and [bool] take part in
    arithmetic and ordering; for every other type these raise [TypeError]
    when the other operand is a number. *)
Definition as_num (v : value) : option Q :=
  match v with
  | VNum q => Some q
  | VBool b => Some (if b then 1 else 0)
  | _ => None
  end.

Definition py_add (a b : value) : option value :=
  match as_num a, as_num b with
  | Some x, Some y => Some (VNum (x + y))
  | _, _ => None
  end.

Definition py_le (a b : value) : option bool :=
  match as_num a, as_num b with
  | Some x, Some y => Some (Qle_bool x y)
  | _, _ => None
  end.

Definition py_lt (a b : value) : option bool :=
  match as_num a, as_num b with
  | Some x, Some y => Some (negb (Qle_bool y x))
  | _, _ => None
  end.

Definition py_gt (a b : value) : option bool := py_lt b a.

(** [int(x)] of a float: truncation toward zero. *)
Definition py_int (q : Q) : Z := Z.quot (Qnum q) (Zpos (Qden q)).

Fixpoint assoc (k : string) (d : list (string * value)) : option value :=
  match d with
  | [] => None
  | (k', v) :: d' => if String.eqb k k' then Some v else assoc k d'
  end.

Fixpoint is_substring (k s : string) : bool :=
  String.prefix k s ||
  match s with
  | EmptyString => false
  | String _ s' => is_substring k s'
  end.

Definition is_str (k : string) (v : value) : bool :=
  match v with
  | VStr s => String.eqb s k
  | _ => false
  end.

(** [k in x] for a string [k]: key membership for a dict, element membership
    for a list, substring test for a string, [TypeError] otherwise. *)
Definition py_in (k : string) (x : value) : option bool :=
  match x with
  | VDict d => Some (match assoc k d with Some _ => true | None => false end)
  | VList l => Some (existsb (is_str k) l)
  | VStr s => Some (is_substring k s)
  | _ => None
  end.

(** [x[k]] for a string [k]: defined for a dict that has the key. *)
Definition py_getitem (x : value) (k : string) : option value :=
  match x with
  | VDict d => assoc k d
  | _ => None
  end.

(** ** Statements that may raise *)

Inductive outcome (A : Type) : Type :=
| Returned (a : A)
| Raised.
Arguments Returned {A} a.
Arguments Raised {A}.

Definition Py (S A : Type) : Type := S -> outcome A * S.

Definition ret {S A} (a : A) : Py S A := fun s => (Returned a, s).

Definition bind {S A B} (m : Py S A) (f : A -> Py S B) : Py S B :=
  fun s => match m s with
           | (Returned a, s') => f a s'
           | (Raised, s') => (Raised, s')
           end.

Definition get {S} : Py S S := fun s => (Returned s, s).

Definition modify {S} (f : S -> S) : Py S unit := fun s => (Returned tt, f s).

(** A partial operation of Python, raising where it is undefined. *)
Definition eval {S A} (o : option A) : Py S A :=
  fun s => match o with
           | Some a => (Returned a, s)
           | None => (Raised, s)
           end.

(** [try: body  except Exception: handler]. *)
Definition try_except {S A} (body handler : Py S A) : Py S A :=
  fun s => match body s with
           | (Returned a, s') => (Returned a, s')
           | (Raised, s') => handler s'
           end.

Definition when {S} (b : bool) (m : Py S unit) : Py S unit :=
  if b then m else ret tt.

Definition exec {S A} (m : Py S A) (s : S) : S := snd (m s).

Declare Scope py_scope.
Delimit Scope py_scope with py.
Notation "x <- m ;; k" := (bind m (fun x => k))
  (at level 61, m at next level, right associativity) : py_scope.
Notation "m ;;; k" := (bind m (fun _ => k))
  (at level 61, right associativity) : py_scope.

(** ** The presentation state *)

Inductive DeviceStatus : Type := ONLINE | OFFLINE | UNKNOWN.

Record DeviceStatusMap : Type := {
  main : DeviceStatus;
  backup : DeviceStatus;
  moderator : DeviceStatus
}.

Record Health : Type := {
  cpu : Q;
  memory : Q;
  disk : Q;
  network : string
}.

(** The module-level [STATE] dict.  [main_last_heartbeat] is a key of
    backup.py only; app.py never reads or writes it. *)
Record State : Type := {
  current_presenter : value;
  current_topic : value;
  timer_seconds : value;
  timer_running : value;
  timer_end_time : option Q;
  announcement : value;
  announcement_visible : value;
  current_slide : value;
  total_slides : value;
  device_status : DeviceStatusMap;
  system_health : Health;
  main_last_heartbeat : Q;
  connected_clients : nat
}.

Definition set_current_presenter (v : value) (st : State) : State :=
  {| current_presenter := v; current_topic := current_topic st;
     timer_seconds := timer_seconds st; timer_running := timer_running st;
     timer_end_time := timer_end_time st; announcement := announcement st;
     announcement_visible := announcement_visible st;
     current_slide := current_slide st; total_slides := total_slides st;
     device_status := device_status st; system_health := system_health st;
     main_last_heartbeat := main_last_heartbeat st;
     connected_clients := connected_clients st |}.

Definition set_current_topic (v : value) (st : State) : State :=
  {| current_presenter := current_presenter st; current_topic := v;
     timer_seconds := timer_seconds st; timer_running := timer_running st;
     timer_end_time := timer_end_time st; announcement := announcement st;
     announcement_visible := announcement_visible st;
     current_slide := current_slide st; total_slides := total_slides st;
     device_status := device_status st; system_health := system_health st;
     main_last_heartbeat := main_last_heartbeat st;
     connected_clients := connected_clients st |}.

Definition set_timer_seconds (v : value) (st : State) : State :=
  {| current_presenter := current_presenter st;
     current_topic := current_topic st;
     timer_seconds := v; timer_running := timer_running st;
     timer_end_time := timer_end_time st; announcement := announcement st;
     announcement_visible := announcement_visible st;
     current_slide := current_slide st; total_slides := total_slides st;
     device_status := device_status st; system_health := system_health st;
     main_last_heartbeat := main_last_heartbeat st;
     connected_clients := connected_clients st |}.

Definition set_timer_running (v : value) (st : State) : State :=
  {| current_presenter := current_presenter st;
     current_topic := current_topic st;
     timer_seconds := timer_seconds st; timer_running := v;
     timer_end_time := timer_end_time st; announcement := announcement st;
     announcement_visible := announcement_visible st;
     current_slide := current_slide st; total_slides := total_slides st;
     device_status := device_status st; system_health := system_health st;
     main_last_heartbeat := main_last_heartbeat st;
     connected_clients := connected_clients st |}.

Definition set_timer_end_time (e : option Q) (st : State) : State :=
  {| current_presenter := current_presenter st;
     current_topic := current_topic st;
     timer_seconds := timer_seconds st; timer_running := timer_running st;
     timer_end_time := e; announcement := announcement st;
     announcement_visible := announcement_visible st;
     current_slide := current_slide st; total_slides := total_slides st;
     device_status := device_status st; system_health := system_health st;
     main_last_heartbeat := main_last_heartbeat st;
     connected_clients := connected_clients st |}.

Definition set_announcement (v : value) (st : State) : State :=
  {| current_presenter := current_presenter st;
     current_topic := current_topic st;
     timer_seconds := timer_seconds st; timer_running := timer_running st;
     timer_end_time := timer_end_time st; announcement := v;
     announcement_visible := announcement_visible st;
     current_slide := current_slide st; total_slides := total_slides st;
     device_status := device_status st; system_health := system_health st;
     main_last_heartbeat := main_last_heartbeat st;
     connected_clients := connected_clients st |}.

Definition set_announcement_visible (v : value) (st : State) : State :=
  {| current_presenter := current_presenter st;
     current_topic := current_topic st;
     timer_seconds := timer_seconds st; timer_running := timer_running st;
     timer_end_time := timer_end_time st; announcement := announcement st;
     announcement_visible := v;
     current_slide := current_slide st; total_slides := total_slides st;
     device_status := device_status st; system_health := system_health st;
     main_last_heartbeat := main_last_heartbeat st;
     connected_clients := connected_clients st |}.

Definition set_current_slide (v : value) (st : State) : State :=
  {| current_presenter := current_presenter st;
     current_topic := current_topic st;
     timer_seconds := timer_seconds st; timer_running := timer_running st;
     timer_end_time := timer_end_time st; announcement := announcement st;
     announcement_visible := announcement_visible st;
     current_slide := v; total_slides := total_slides st;
     device_status := device_status st; system_health := system_health st;
     main_last_heartbeat := main_last_heartbeat st;
     connected_clients := connected_clients st |}.

Definition set_total_slides (v : value) (st : State) : State :=
  {| current_presenter := current_presenter st;
     current_topic := current_topic st;
     timer_seconds := timer_seconds st; timer_running := timer_running st;
     timer_end_time := timer_end_time st; announcement := announcement st;
     announcement_visible := announcement_visible st;
     current_slide := current_slide st; total_slides := v;
     device_status := device_status st; system_health := system_health st;
     main_last_heartbeat := main_last_heartbeat st;
     connected_clients := connected_clients st |}.

Definition set_device_status (d : DeviceStatusMap) (st : State) : State :=
  {| current_presenter := current_presenter st;
     current_topic := current_topic st;
     timer_seconds := timer_seconds st; timer_running := timer_running st;
     timer_end_time := timer_end_time st; announcement := announcement st;
     announcement_visible := announcement_visible st;
     current_slide := current_slide st; total_slides := total_slides st;
     device_status := d; system_health := system_health st;
     main_last_heartbeat := main_last_heartbeat st;
     connected_clients := connected_clients st |}.

Definition set_system_health (h : Health) (st : State) : State :=
  {| current_presenter := current_presenter st;
     current_topic := current_topic st;
     timer_seconds := timer_seconds st; timer_running := timer_running st;
     timer_end_time := timer_end_time st; announcement := announcement st;
     announcement_visible := announcement_visible st;
     current_slide := current_slide st; total_slides := total_slides st;
     device_status := device_status st; system_health := h;
     main_last_heartbeat := main_last_heartbeat st;
     connected_clients := connected_clients st |}.

Definition set_main_last_heartbeat (t : Q) (st : State) : State :=
  {| current_presenter := current_presenter st;
     current_topic := current_topic st;
     timer_seconds := timer_seconds st; timer_running := timer_running st;
     timer_end_time := timer_end_time st; announcement := announcement st;
     announcement_visible := announcement_visible st;
     current_slide := current_slide st; total_slides := total_slides st;
     device_status := device_status st; system_health := system_health st;
     main_last_heartbeat := t;
     connected_clients := connected_clients st |}.

Definition set_connected_clients (n : nat) (st : State) : State :=
  {| current_presenter := current_presenter st;
     current_topic := current_topic st;
     timer_seconds := timer_seconds st; timer_running := timer_running st;
     timer_end_time := timer_end_time st; announcement := announcement st;
     announcement_visible := announcement_visible st;
     current_slide := current_slide st; total_slides := total_slides st;
     device_status := device_status st; system_health := system_health st;
     main_last_heartbeat := main_last_heartbeat st;
     connected_clients := n |}.

(** [STATE["device_status"][role] = status] for the three roles. *)
Definition set_main (d : DeviceStatus) (st : State) : State :=
  set_device_status
    {| main := d; backup := backup (device_status st);
       moderator := moderator (device_status st) |} st.

Definition set_backup (d : DeviceStatus) (st : State) : State :=
  set_device_status
    {| main := main (device_status st); backup := d;
       moderator := moderator (device_status st) |} st.

Definition set_moderator (d : DeviceStatus) (st : State) : State :=
  set_device_status
    {| main := main (device_status st); backup := backup (device_status st);
       moderator := d |} st.

(** ** The slide controller

    [PowerPointController] is the same class in app.py and backup.py: it
    keeps the [connected] flag and moves [STATE["current_slide"]]. *)

Module PowerPointController.

Local Open Scope py_scope.

Definition next_slide (connected : bool) : Py State bool :=
  if negb connected then ret false
  else
    try_except
      (st <- get ;;
       v <- eval (py_add (current_slide st) (VNum 1)) ;;
       modify (set_current_slide v) ;;;
       st <- get ;;
       over <- eval (py_gt (current_slide st) (total_slides st)) ;;
       when over (modify (set_current_slide (total_slides st))) ;;;
       ret true)
      (ret false).

Definition previous_slide (connected : bool) : Py State bool :=
  if negb connected then ret false
  else
    try_except
      (st <- get ;;
       v <- eval (py_add (current_slide st) (VNum (-1))) ;;
       modify (set_current_slide v) ;;;
       st <- get ;;
       under <- eval (py_lt (current_slide st) (VNum 1)) ;;
       when under (modify (set_current_slide (VNum 1))) ;;;
       ret true)
      (ret false).

(** The chained comparison [1 <= n <= total] evaluates [n <= total] only
    when [1 <= n] holds. *)
Definition in_range (slide_number total : value) : option bool :=
  match py_le (VNum 1) slide_number with
  | Some true => py_le slide_number total
  | other => other
  end.

Definition goto_slide (connected : bool) (slide_number : value)
  : Py State bool :=
  if negb connected then ret false
  else
    try_except
      (st <- get ;;
       ok <- eval (in_range slide_number (total_slides st)) ;;
       if ok then modify (set_current_slide slide_number) ;;; ret true
       else ret false)
      (ret false).

End PowerPointController.

(** ** What both processes share

    The [timer], [presenter] and [announcement] branches of
    [on_mqtt_message] and the timer part of [update_ui] are the same text in
    app.py and backup.py. *)

(** A message handed to [mqtt_client.publish]. *)
Record Publication : Type := {
  pub_topic : string;
  pub_payload : value
}.

Local Open Scope py_scope.

(** The first whole number that no longer converts to a float: an [int]
    [n] with [abs(n) >= 2**1024 - 2**970] makes [float + n] raise
    [OverflowError]; every finite float is below it. *)
Definition float_overflow : Z := 2 ^ 1024 - 2 ^ 970.

Definition fits_float (q : Q) : bool :=
  negb (Qle_bool (inject_Z float_overflow) (Qabs q)).

(** [time.time() + x]: float addition; [TypeError] unless [x] is a number,
    [OverflowError] when [x] is too large for a float. *)
Definition time_plus (now : Q) (x : value) : option Q :=
  match as_num x with
  | Some q => if fits_float q then Some (now + q) else None
  | None => None
  end.

Definition timer_branch (now : Q) (payload : value) : Py State unit :=
  has_seconds <- eval (py_in "seconds" payload) ;;
  when has_seconds
    (v <- eval (py_getitem payload "seconds") ;;
     modify (set_timer_seconds v)) ;;;
  has_running <- eval (py_in "running" payload) ;;
  when has_running
    (v <- eval (py_getitem payload "running") ;;
     modify (set_timer_running v) ;;;
     st <- get ;;
     if truthy (timer_running st)
     then e <- eval (time_plus now (timer_seconds st)) ;;
          modify (set_timer_end_time (Some e))
     else modify (set_timer_end_time None)).

Definition presenter_branch (payload : value) : Py State unit :=
  has_name <- eval (py_in "name" payload) ;;
  when has_name
    (v <- eval (py_getitem payload "name") ;;
     modify (set_current_presenter v)) ;;;
  has_topic <- eval (py_in "topic" payload) ;;
  when has_topic
    (v <- eval (py_getitem payload "topic") ;;
     modify (set_current_topic v)).

Definition announcement_branch (payload : value) : Py State unit :=
  has_message <- eval (py_in "message" payload) ;;
  when has_message
    (v <- eval (py_getitem payload "message") ;;
     modify (set_announcement v) ;;;
     modify (set_announcement_visible (VBool true))).

(** ["role" in payload and payload["role"] == r]. *)
Definition role_is {S} (r : string) (payload : value) : Py S bool :=
  has_role <- eval (py_in "role" payload) ;;
  if has_role
  then v <- eval (py_getitem payload "role") ;; ret (is_str r v)
  else ret false.

(** [payload["command"] == c]. *)
Definition command_is {S} (c : string) (payload : value) : Py S bool :=
  v <- eval (py_getitem payload "command") ;; ret (is_str c v).

(** The slide commands of the [control] branch, once ["command" in payload]
    (and, on the backup, [CONFIG["is_active"]]) has been found true. *)
Definition slide_command (connected : bool) (payload : value)
  : Py State unit :=
  is_next <- command_is "next_slide" payload ;;
  if is_next then PowerPointController.next_slide connected ;;; ret tt
  else
    is_prev <- command_is "previous_slide" payload ;;
    if is_prev then PowerPointController.previous_slide connected ;;; ret tt
    else
      is_goto <- command_is "goto_slide" payload ;;
      if is_goto
      then has_slide <- eval (py_in "slide" payload) ;;
           when has_slide
             (n <- eval (py_getitem payload "slide") ;;
              PowerPointController.goto_slide connected n ;;; ret tt)
      else ret tt.

(** [topic.startswith(f"{CONFIG['mqtt_topic_prefix']}{name}/")]. *)
Definition on_topic (prefix name topic : string) : bool :=
  String.prefix (prefix ++ name ++ "/") topic.

(** The timer part of [MainWindow.update_ui] and [BackupWindow.update_ui],
    the only part that writes [STATE].  [STATE["timer_end_time"]] is truthy
    when it is a float other than zero. *)
Definition end_time_set (e : option Q) : bool :=
  match e with
  | Some t => negb (Qeq_bool t 0)
  | None => false
  end.

Definition update_ui (now : Q) (st : State) : State :=
  if truthy (timer_running st) && end_time_set (timer_end_time st)
  then match timer_end_time st with
       | Some t =>
           set_timer_seconds
             (VNum (inject_Z (Z.max 0 (py_int (t - now))))) st
       | None => st
       end
  else st.

(** The seconds the timer label shows after a refresh at [now]. *)
Definition timer_reading (now : Q) (st : State) : value :=
  timer_seconds (update_ui now st).

Definition default_health : Health :=
  {| cpu := 0; memory := 0; disk := 0; network := "OK" |}.

(** ** The main controller (app.py) *)

Module App.

Record Config : Type := {
  device_id : string;
  device_role : string;
  mqtt_topic_prefix : string;
  powerpoint_enabled : bool;
  is_active : bool
}.

Definition default_config (id : string) : Config :=
  {| device_id := id; device_role := "MAIN";
     mqtt_topic_prefix := "conference/";
     powerpoint_enabled := true; is_active := true |}.

Definition initial_state : State :=
  {| current_presenter := VStr "No presenter";
     current_topic := VStr "Welcome to the Conference";
     timer_seconds := VNum 600;
     timer_running := VBool false;
     timer_end_time := None;
     announcement := VStr "";
     announcement_visible := VBool false;
     current_slide := VNum 1;
     total_slides := VNum 30;
     device_status :=
       {| main := ONLINE; backup := UNKNOWN; moderator := UNKNOWN |};
     system_health := default_health;
     main_last_heartbeat := 0;
     connected_clients := 0 |}.

(** A viewer session: WebSocket objects are compared by identity. *)
Definition Session : Type := nat.

(** The process: [CONFIG], [STATE], [powerpoint.connected], the
    [websocket_connections] list, and the two logs of what went out
    (MQTT publications, and the snapshot sent to each session). *)
Record World : Type := {
  CONFIG : Config;
  STATE : State;
  powerpoint_connected : bool;
  websocket_connections : list Session;
  published : list Publication;
  sent : list (Session * State)
}.

Definition with_STATE (st : State) (w : World) : World :=
  {| CONFIG := CONFIG w; STATE := st;
     powerpoint_connected := powerpoint_connected w;
     websocket_connections := websocket_connections w;
     published := published w; sent := sent w |}.

Definition with_connections (c : list Session) (s : list (Session * State))
           (w : World) : World :=
  {| CONFIG := CONFIG w; STATE := STATE w;
     powerpoint_connected := powerpoint_connected w;
     websocket_connections := c;
     published := published w; sent := s |}.

Definition publish (name : string) (payload : value) (w : World) : World :=
  {| CONFIG := CONFIG w; STATE := STATE w;
     powerpoint_connected := powerpoint_connected w;
     websocket_connections := websocket_connections w;
     published :=
       published w ++
       [{| pub_topic := mqtt_topic_prefix (CONFIG w) ++ name;
           pub_payload := payload |}];
     sent := sent w |}.

(** The state the process starts from, once [main()] has connected the
    slide controller. *)
Definition initial_world (id : string) : World :=
  {| CONFIG := default_config id; STATE := initial_state;
     powerpoint_connected := true; websocket_connections := [];
     published := []; sent := [] |}.

(** Run a statement over [STATE] inside the process. *)
Definition on_STATE {A} (m : Py State A) : Py World A :=
  fun w => let (r, st) := m (STATE w) in (r, with_STATE st w).

(** *** broadcast_state_update *)

(** [list.remove(x)]: drops the first occurrence. *)
Fixpoint remove_first (x : Session) (l : list Session) : list Session :=
  match l with
  | [] => []
  | y :: l' => if Nat.eqb x y then l' else y :: remove_first x l'
  end.

(** The [for websocket in websocket_connections] loop.  Python's list
    iterator keeps an index into the live list: each round reads element [i]
    of the list as it is now and stops when [i] is past its end.  [fails ws]
    says whether [send_text] raises for session [ws]; [message] is the
    snapshot serialised before the loop. *)
Fixpoint broadcast_loop (fuel : nat) (fails : Session -> bool)
         (message : State) (i : nat) (conns : list Session)
         (log : list (Session * State))
  : list Session * list (Session * State) :=
  match fuel with
  | O => (conns, log)
  | S fuel' =>
      match nth_error conns i with
      | None => (conns, log)
      | Some ws =>
          if fails ws
          then broadcast_loop fuel' fails message (S i)
                 (if existsb (Nat.eqb ws) conns
                  then remove_first ws conns else conns)
                 log
          else broadcast_loop fuel' fails message (S i) conns
                 (log ++ [(ws, message)])
      end
  end.

(** [broadcast_state_update]: nothing to do without sessions; otherwise the
    snapshot is serialised once and the loop is run.  The loop makes at most
    one round per element of the list it starts on, which is the fuel. *)
Definition broadcast_state_update (fails : Session -> bool) (w : World)
  : World :=
  match websocket_connections w with
  | [] => w
  | conns =>
      let (conns', log') :=
        broadcast_loop (List.length conns) fails (STATE w) 0 conns (sent w)
      in with_connections conns' log' w
  end.

(** *** on_mqtt_message *)

Definition heartbeat_branch (payload : value) : Py State unit :=
  from_backup <- role_is "BACKUP" payload ;;
  if from_backup then modify (set_backup ONLINE)
  else
    from_moderator <- role_is "MODERATOR" payload ;;
    when from_moderator (modify (set_moderator ONLINE)).

Definition control_branch (connected : bool) (payload : value)
  : Py State unit :=
  has_command <- eval (py_in "command" payload) ;;
  when has_command (slide_command connected payload).

Definition dispatch (cfg : Config) (connected : bool) (now : Q)
           (topic : string) (payload : value) : Py State unit :=
  let prefix := mqtt_topic_prefix cfg in
  if on_topic prefix "timer" topic then timer_branch now payload
  else if on_topic prefix "presenter" topic then presenter_branch payload
  else if on_topic prefix "announcement" topic
       then announcement_branch payload
  else if on_topic prefix "heartbeat" topic then heartbeat_branch payload
  else if on_topic prefix "control" topic
       then control_branch connected payload
  else ret tt.

(** [payload] is [None] when [json.loads(msg.payload.decode())] raises. *)
Definition on_mqtt_message (fails : Session -> bool) (now : Q)
           (topic : string) (payload : option value) (w : World) : World :=
  exec
    (try_except
       (p <- eval payload ;;
        on_STATE
          (dispatch (CONFIG w) (powerpoint_connected w) now topic p) ;;;
        modify (broadcast_state_update fails))
       (ret tt))
    w.

(** A control message that moves the slide relative to where it is:
    [payload["command"]] is ["next_slide"] or ["previous_slide"]. *)
Definition is_relative_slide_command (prefix topic : string)
           (payload : option value) : bool :=
  on_topic prefix "control" topic &&
  match payload with
  | Some p =>
      match py_getitem p "command" with
      | Some c => is_str "next_slide" c || is_str "previous_slide" c
      | None => false
      end
  | None => false
  end.

(** Who is sent a broadcast, and who is still connected after it, read off
    a list of distinct sessions from the left: a session whose send
    succeeds is sent the snapshot and stays; one whose send fails is
    dropped, and the session after it is passed over (it stays, unsent). *)
Fixpoint receivers (fails : Session -> bool) (conns : list Session)
  : list Session :=
  match conns with
  | [] => []
  | ws :: rest =>
      if fails ws
      then match rest with
           | [] => []
           | _ :: rest' => receivers fails rest'
           end
      else ws :: receivers fails rest
  end.

Fixpoint survivors (fails : Session -> bool) (conns : list Session)
  : list Session :=
  match conns with
  | [] => []
  | ws :: rest =>
      if fails ws
      then match rest with
           | [] => []
           | next :: rest' => next :: survivors fails rest'
           end
      else ws :: survivors fails rest
  end.

(** *** The timer buttons of MainWindow *)

Definition start_timer (now : Q) : Py World unit :=
  on_STATE (modify (set_timer_running (VBool true))) ;;;
  on_STATE
    (st <- get ;;
     e <- eval (time_plus now (timer_seconds st)) ;;
     modify (set_timer_end_time (Some e))) ;;;
  modify (publish "timer/control" (VDict [("running", VBool true)])).

Definition stop_timer : Py World unit :=
  on_STATE (modify (set_timer_running (VBool false))) ;;;
  on_STATE (modify (set_timer_end_time None)) ;;;
  modify (publish "timer/control" (VDict [("running", VBool false)])).

Definition reset_timer : Py World unit :=
  on_STATE (modify (set_timer_seconds (VNum 600))) ;;;
  on_STATE (modify (set_timer_running (VBool false))) ;;;
  on_STATE (modify (set_timer_end_time None)) ;;;
  modify (publish "timer/control"
            (VDict [("seconds", VNum 600); ("running", VBool false)])).

(** *** The monitor threads *)

Definition heartbeat_message (w : World) (now : Q) : value :=
  VDict [("timestamp", VNum now);
         ("role", VStr (device_role (CONFIG w)));
         ("status",
          VStr (if is_active (CONFIG w) then "ACTIVE" else "STANDBY"))].

(** One round of [BackupMonitor.run]: the main's own heartbeat. *)
Definition backup_monitor_iteration (now : Q) (w : World) : World :=
  publish ("heartbeat/" ++ device_id (CONFIG w)) (heartbeat_message w now) w.

Definition health_message (h : Health) : value :=
  VDict [("cpu", VNum (cpu h)); ("memory", VNum (memory h));
         ("disk", VNum (disk h)); ("network", VStr (network h))].

(** One round of [SystemMonitor.run] with the readings [h]. *)
Definition system_monitor_iteration (h : Health) (w : World) : World :=
  publish ("health/" ++ device_id (CONFIG w)) (health_message h)
          (with_STATE (set_system_health h (STATE w)) w).

(** *** websocket_endpoint

    The coroutine of one viewer session [ws], cut at its [await]s: the
    opening (accept, register, first snapshot, count), the handling of one
    received text, and the two [except] clauses that end it. *)

(** Both [except] clauses: unregister the session and refresh the count. *)
Definition endpoint_cleanup (ws : Session) (w : World) : World :=
  let conns :=
    if existsb (Nat.eqb ws) (websocket_connections w)
    then remove_first ws (websocket_connections w)
    else websocket_connections w in
  with_STATE (set_connected_clients (List.length conns) (STATE w))
             (with_connections conns (sent w) w).

(** Up to the [while True]: [send_fails] says whether the first
    [send_text] raises. *)
Definition endpoint_open (send_fails : bool) (ws : Session) (w : World)
  : World :=
  let w1 := with_connections (websocket_connections w ++ [ws]) (sent w) w in
  if send_fails then endpoint_cleanup ws w1
  else
    let w2 := with_connections (websocket_connections w1)
                               (sent w1 ++ [(ws, STATE w1)]) w1 in
    with_STATE
      (set_connected_clients (List.length (websocket_connections w2))
                             (STATE w2))
      w2.

(** The topic a viewer command of the given type is forwarded to. *)
Definition forward_topic (type : value) : option string :=
  if is_str "timer_control" type then Some "timer/control"
  else if is_str "presenter_update" type then Some "presenter/update"
  else if is_str "announcement" type then Some "announcement/new"
  else if is_str "slide_control" type then Some "control/slide"
  else None.

(** One round of the receive loop; [data] is [None] when [json.loads]
    raises on the received text.  An exception ends the session through
    [except Exception]. *)
Definition endpoint_receive (fails : Session -> bool) (ws : Session)
           (data : option value) : Py World unit :=
  try_except
    (message <- eval data ;;
     has_type <- eval (py_in "type" message) ;;
     when has_type
       (type <- eval (py_getitem message "type") ;;
        match forward_topic type with
        | Some name =>
            payload <- eval (py_getitem message "data") ;;
            modify (publish name payload)
        | None => ret tt
        end) ;;;
     modify (broadcast_state_update fails))
    (modify (endpoint_cleanup ws)).

(** [except WebSocketDisconnect], raised by [receive_text]. *)
Definition endpoint_close (ws : Session) (w : World) : World :=
  endpoint_cleanup ws w.

(** *** Everything that can happen to the process *)

Inductive Operation : Type :=
| OpMessage (fails : Session -> bool) (now : Q) (topic : string)
            (payload : option value)
| OpStart (now : Q)
| OpStop
| OpReset
| OpUpdateUi (now : Q)
| OpBackupMonitor (now : Q)
| OpSystemMonitor (h : Health)
| OpOpen (send_fails : bool) (ws : Session)
| OpReceive (fails : Session -> bool) (ws : Session) (data : option value)
| OpClose (ws : Session).

Definition step (op : Operation) (w : World) : World :=
  match op with
  | OpMessage fails now topic payload =>
      on_mqtt_message fails now topic payload w
  | OpStart now => exec (start_timer now) w
  | OpStop => exec stop_timer w
  | OpReset => exec reset_timer w
  | OpUpdateUi now => with_STATE (update_ui now (STATE w)) w
  | OpBackupMonitor now => backup_monitor_iteration now w
  | OpSystemMonitor h => system_monitor_iteration h w
  | OpOpen send_fails ws => endpoint_open send_fails ws w
  | OpReceive fails ws data => exec (endpoint_receive fails ws data) w
  | OpClose ws => endpoint_close ws w
  end.

Definition run (ops : list Operation) (w : World) : World :=
  fold_left (fun w op => step op w) ops w.

(** The slide is a number within the deck: [1 <= current_slide <=
    total_slides]. *)
Definition slide_in_deck (st : State) : Prop :=
  exists c t,
    as_num (current_slide st) = Some c /\
    as_num (total_slides st) = Some t /\
    1 <= c /\ c <= t.

End App.

(** ** The backup controller (backup.py) *)

Module Backup.

Record Config : Type := {
  device_id : string;
  device_role : string;
  mqtt_topic_prefix : string;
  failover_timeout : Q;
  powerpoint_enabled : bool;
  is_active : bool
}.

Definition default_config (id : string) : Config :=
  {| device_id := id; device_role := "BACKUP";
     mqtt_topic_prefix := "conference/";
     failover_timeout := 15;
     powerpoint_enabled := true; is_active := false |}.

Definition set_is_active (b : bool) (c : Config) : Config :=
  {| device_id := device_id c; device_role := device_role c;
     mqtt_topic_prefix := mqtt_topic_prefix c;
     failover_timeout := failover_timeout c;
     powerpoint_enabled := powerpoint_enabled c; is_active := b |}.

(** [STATE] as the module creates it at time [t0]. *)
Definition initial_state (t0 : Q) : State :=
  {| current_presenter := VStr "No presenter";
     current_topic := VStr "Welcome to the Conference";
     timer_seconds := VNum 600;
     timer_running := VBool false;
     timer_end_time := None;
     announcement := VStr "";
     announcement_visible := VBool false;
     current_slide := VNum 1;
     total_slides := VNum 30;
     device_status :=
       {| main := ONLINE; backup := ONLINE; moderator := UNKNOWN |};
     system_health := default_health;
     main_last_heartbeat := t0;
     connected_clients := 0 |}.

(** The signals of [MainMonitor]. *)
Inductive Signal : Type :=
| failover_signal
| status_signal (s : DeviceStatus).

(** The process: [CONFIG], [STATE], [powerpoint.connected], the log of MQTT
    publications, and the signals emitted by the monitor thread that the GUI
    thread has not yet handed to their slots. *)
Record World : Type := {
  CONFIG : Config;
  STATE : State;
  powerpoint_connected : bool;
  published : list Publication;
  event_queue : list Signal
}.

Definition with_CONFIG (c : Config) (w : World) : World :=
  {| CONFIG := c; STATE := STATE w;
     powerpoint_connected := powerpoint_connected w;
     published := published w; event_queue := event_queue w |}.

Definition with_STATE (st : State) (w : World) : World :=
  {| CONFIG := CONFIG w; STATE := st;
     powerpoint_connected := powerpoint_connected w;
     published := published w; event_queue := event_queue w |}.

Definition with_connected (b : bool) (w : World) : World :=
  {| CONFIG := CONFIG w; STATE := STATE w;
     powerpoint_connected := b;
     published := published w; event_queue := event_queue w |}.

Definition with_queue (q : list Signal) (w : World) : World :=
  {| CONFIG := CONFIG w; STATE := STATE w;
     powerpoint_connected := powerpoint_connected w;
     published := published w; event_queue := q |}.

Definition publish (name : string) (payload : value) (w : World) : World :=
  {| CONFIG := CONFIG w; STATE := STATE w;
     powerpoint_connected := powerpoint_connected w;
     published :=
       published w ++
       [{| pub_topic := mqtt_topic_prefix (CONFIG w) ++ name;
           pub_payload := payload |}];
     event_queue := event_queue w |}.

Definition emit (sg : Signal) (w : World) : World :=
  with_queue (event_queue w ++ [sg]) w.

Definition initial_world (id : string) (t0 : Q) : World :=
  {| CONFIG := default_config id; STATE := initial_state t0;
     powerpoint_connected := false; published := []; event_queue := [] |}.

Definition on_STATE {A} (m : Py State A) : Py World A :=
  fun w => let (r, st) := m (STATE w) in (r, with_STATE st w).

(** *** on_mqtt_message *)

Definition heartbeat_branch (now : Q) (payload : value) : Py State unit :=
  from_main <- role_is "MAIN" payload ;;
  if from_main
  then modify (set_main_last_heartbeat now) ;;; modify (set_main ONLINE)
  else
    from_moderator <- role_is "MODERATOR" payload ;;
    when from_moderator (modify (set_moderator ONLINE)).

Definition control_branch (active connected : bool) (payload : value)
  : Py State unit :=
  has_command <- eval (py_in "command" payload) ;;
  when (has_command && active) (slide_command connected payload).

Definition dispatch (cfg : Config) (connected : bool) (now : Q)
           (topic : string) (payload : value) : Py State unit :=
  let prefix := mqtt_topic_prefix cfg in
  if on_topic prefix "timer" topic then timer_branch now payload
  else if on_topic prefix "presenter" topic then presenter_branch payload
  else if on_topic prefix "announcement" topic
       then announcement_branch payload
  else if on_topic prefix "heartbeat" topic
       then heartbeat_branch now payload
  else if on_topic prefix "control" topic
       then control_branch (is_active cfg) connected payload
  else ret tt.

(** [payload] is [None] when [json.loads(msg.payload.decode())] raises. *)
Definition on_mqtt_message (now : Q) (topic : string)
           (payload : option value) (w : World) : World :=
  exec
    (try_except
       (p <- eval payload ;;
        on_STATE (dispatch (CONFIG w) (powerpoint_connected w) now topic p))
       (ret tt))
    w.

(** *** The buttons of BackupWindow *)

Definition failover_message (w : World) (now : Q) (action : string)
  : value :=
  VDict [("device_id", VStr (device_id (CONFIG w)));
         ("timestamp", VNum now);
         ("action", VStr action)].

Definition activate_backup (now : Q) (w : World) : World :=
  let w1 := with_CONFIG (set_is_active true (CONFIG w)) w in
  let w2 := publish "control/failover" (failover_message w1 now "TAKEOVER") w1
  in
  if powerpoint_enabled (CONFIG w2) && negb (powerpoint_connected w2)
  then with_connected true w2
  else w2.

Definition deactivate_backup (now : Q) (w : World) : World :=
  let w1 := with_CONFIG (set_is_active false (CONFIG w)) w in
  publish "control/failover" (failover_message w1 now "STANDBY") w1.

(** *** MainMonitor *)

(** What [requests.get(main_api_url + "/api/state", timeout=2)] gave:
    a [RequestException], or a response with its status code and, when the
    body is JSON, the decoded body. *)
Inductive Response : Type :=
| RequestException
| HttpResponse (status_code : Z) (json : option value).

Definition sync_keys : list string :=
  ["current_presenter"; "current_topic"; "timer_seconds"; "timer_running";
   "announcement"; "announcement_visible"; "current_slide"; "total_slides"].

(** [STATE[key] = v] for the keys the reconciliation loop names. *)
Definition setitem (key : string) (v : value) (st : State) : State :=
  if String.eqb key "current_presenter" then set_current_presenter v st
  else if String.eqb key "current_topic" then set_current_topic v st
  else if String.eqb key "timer_seconds" then set_timer_seconds v st
  else if String.eqb key "timer_running" then set_timer_running v st
  else if String.eqb key "announcement" then set_announcement v st
  else if String.eqb key "announcement_visible"
       then set_announcement_visible v st
  else if String.eqb key "current_slide" then set_current_slide v st
  else if String.eqb key "total_slides" then set_total_slides v st
  else st.

Fixpoint sync_fields (keys : list string) (main_state : value)
  : Py State unit :=
  match keys with
  | [] => ret tt
  | key :: rest =>
      present <- eval (py_in key main_state) ;;
      when present
        (v <- eval (py_getitem main_state key) ;;
         modify (setitem key v)) ;;;
      sync_fields rest main_state
  end.

(** The inner [try] of the iteration: the fetch and the copy.  A
    [RequestException] is passed over; any other exception leaves the
    block. *)
Definition fetch_main_state (resp : Response) : Py State unit :=
  match resp with
  | RequestException => ret tt
  | HttpResponse status_code json =>
      when (Z.eqb status_code 200)
        (main_state <- eval json ;;
         sync_fields sync_keys main_state)
  end.

Definition heartbeat_message (w : World) (now : Q) : value :=
  VDict [("timestamp", VNum now);
         ("role", VStr (device_role (CONFIG w)));
         ("status",
          VStr (if is_active (CONFIG w) then "ACTIVE" else "STANDBY"))].

Definition timed_out (now : Q) (w : World) : bool :=
  negb (Qle_bool (now - main_last_heartbeat (STATE w))
                 (failover_timeout (CONFIG w))).

Definition main_online (w : World) : bool :=
  match main (device_status (STATE w)) with
  | ONLINE => true
  | _ => false
  end.

(** One round of the [while self.running] loop of [MainMonitor.run], up to
    the [time.sleep]; [resp] is what the HTTP request gives if it is made. *)
Definition run_iteration (now : Q) (resp : Response) : Py World unit :=
  try_except
    (w <- get ;;
     modify (publish ("heartbeat/" ++ device_id (CONFIG w))
                     (heartbeat_message w now)) ;;;
     w <- get ;;
     (if timed_out now w
      then when (negb (is_active (CONFIG w))) (modify (emit failover_signal))
           ;;; on_STATE (modify (set_main OFFLINE))
      else on_STATE (modify (set_main ONLINE))) ;;;
     w <- get ;;
     modify (emit (status_signal (main (device_status (STATE w))))) ;;;
     w <- get ;;
     when (main_online w && negb (is_active (CONFIG w)))
       (on_STATE (fetch_main_state resp)))
    (ret tt).

(** The slots that [main()] connects to the two signals: the failover
    signal calls [window.activate_backup()], the status signal only logs. *)
Definition slot (now : Q) (w : World) (sg : Signal) : World :=
  match sg with
  | failover_signal => activate_backup now w
  | status_signal _ => w
  end.

(** The GUI thread handing the queued signals to their slots. *)
Definition process_events (now : Q) (w : World) : World :=
  fold_left (slot now) (event_queue w) (with_queue [] w).

(** One periodic check: a monitor round followed by the delivery of the
    signals it emitted. *)
Definition check (now : Q) (resp : Response) (w : World) : World :=
  process_events now (exec (run_iteration now resp) w).

(** *** SystemMonitor *)

Definition health_message (h : Health) : value :=
  VDict [("cpu", VNum (cpu h)); ("memory", VNum (memory h));
         ("disk", VNum (disk h)); ("network", VStr (network h))].

Definition health_iteration (h : Health) (w : World) : World :=
  publish ("health/" ++ device_id (CONFIG w)) (health_message h)
          (with_STATE (set_system_health h (STATE w)) w).

(** *** Everything that can happen to the process *)

Inductive Operation : Type :=
| OpMessage (now : Q) (topic : string) (payload : option value)
| OpMonitor (now : Q) (resp : Response)
| OpEvents (now : Q)
| OpHealth (h : Health)
| OpUpdateUi (now : Q)
| OpActivate (now : Q)
| OpDeactivate (now : Q).

Definition step (op : Operation) (w : World) : World :=
  match op with
  | OpMessage now topic payload => on_mqtt_message now topic payload w
  | OpMonitor now resp => exec (run_iteration now resp) w
  | OpEvents now => process_events now w
  | OpHealth h => health_iteration h w
  | OpUpdateUi now => with_STATE (update_ui now (STATE w)) w
  | OpActivate now => activate_backup now w
  | OpDeactivate now => deactivate_backup now w
  end.

Definition run (ops : list Operation) (w : World) : World :=
  fold_left (fun w op => step op w) ops w.

(** How many steps of a run take the backup from standby to active. *)
Fixpoint transitions (ops : list Operation) (w : World) : nat :=
  match ops with
  | [] => 0
  | op :: rest =>
      (if negb (is_active (CONFIG w)) && is_active (CONFIG (step op w))
       then 1 else 0)
      + transitions rest (step op w)
  end.

(** *** Failover bookkeeping *)

(** A publication whose payload carries [action = "TAKEOVER"]. *)
Definition is_takeover (p : Publication) : bool :=
  match py_getitem (pub_payload p) "action" with
  | Some v => is_str "TAKEOVER" v
  | None => false
  end.

(** A message the handler treats as a heartbeat of the main: it is on the
    heartbeat topic and [payload["role"] == "MAIN"]. *)
Definition is_main_heartbeat (prefix topic : string)
           (payload : option value) : bool :=
  on_topic prefix "heartbeat" topic &&
  match payload with
  | Some p =>
      match fst (role_is "MAIN" p tt) with
      | Returned b => b
      | Raised => false
      end
  | None => false
  end.

(** The world after the heartbeat publication that opens a monitor round. *)
Definition heartbeat_sent (now : Q) (w : World) : World :=
  publish ("heartbeat/" ++ device_id (CONFIG w)) (heartbeat_message w now) w.

(** A monitor round at [now] whose signals reach their slots at [t], before
    anything else happens to the process. *)
Definition check_at (now t : Q) (resp : Response) (w : World) : World :=
  process_events t (exec (run_iteration now resp) w).

(** An operation that brings no news of the main and is not the operator's
    return to standby: any operation but a heartbeat of the main and
    [deactivate_backup]. *)
Definition calm (prefix : string) (op : Operation) : Prop :=
  match op with
  | OpMessage _ topic payload => is_main_heartbeat prefix topic payload = false
  | OpDeactivate _ => False
  | _ => True
  end.

(** The two publications of a check that takes over. *)
Definition heartbeat_publication (now : Q) (w : World) : Publication :=
  {| pub_topic :=
       mqtt_topic_prefix (CONFIG w) ++ "heartbeat/" ++ device_id (CONFIG w);
     pub_payload := heartbeat_message w now |}.

Definition takeover_publication (now : Q) (w : World) : Publication :=
  {| pub_topic := mqtt_topic_prefix (CONFIG w) ++ "control/failover";
     pub_payload :=
       VDict [("device_id", VStr (device_id (CONFIG w)));
              ("timestamp", VNum now);
              ("action", VStr "TAKEOVER")] |}.

(** The reconciliation pull, in the words of its comment: a key of the
    fetched object replaces the local value, an absent key keeps it. *)
Definition merged (d : list (string * value)) (key : string) (old : value)
  : value :=
  match assoc key d with
  | Some v => v
  | None => old
  end.

End Backup.

(** ** Vocabulary of the statements *)

(** [m] never changes the observation [f] of the state, raise or not. *)
Definition keeps {S B A : Type} (f : S -> B) (m : Py S A) : Prop :=
  forall s, f (snd (m s)) = f s.

(** [m] keeps the property [P] of the state, raise or not. *)
Definition preserves {S A : Type} (P : S -> Prop) (m : Py S A) : Prop :=
  forall s, P s -> P (snd (m s)).

(** * Properties *)

Ltac py_step :=
  cbv beta iota delta
    [exec try_except bind ret get modify eval when fst snd];
  cbn -[Qle_bool Qeq_bool Qplus Qminus Qopp inject_Z py_int fits_float
        time_plus String.prefix String.eqb String.append assoc].

(** ** Slide bounds *)

Lemma Qle_bool_inject_Z (a b : Z) :
  Qle_bool (inject_Z a) (inject_Z b) = (a <=? b)%Z.
Proof.
  destruct (Z.leb_spec a b) as [H | H].
  - apply Qle_bool_iff. now rewrite <- Zle_Qle.
  - destruct (Qle_bool (inject_Z a) (inject_Z b)) eqn:E; [|reflexivity].
    apply Qle_bool_iff in E. rewrite <- Zle_Qle in E. lia.
Qed.

Lemma goto_slide_num (n total : Q) (st : State) :
  total_slides st = VNum total ->
  PowerPointController.goto_slide true (VNum n) st =
  if Qle_bool 1 n && Qle_bool n total
  then (Returned true, set_current_slide (VNum n) st)
  else (Returned false, st).
Proof.
  intros Ht. unfold PowerPointController.goto_slide,
    PowerPointController.in_range, py_le. py_step.
  rewrite Ht. cbn [as_num negb].
  destruct (Qle_bool 1 n); [destruct (Qle_bool n total)|]; reflexivity.
Qed.

(** C5. On a connected controller whose deck has [total] slides,
    [goto_slide n] with [1 <= n <= total] returns [True] and leaves
    [STATE] with [current_slide] equal to [n] and every other key as it
    was; with [n] outside [1..total] it returns [False] and leaves [STATE],
    so [current_slide], as it was. *)
Theorem goto_slide_bounds (n total : Z) (st : State) :
  total_slides st = VNum (inject_Z total) ->
  ((1 <= n <= total)%Z ->
   PowerPointController.goto_slide true (VNum (inject_Z n)) st =
   (Returned true,
    {| current_presenter := current_presenter st;
       current_topic := current_topic st;
       timer_seconds := timer_seconds st;
       timer_running := timer_running st;
       timer_end_time := timer_end_time st;
       announcement := announcement st;
       announcement_visible := announcement_visible st;
       current_slide := VNum (inject_Z n);
       total_slides := total_slides st;
       device_status := device_status st;
       system_health := system_health st;
       main_last_heartbeat := main_last_heartbeat st;
       connected_clients := connected_clients st |}) /\
   current_slide
     (snd (PowerPointController.goto_slide true (VNum (inject_Z n)) st))
   = VNum (inject_Z n)) /\
  (~ (1 <= n <= total)%Z ->
   PowerPointController.goto_slide true (VNum (inject_Z n)) st =
   (Returned false, st) /\
   current_slide
     (snd (PowerPointController.goto_slide true (VNum (inject_Z n)) st))
   = current_slide st).
Proof.
  intros Ht. rewrite (goto_slide_num _ _ _ Ht).
  change 1 with (inject_Z 1). rewrite !Qle_bool_inject_Z.
  split; intros H.
  - destruct H as [H1 H2].
    apply Z.leb_le in H1, H2. rewrite H1, H2. now destruct st.
  - destruct (Z.leb_spec 1 n); [destruct (Z.leb_spec n total)|];
      try (split; reflexivity). lia.
Qed.

Lemma goto_slide_bounds_witness :
  current_slide
    (snd (PowerPointController.goto_slide true (VNum (inject_Z 7))
            App.initial_state)) = VNum (inject_Z 7) /\
  PowerPointController.goto_slide true (VNum (inject_Z 31)) App.initial_state
  = (Returned false, App.initial_state).
Proof.
  split.
  - apply (goto_slide_bounds 7 30 App.initial_state); [reflexivity | lia].
  - apply (goto_slide_bounds 31 30 App.initial_state); [reflexivity | lia].
Defined.

(** ** Topic dispatch *)

Lemma prefix_app_distinct (p a b t : string) :
  (forall t', String.prefix a t' = true -> String.prefix b t' = false) ->
  String.prefix (p ++ a) t = true -> String.prefix (p ++ b) t = false.
Proof.
  intros Hab. revert t. induction p as [|c p IH]; intros t; cbn.
  - apply Hab.
  - destruct t as [|c' t]; cbn; [discriminate|].
    destruct (ascii_dec c c'); [apply IH | discriminate].
Qed.

Lemma first_char_distinct (c1 c2 : ascii) (a b t : string) :
  c1 <> c2 ->
  String.prefix (String c1 a) t = true ->
  String.prefix (String c2 b) t = false.
Proof.
  intros Hne. destruct t as [|c t]; cbn; [discriminate|].
  destruct (ascii_dec c1 c); [|discriminate]. subst c.
  destruct (ascii_dec c2 c1); [congruence | reflexivity].
Qed.

(** Two topic families whose names start with different characters never
    match the same topic. *)
Lemma on_topic_distinct (p : string) (c1 c2 : ascii) (a b t : string) :
  on_topic p (String c1 a) t = true -> c1 <> c2 ->
  on_topic p (String c2 b) t = false.
Proof.
  intros H Hne. revert H. unfold on_topic. apply prefix_app_distinct.
  intros t'. cbn [String.append]. now apply first_char_distinct.
Qed.

Ltac other_topic H name :=
  match name with
  | String ?c ?rest =>
      rewrite (on_topic_distinct _ _ c _ rest _ H) by discriminate
  end.

Lemma App_dispatch_announcement cfg connected now topic p :
  on_topic (App.mqtt_topic_prefix cfg) "announcement" topic = true ->
  App.dispatch cfg connected now topic p = announcement_branch p.
Proof.
  intros H. unfold App.dispatch. cbv zeta.
  other_topic H "timer".
  other_topic H "presenter".
  now rewrite H.
Qed.

Lemma Backup_dispatch_announcement cfg connected now topic p :
  on_topic (Backup.mqtt_topic_prefix cfg) "announcement" topic = true ->
  Backup.dispatch cfg connected now topic p = announcement_branch p.
Proof.
  intros H. unfold Backup.dispatch. cbv zeta.
  other_topic H "timer".
  other_topic H "presenter".
  now rewrite H.
Qed.

Lemma App_dispatch_control cfg connected now topic p :
  on_topic (App.mqtt_topic_prefix cfg) "control" topic = true ->
  App.dispatch cfg connected now topic p = App.control_branch connected p.
Proof.
  intros H. unfold App.dispatch. cbv zeta.
  other_topic H "timer".
  other_topic H "presenter".
  other_topic H "announcement".
  other_topic H "heartbeat".
  now rewrite H.
Qed.

Lemma Backup_dispatch_control cfg connected now topic p :
  on_topic (Backup.mqtt_topic_prefix cfg) "control" topic = true ->
  Backup.dispatch cfg connected now topic p =
  Backup.control_branch (Backup.is_active cfg) connected p.
Proof.
  intros H. unfold Backup.dispatch. cbv zeta.
  other_topic H "timer".
  other_topic H "presenter".
  other_topic H "announcement".
  other_topic H "heartbeat".
  now rewrite H.
Qed.

Lemma Backup_dispatch_heartbeat cfg connected now topic p :
  on_topic (Backup.mqtt_topic_prefix cfg) "heartbeat" topic = true ->
  Backup.dispatch cfg connected now topic p = Backup.heartbeat_branch now p.
Proof.
  intros H. unfold Backup.dispatch. cbv zeta.
  other_topic H "timer".
  other_topic H "presenter".
  other_topic H "announcement".
  now rewrite H.
Qed.

(** ** The handlers and [STATE] *)

Lemma broadcast_keeps_STATE fails w :
  App.STATE (App.broadcast_state_update fails w) = App.STATE w.
Proof.
  unfold App.broadcast_state_update.
  destruct (App.websocket_connections w); [reflexivity|].
  now destruct (App.broadcast_loop _ _ _ _ _ _).
Qed.

(** What the main's handler does to [STATE] is what the branch it selects
    does, whether or not the branch raises. *)
Lemma App_on_mqtt_message_STATE fails now topic p w :
  App.STATE (App.on_mqtt_message fails now topic (Some p) w) =
  exec (App.dispatch (App.CONFIG w) (App.powerpoint_connected w) now topic p)
       (App.STATE w).
Proof.
  unfold App.on_mqtt_message, App.on_STATE.
  cbv beta iota delta [exec try_except bind ret get modify eval fst snd].
  destruct (App.dispatch _ _ _ _ _ _) as [[[]|] st]; cbn [snd].
  - now rewrite broadcast_keeps_STATE.
  - reflexivity.
Qed.

Lemma Backup_on_mqtt_message_eq now topic p w :
  Backup.on_mqtt_message now topic (Some p) w =
  Backup.with_STATE
    (exec (Backup.dispatch (Backup.CONFIG w) (Backup.powerpoint_connected w)
                           now topic p)
          (Backup.STATE w))
    w.
Proof.
  unfold Backup.on_mqtt_message, Backup.on_STATE.
  cbv beta iota delta [exec try_except bind ret get modify eval fst snd].
  now destruct (Backup.dispatch _ _ _ _ _ _) as [[[]|] st].
Qed.

Lemma Backup_on_mqtt_message_undecodable now topic w :
  Backup.on_mqtt_message now topic None w = w.
Proof. reflexivity. Qed.

(** ** Announcements *)

Lemma announcement_branch_dict (d : list (string * value)) (st : State) :
  exec (announcement_branch (VDict d)) st =
  match assoc "message" d with
  | Some m => set_announcement_visible (VBool true) (set_announcement m st)
  | None => st
  end.
Proof.
  unfold announcement_branch. py_step.
  now destruct (assoc "message" d).
Qed.

(** C8, as the code has it.  In both processes, a decoded announcement
    payload that is an object with a ["message"] key stores the message and
    sets [announcement_visible] to [True]; an object without that key leaves
    [STATE] as it was, visibility included. *)
Theorem announcement_sets_visible_when_message_present
        fails now topic (d : list (string * value)) (wa : App.World)
        (wb : Backup.World) :
  on_topic (App.mqtt_topic_prefix (App.CONFIG wa)) "announcement" topic
  = true ->
  on_topic (Backup.mqtt_topic_prefix (Backup.CONFIG wb)) "announcement" topic
  = true ->
  let sa := App.STATE
              (App.on_mqtt_message fails now topic (Some (VDict d)) wa) in
  let sb := Backup.STATE
              (Backup.on_mqtt_message now topic (Some (VDict d)) wb) in
  (forall m, assoc "message" d = Some m ->
     announcement_visible sa = VBool true /\ announcement sa = m /\
     announcement_visible sb = VBool true /\ announcement sb = m) /\
  (assoc "message" d = None ->
     sa = App.STATE wa /\ sb = Backup.STATE wb).
Proof.
  intros Ha Hb sa sb. subst sa sb.
  rewrite App_on_mqtt_message_STATE, Backup_on_mqtt_message_eq.
  rewrite (App_dispatch_announcement _ _ _ _ _ Ha).
  rewrite (Backup_dispatch_announcement _ _ _ _ _ Hb).
  cbn [Backup.STATE Backup.with_STATE].
  rewrite !announcement_branch_dict.
  split.
  - intros m Hm. rewrite Hm. cbn. auto.
  - intros Hm. rewrite Hm. auto.
Qed.

Lemma announcement_sets_visible_witness :
  announcement_visible
    (App.STATE
       (App.on_mqtt_message (fun _ => false) 0 "conference/announcement/new"
          (Some (VDict [("message", VStr "Break at 10")]))
          (App.initial_world "main"))) = VBool true.
Proof.
  destruct (announcement_sets_visible_when_message_present
              (fun _ => false) 0 "conference/announcement/new"
              [("message", VStr "Break at 10")]
              (App.initial_world "main") (Backup.initial_world "backup-1" 0)
              eq_refl eq_refl) as [H _].
  exact (proj1 (H (VStr "Break at 10") eq_refl)).
Defined.

(** C8 as stated fails: an empty object is a decoded announcement payload
    (the [message] key is optional), and handling it from the initial state
    leaves [announcement_visible] at [False] in both processes. *)
Lemma announcement_without_message_stays_hidden :
  announcement_visible
    (App.STATE
       (App.on_mqtt_message (fun _ => false) 0 "conference/announcement/new"
          (Some (VDict [])) (App.initial_world "main"))) <> VBool true /\
  announcement_visible
    (Backup.STATE
       (Backup.on_mqtt_message 0 "conference/announcement/new"
          (Some (VDict [])) (Backup.initial_world "backup-1" 0)))
  <> VBool true.
Proof. split; vm_compute; discriminate. Qed.

(** ** Frame reasoning: what a statement leaves alone *)

Section Frame.

Context {S B : Type} (f : S -> B).

Lemma keeps_ret {A} (a : A) : keeps f (ret a).
Proof. now intros s. Qed.

Lemma keeps_get : keeps f get.
Proof. now intros s. Qed.

Lemma keeps_eval {A} (o : option A) : keeps f (eval o).
Proof. intros s. now destruct o. Qed.

Lemma keeps_modify (g : S -> S) :
  (forall s, f (g s) = f s) -> keeps f (modify g).
Proof. intros H s. apply H. Qed.

Lemma keeps_bind {A C} (m : Py S A) (k : A -> Py S C) :
  keeps f m -> (forall a, keeps f (k a)) -> keeps f (bind m k).
Proof.
  intros Hm Hk s. unfold bind. specialize (Hm s).
  destruct (m s) as [[a|] s']; cbn [snd] in *.
  - now rewrite Hk.
  - exact Hm.
Qed.

Lemma keeps_try_except {A} (body handler : Py S A) :
  keeps f body -> keeps f handler -> keeps f (try_except body handler).
Proof.
  intros Hb Hh s. unfold try_except. specialize (Hb s).
  destruct (body s) as [[a|] s']; cbn [snd] in *.
  - exact Hb.
  - now rewrite Hh.
Qed.

Lemma keeps_when (b : bool) (m : Py S unit) :
  keeps f m -> keeps f (when b m).
Proof. intros H. destruct b; [exact H | apply keeps_ret]. Qed.

Lemma keeps_if {A} (b : bool) (m1 m2 : Py S A) :
  keeps f m1 -> keeps f m2 -> keeps f (if b then m1 else m2).
Proof. now destruct b. Qed.

Lemma keeps_exec {A} (m : Py S A) (s : S) : keeps f m -> f (exec m s) = f s.
Proof. intros H. apply H. Qed.

End Frame.

Ltac keeps_tac :=
  repeat first
    [ apply keeps_ret | apply keeps_get | apply keeps_eval
    | apply keeps_when | apply keeps_if | apply keeps_try_except
    | apply keeps_bind; [|intro]
    | apply keeps_modify; intro; reflexivity ].

Lemma role_is_keeps {S B} (f : S -> B) r p : keeps f (role_is r p).
Proof. unfold role_is. keeps_tac. Qed.

Lemma command_is_keeps {S B} (f : S -> B) c p : keeps f (command_is c p).
Proof. unfold command_is. keeps_tac. Qed.

Lemma Backup_with_STATE_same (w : Backup.World) :
  Backup.with_STATE (Backup.STATE w) w = w.
Proof. now destruct w. Qed.

(** ** Control messages on a standby backup *)

Lemma control_branch_standby connected p (st : State) :
  exec (Backup.control_branch false connected p) st = st.
Proof.
  unfold Backup.control_branch. py_step.
  destruct (py_in "command" p) as [b|]; [|reflexivity].
  now rewrite andb_false_r.
Qed.

Lemma timer_branch_keeps_slide now p : keeps current_slide (timer_branch now p).
Proof. unfold timer_branch. keeps_tac. Qed.

Lemma presenter_branch_keeps_slide p : keeps current_slide (presenter_branch p).
Proof. unfold presenter_branch. keeps_tac. Qed.

Lemma announcement_branch_keeps_slide p :
  keeps current_slide (announcement_branch p).
Proof. unfold announcement_branch. keeps_tac. Qed.

Lemma Backup_heartbeat_keeps_slide now p :
  keeps current_slide (Backup.heartbeat_branch now p).
Proof.
  unfold Backup.heartbeat_branch.
  apply keeps_bind; [apply role_is_keeps | intro].
  apply keeps_if; [keeps_tac|].
  apply keeps_bind; [apply role_is_keeps | intro]. keeps_tac.
Qed.

(** C10. While the backup is in standby ([CONFIG["is_active"]] false), a
    message on the control topic changes nothing at all, whatever its
    payload ([next_slide], [previous_slide], [goto_slide] or anything
    else); and no message on any topic moves [current_slide].  So a slide
    command moves the slide on the backup only while it is active. *)
Theorem standby_ignores_control now topic payload (w : Backup.World) :
  Backup.is_active (Backup.CONFIG w) = false ->
  (on_topic (Backup.mqtt_topic_prefix (Backup.CONFIG w)) "control" topic
   = true ->
   Backup.on_mqtt_message now topic payload w = w) /\
  current_slide (Backup.STATE (Backup.on_mqtt_message now topic payload w))
  = current_slide (Backup.STATE w).
Proof.
  intros Hstandby. destruct payload as [p|]; [|split; reflexivity].
  rewrite Backup_on_mqtt_message_eq. split.
  - intros Htopic.
    rewrite (Backup_dispatch_control _ _ _ _ _ Htopic), Hstandby.
    rewrite control_branch_standby. apply Backup_with_STATE_same.
  - cbn [Backup.STATE Backup.with_STATE].
    apply (keeps_exec current_slide). unfold Backup.dispatch. cbv zeta.
    rewrite Hstandby.
    repeat apply keeps_if.
    + apply timer_branch_keeps_slide.
    + apply presenter_branch_keeps_slide.
    + apply announcement_branch_keeps_slide.
    + apply Backup_heartbeat_keeps_slide.
    + intros st. unfold exec in *.
      change (snd (Backup.control_branch false
                     (Backup.powerpoint_connected w) p st))
        with (exec (Backup.control_branch false
                      (Backup.powerpoint_connected w) p) st).
      now rewrite control_branch_standby.
    + apply keeps_ret.
Qed.

Lemma standby_ignores_control_witness :
  Backup.on_mqtt_message 100 "conference/control/slide"
    (Some (VDict [("command", VStr "next_slide")]))
    (Backup.initial_world "backup-1" 0)
  = Backup.initial_world "backup-1" 0.
Proof.
  exact (proj1 (standby_ignores_control 100 "conference/control/slide"
                  (Some (VDict [("command", VStr "next_slide")]))
                  (Backup.initial_world "backup-1" 0) eq_refl) eq_refl).
Defined.

Example active_backup_obeys_control :
  let w := Backup.activate_backup 50 (Backup.initial_world "backup-1" 0) in
  current_slide
    (Backup.STATE
       (Backup.on_mqtt_message 100 "conference/control/slide"
          (Some (VDict [("command", VStr "next_slide")])) w))
  = VNum 2.
Proof. reflexivity. Qed.

(** ** No automatic demotion *)

Lemma heartbeat_from_main now (d : list (string * value)) (st : State) :
  assoc "role" d = Some (VStr "MAIN") ->
  exec (Backup.heartbeat_branch now (VDict d)) st =
  set_main ONLINE (set_main_last_heartbeat now st).
Proof.
  intros Hrole. unfold Backup.heartbeat_branch, role_is. py_step.
  rewrite Hrole. reflexivity.
Qed.

Lemma on_STATE_keeps_CONFIG {A} (m : Py State A) :
  keeps Backup.CONFIG (Backup.on_STATE m).
Proof.
  intros w. unfold Backup.on_STATE. now destruct (m (Backup.STATE w)).
Qed.

Lemma run_iteration_keeps_CONFIG now resp :
  keeps Backup.CONFIG (Backup.run_iteration now resp).
Proof.
  unfold Backup.run_iteration.
  repeat first
    [ apply on_STATE_keeps_CONFIG
    | apply keeps_ret | apply keeps_get | apply keeps_when | apply keeps_if
    | apply keeps_try_except | apply keeps_bind; [|intro]
    | apply keeps_modify; intro; reflexivity ].
Qed.

Lemma slot_stays_active now sg (w : Backup.World) :
  Backup.is_active (Backup.CONFIG w) = true ->
  Backup.is_active (Backup.CONFIG (Backup.slot now w sg)) = true.
Proof.
  intros H. destruct sg; [|exact H]. unfold Backup.slot, Backup.activate_backup.
  cbv zeta. now destruct (_ && _).
Qed.

Lemma slots_stay_active now q (w : Backup.World) :
  Backup.is_active (Backup.CONFIG w) = true ->
  Backup.is_active (Backup.CONFIG (fold_left (Backup.slot now) q w)) = true.
Proof.
  revert w. induction q as [|sg q IH]; intros w H; cbn; [exact H|].
  apply IH. now apply slot_stays_active.
Qed.

Lemma step_stays_active op (w : Backup.World) :
  Backup.is_active (Backup.CONFIG w) = true ->
  (forall now, op <> Backup.OpDeactivate now) ->
  Backup.is_active (Backup.CONFIG (Backup.step op w)) = true.
Proof.
  intros H Hop. destruct op as [now topic payload|now resp|now|h|now|now|now];
    cbn [Backup.step].
  - destruct payload as [p|]; [|exact H].
    now rewrite Backup_on_mqtt_message_eq.
  - now rewrite (keeps_exec Backup.CONFIG _ _
                   (run_iteration_keeps_CONFIG now resp)).
  - unfold Backup.process_events. now apply slots_stay_active.
  - exact H.
  - exact H.
  - unfold Backup.activate_backup. cbv zeta. now destruct (_ && _).
  - now elim (Hop now).
Qed.

(** C2. On an active backup ([CONFIG["is_active"]] true):
    - no MQTT message, of any topic and payload, changes [CONFIG];
    - a heartbeat whose [role] is ["MAIN"] changes exactly
      [STATE["main_last_heartbeat"]] (to the receipt time) and
      [STATE["device_status"]["main"]] (to ONLINE);
    - an operation of the process after which the backup is in standby is
      the manual [deactivate_backup];
    - so any sequence of operations without [deactivate_backup] leaves it
      active. *)
Theorem no_auto_demotion (w : Backup.World) :
  Backup.is_active (Backup.CONFIG w) = true ->
  (forall now topic payload,
     Backup.CONFIG (Backup.on_mqtt_message now topic payload w)
     = Backup.CONFIG w) /\
  (forall now topic d,
     on_topic (Backup.mqtt_topic_prefix (Backup.CONFIG w)) "heartbeat" topic
     = true ->
     assoc "role" d = Some (VStr "MAIN") ->
     Backup.on_mqtt_message now topic (Some (VDict d)) w =
     Backup.with_STATE
       (set_main ONLINE (set_main_last_heartbeat now (Backup.STATE w))) w) /\
  (forall op,
     Backup.is_active (Backup.CONFIG (Backup.step op w)) = false ->
     exists now, op = Backup.OpDeactivate now) /\
  (forall ops,
     (forall now, ~ In (Backup.OpDeactivate now) ops) ->
     Backup.is_active (Backup.CONFIG (Backup.run ops w)) = true).
Proof.
  intros Hactive. repeat split.
  - intros now topic [p|]; [|reflexivity].
    now rewrite Backup_on_mqtt_message_eq.
  - intros now topic d Htopic Hrole.
    rewrite Backup_on_mqtt_message_eq.
    rewrite (Backup_dispatch_heartbeat _ _ _ _ _ Htopic).
    now rewrite (heartbeat_from_main _ _ _ Hrole).
  - intros op Hop.
    destruct op as [now topic payload|now resp|now|h|now|now|now];
      try (rewrite step_stays_active in Hop;
           [discriminate | exact Hactive | intros; discriminate]).
    now exists now.
  - intros ops. revert w Hactive.
    induction ops as [|op ops IH]; intros w Hactive Hno; cbn; [exact Hactive|].
    apply IH.
    + apply step_stays_active; [exact Hactive|].
      intros now ->. apply (Hno now). now left.
    + intros now Hin. apply (Hno now). now right.
Qed.

Lemma no_auto_demotion_witness :
  Backup.on_mqtt_message 60 "conference/heartbeat/main"
    (Some (VDict [("timestamp", VNum 60); ("role", VStr "MAIN");
                  ("status", VStr "ACTIVE")]))
    (Backup.activate_backup 50 (Backup.initial_world "backup-1" 0)) =
  Backup.with_STATE
    (set_main ONLINE
       (set_main_last_heartbeat 60
          (Backup.STATE
             (Backup.activate_backup 50
                (Backup.initial_world "backup-1" 0)))))
    (Backup.activate_backup 50 (Backup.initial_world "backup-1" 0)).
Proof.
  exact (proj1 (proj2 (no_auto_demotion
                         (Backup.activate_backup 50
                            (Backup.initial_world "backup-1" 0)) eq_refl))
           60 "conference/heartbeat/main"
           [("timestamp", VNum 60); ("role", VStr "MAIN");
            ("status", VStr "ACTIVE")] eq_refl eq_refl).
Defined.

(** ** The monitor round, written out *)

Lemma run_iteration_eq now resp (w : Backup.World) :
  exec (Backup.run_iteration now resp) w =
  let w1 := Backup.publish ("heartbeat/" ++ Backup.device_id (Backup.CONFIG w))
                           (Backup.heartbeat_message w now) w in
  if Backup.timed_out now w
  then Backup.emit (Backup.status_signal OFFLINE)
         (Backup.with_STATE (set_main OFFLINE (Backup.STATE w))
            (if Backup.is_active (Backup.CONFIG w) then w1
             else Backup.emit Backup.failover_signal w1))
  else
    let w2 := Backup.emit (Backup.status_signal ONLINE)
                (Backup.with_STATE (set_main ONLINE (Backup.STATE w)) w1) in
    if Backup.is_active (Backup.CONFIG w) then w2
    else Backup.with_STATE
           (exec (Backup.fetch_main_state resp)
                 (set_main ONLINE (Backup.STATE w)))
           w2.
Proof.
  unfold Backup.run_iteration, Backup.on_STATE.
  cbv beta iota zeta delta [exec try_except bind ret get modify when fst snd].
  change (Backup.timed_out now (Backup.publish _ _ w))
    with (Backup.timed_out now w).
  cbn [Backup.CONFIG Backup.publish].
  destruct (Backup.timed_out now w).
  - destruct (Backup.is_active (Backup.CONFIG w)); reflexivity.
  - cbn -[Backup.fetch_main_state Backup.heartbeat_message String.append].
    destruct (Backup.is_active (Backup.CONFIG w)); cbn;  [reflexivity|].
    destruct (Backup.fetch_main_state resp _) as [[[]|] st]; reflexivity.
Qed.

(** ** The reconciliation pull *)

Lemma sync_fields_dict keys (d : list (string * value)) (st : State) :
  Backup.sync_fields keys (VDict d) st =
  (Returned tt,
   fold_left
     (fun st key =>
        match assoc key d with
        | Some v => Backup.setitem key v st
        | None => st
        end)
     keys st).
Proof.
  revert st. induction keys as [|key keys IH]; intros st; [reflexivity|].
  cbn [Backup.sync_fields fold_left]. unfold bind at 1. unfold bind at 1.
  cbn [py_in eval py_getitem].
  destruct (assoc key d) as [v|]; cbn; apply IH.
Qed.

Lemma setitem_frame {B} (f : State -> B) :
  (forall v st, f (set_current_presenter v st) = f st) ->
  (forall v st, f (set_current_topic v st) = f st) ->
  (forall v st, f (set_timer_seconds v st) = f st) ->
  (forall v st, f (set_timer_running v st) = f st) ->
  (forall v st, f (set_announcement v st) = f st) ->
  (forall v st, f (set_announcement_visible v st) = f st) ->
  (forall v st, f (set_current_slide v st) = f st) ->
  (forall v st, f (set_total_slides v st) = f st) ->
  forall key v st, f (Backup.setitem key v st) = f st.
Proof.
  intros H1 H2 H3 H4 H5 H6 H7 H8 key v st. unfold Backup.setitem.
  repeat match goal with
         | |- context [if ?b then _ else _] => destruct b
         end; auto.
Qed.

Lemma sync_fields_keeps {B} (f : State -> B) keys main_state :
  (forall key v st, f (Backup.setitem key v st) = f st) ->
  keeps f (Backup.sync_fields keys main_state).
Proof.
  intros Hf. induction keys as [|key keys IH]; cbn [Backup.sync_fields].
  - apply keeps_ret.
  - apply keeps_bind; [apply keeps_eval | intro].
    apply keeps_bind; [|intro; exact IH].
    apply keeps_when. apply keeps_bind; [apply keeps_eval | intro].
    apply keeps_modify. intro. apply Hf.
Qed.

Lemma fetch_main_state_keeps {B} (f : State -> B) resp :
  (forall key v st, f (Backup.setitem key v st) = f st) ->
  keeps f (Backup.fetch_main_state resp).
Proof.
  intros Hf. destruct resp as [|code json]; cbn [Backup.fetch_main_state].
  - apply keeps_ret.
  - apply keeps_when. apply keeps_bind; [apply keeps_eval | intro].
    now apply sync_fields_keeps.
Qed.

(** C9. The reconciliation pull of a monitor round:
    - is made only in standby and with the main seen online: on an active
      backup, or once the heartbeat has timed out, the round ends in the
      same world whatever the HTTP request would give;
    - whatever the response, it leaves [device_status], [system_health],
      [main_last_heartbeat], [timer_end_time] and [connected_clients] of
      [STATE] alone;
    - for a 200 response whose body is a JSON object, each of the eight
      synchronised fields takes the object's value when the object has the
      key and keeps its local value when it has not. *)
Theorem reconciliation_pull_frame (st : State) :
  (forall now resp (w : Backup.World),
     Backup.is_active (Backup.CONFIG w) = true \/
     Backup.timed_out now w = true ->
     exec (Backup.run_iteration now resp) w =
     exec (Backup.run_iteration now Backup.RequestException) w) /\
  (forall resp,
     let st' := exec (Backup.fetch_main_state resp) st in
     device_status st' = device_status st /\
     system_health st' = system_health st /\
     main_last_heartbeat st' = main_last_heartbeat st /\
     timer_end_time st' = timer_end_time st /\
     connected_clients st' = connected_clients st) /\
  (forall d,
     exec (Backup.fetch_main_state
             (Backup.HttpResponse 200 (Some (VDict d)))) st =
     {| current_presenter :=
          Backup.merged d "current_presenter" (current_presenter st);
        current_topic := Backup.merged d "current_topic" (current_topic st);
        timer_seconds := Backup.merged d "timer_seconds" (timer_seconds st);
        timer_running := Backup.merged d "timer_running" (timer_running st);
        timer_end_time := timer_end_time st;
        announcement := Backup.merged d "announcement" (announcement st);
        announcement_visible :=
          Backup.merged d "announcement_visible" (announcement_visible st);
        current_slide := Backup.merged d "current_slide" (current_slide st);
        total_slides := Backup.merged d "total_slides" (total_slides st);
        device_status := device_status st;
        system_health := system_health st;
        main_last_heartbeat := main_last_heartbeat st;
        connected_clients := connected_clients st |}).
Proof.
  split; [|split].
  - intros now resp w H. rewrite !run_iteration_eq. cbv zeta.
    destruct (Backup.timed_out now w); [reflexivity|].
    destruct H as [H | H]; [now rewrite H | discriminate].
  - intros resp st'. subst st'.
    repeat split;
      (apply keeps_exec; apply fetch_main_state_keeps;
       apply setitem_frame; reflexivity).
  - intros d. cbn [Backup.fetch_main_state Z.eqb Pos.eqb when].
    unfold exec, bind. cbn [eval]. rewrite sync_fields_dict.
    cbn [snd Backup.sync_keys fold_left]. unfold Backup.merged.
    destruct st.
    destruct (assoc "current_presenter" d), (assoc "current_topic" d),
      (assoc "timer_seconds" d), (assoc "timer_running" d),
      (assoc "announcement" d), (assoc "announcement_visible" d),
      (assoc "current_slide" d), (assoc "total_slides" d); reflexivity.
Qed.

(** ** The periodic liveness check *)

(** A check on a backup with no signal pending, case by case. *)
Lemma check_eq now resp (w : Backup.World) :
  Backup.event_queue w = [] ->
  Backup.check now resp w =
  if Backup.timed_out now w
  then
    let w1 := Backup.with_STATE (set_main OFFLINE (Backup.STATE w))
                                (Backup.heartbeat_sent now w) in
    if Backup.is_active (Backup.CONFIG w) then w1
    else Backup.activate_backup now w1
  else
    Backup.with_STATE
      (if Backup.is_active (Backup.CONFIG w)
       then set_main ONLINE (Backup.STATE w)
       else exec (Backup.fetch_main_state resp)
                 (set_main ONLINE (Backup.STATE w)))
      (Backup.heartbeat_sent now w).
Proof.
  intros Hq. unfold Backup.check. rewrite run_iteration_eq. cbv zeta.
  unfold Backup.heartbeat_sent, Backup.process_events, Backup.emit.
  destruct w as [cfg st conn pubs q]. cbn in Hq. subst q.
  cbn -[Backup.fetch_main_state Backup.heartbeat_message String.append
        Backup.timed_out].
  destruct (Backup.timed_out now _);
    destruct (Backup.is_active cfg); reflexivity.
Qed.

Lemma timed_out_iff now (w : Backup.World) :
  Backup.timed_out now w = true <->
  Backup.failover_timeout (Backup.CONFIG w)
  < now - main_last_heartbeat (Backup.STATE w).
Proof.
  unfold Backup.timed_out. rewrite negb_true_iff. split.
  - intros H. apply Qnot_le_lt. intros Hle.
    apply Qle_bool_iff in Hle. congruence.
  - intros H. destruct (Qle_bool _ _) eqn:E; [|reflexivity].
    apply Qle_bool_iff in E. now apply Qlt_not_le in H.
Qed.

Lemma slide_command_keeps_heartbeat connected p :
  keeps main_last_heartbeat (slide_command connected p).
Proof.
  unfold slide_command, command_is, PowerPointController.next_slide,
    PowerPointController.previous_slide, PowerPointController.goto_slide.
  keeps_tac.
Qed.

Lemma role_is_pure {S} r p (s : S) :
  role_is r p s = (fst (role_is r p tt), s).
Proof.
  unfold role_is, bind, eval, ret.
  destruct (py_in "role" p) as [[]|]; try reflexivity.
  now destruct (py_getitem p "role").
Qed.

(** A message that is not a heartbeat of the main leaves the time of its
    last heartbeat alone. *)
Lemma dispatch_keeps_heartbeat cfg connected now topic p :
  Backup.is_main_heartbeat (Backup.mqtt_topic_prefix cfg) topic (Some p)
  = false ->
  keeps main_last_heartbeat (Backup.dispatch cfg connected now topic p).
Proof.
  intros Hq. unfold Backup.dispatch. cbv zeta.
  unfold Backup.is_main_heartbeat in Hq.
  destruct (on_topic _ "timer" topic); [unfold timer_branch; keeps_tac|].
  destruct (on_topic _ "presenter" topic);
    [unfold presenter_branch; keeps_tac|].
  destruct (on_topic _ "announcement" topic);
    [unfold announcement_branch; keeps_tac|].
  destruct (on_topic _ "heartbeat" topic).
  - cbn [andb] in Hq. intros st. unfold Backup.heartbeat_branch.
    unfold bind at 1. rewrite role_is_pure.
    destruct (fst (role_is "MAIN" p tt)) as [[]|];
      [discriminate| |reflexivity].
    revert st.
    change (keeps main_last_heartbeat
              (bind (role_is "MODERATOR" p)
                 (fun from_moderator : bool =>
                    when from_moderator (modify (set_moderator ONLINE))))).
    apply keeps_bind; [apply role_is_keeps | intro]. keeps_tac.
  - destruct (on_topic _ "control" topic); [|apply keeps_ret].
    unfold Backup.control_branch.
    apply keeps_bind; [apply keeps_eval | intro]. apply keeps_when.
    apply slide_command_keeps_heartbeat.
Qed.

Lemma quiet_message now topic payload (w : Backup.World) :
  Backup.is_main_heartbeat (Backup.mqtt_topic_prefix (Backup.CONFIG w))
    topic payload = false ->
  exists st,
    Backup.on_mqtt_message now topic payload w = Backup.with_STATE st w /\
    main_last_heartbeat st = main_last_heartbeat (Backup.STATE w).
Proof.
  intros Hq. destruct payload as [p|].
  - rewrite Backup_on_mqtt_message_eq. eexists. split; [reflexivity|].
    apply keeps_exec. now apply dispatch_keeps_heartbeat.
  - exists (Backup.STATE w). split; [|reflexivity].
    now rewrite Backup_with_STATE_same.
Qed.

Lemma reconciliation_pull_frame_witness :
  exec (Backup.run_iteration 10
          (Backup.HttpResponse 200 (Some (VDict [("current_slide", VNum 5)]))))
       (Backup.activate_backup 5 (Backup.initial_world "backup-1" 0)) =
  exec (Backup.run_iteration 10 Backup.RequestException)
       (Backup.activate_backup 5 (Backup.initial_world "backup-1" 0)).
Proof.
  apply (proj1 (reconciliation_pull_frame (Backup.initial_state 0))).
  left. reflexivity.
Defined.

Example standby_pull_copies_slide :
  current_slide
    (Backup.STATE
       (exec (Backup.run_iteration 10
                (Backup.HttpResponse 200
                   (Some (VDict [("current_slide", VNum 5);
                                 ("device_status", VStr "x")]))))
             (Backup.initial_world "backup-1" 0))) = VNum 5.
Proof. reflexivity. Qed.

(** ** The WebSocket fan-out *)

(** The fuel given by [broadcast_state_update] is enough: the loop has
    stopped by itself before it runs out, so more fuel changes nothing. *)
Lemma broadcast_loop_fuel fails message fuel extra i conns log :
  (List.length conns - i <= fuel)%nat ->
  App.broadcast_loop (fuel + extra) fails message i conns log =
  App.broadcast_loop fuel fails message i conns log.
Proof.
  revert i conns log. induction fuel as [|fuel IH]; intros i conns log Hlen.
  - assert (Hi : nth_error conns i = None)
      by (apply nth_error_None; lia).
    destruct extra; cbn; [reflexivity | now rewrite Hi].
  - cbn. destruct (nth_error conns i) as [ws|] eqn:Hi; [|reflexivity].
    assert (i < List.length conns)%nat
      by (apply nth_error_Some; congruence).
    destruct (fails ws); apply IH.
    + destruct (existsb (Nat.eqb ws) conns); [|lia].
      assert (List.length (App.remove_first ws conns) <= List.length conns)%nat.
      { clear. induction conns as [|y l IHl]; cbn; [lia|].
        destruct (Nat.eqb ws y); cbn; lia. }
      lia.
    + lia.
Qed.

(** When no send fails, every session is sent the snapshot, in order, and
    the list is left as it was. *)
Lemma broadcast_loop_no_failure fails message conns :
  (forall ws, In ws conns -> fails ws = false) ->
  forall done log,
    App.broadcast_loop (List.length conns) fails message (List.length done)
      (done ++ conns)%list log =
    ((done ++ conns)%list,
     (log ++ map (fun ws => (ws, message)) conns)%list).
Proof.
  induction conns as [|ws conns IH]; intros Hok done log; cbn.
  - now rewrite !app_nil_r.
  - rewrite nth_error_app2 by lia. rewrite Nat.sub_diag. cbn.
    rewrite (Hok ws) by now left.
    replace (S (List.length done)) with (List.length (done ++ [ws])%list)
      by (rewrite length_app; cbn; lia).
    replace (done ++ ws :: conns)%list with ((done ++ [ws]) ++ conns)%list
      by now rewrite <- app_assoc.
    rewrite IH by (intros; apply Hok; now right).
    now rewrite <- (app_assoc log).
Qed.

(** C6 at its failing input.  Sessions 1 and 2 are connected and the send
    to session 1 raises: session 1 is pruned, and the loop ends without
    sending anything to session 2. *)
Theorem broadcast_skips_session_after_failure :
  let w := App.with_connections [1; 2]%nat []
             (App.initial_world "main") in
  let w' := App.broadcast_state_update (Nat.eqb 1) w in
  App.websocket_connections w' = [2%nat] /\ App.sent w' = [].
Proof. split; reflexivity. Qed.

Example broadcast_three_sessions :
  let w := App.with_connections [1; 2; 3]%nat []
             (App.initial_world "main") in
  let w' := App.broadcast_state_update (Nat.eqb 1) w in
  App.websocket_connections w' = [2; 3]%nat /\
  map fst (App.sent w') = [3%nat].
Proof. split; reflexivity. Qed.

(** ** The deadline timer *)





Lemma update_ui_running now d (st : State) :
  truthy (timer_running st) = true ->
  timer_end_time st = Some d -> ~ d == 0 ->
  update_ui now st =
  set_timer_seconds (VNum (inject_Z (Z.max 0 (py_int (d - now))))) st.
Proof.
  intros Hrun Hend Hd. unfold update_ui, end_time_set. rewrite Hend, Hrun.
  destruct (Qeq_bool d 0) eqn:E; [|reflexivity].
  apply Qeq_bool_iff in E. contradiction.
Qed.


Lemma start_timer_eq t0 d (w : App.World) :
  timer_seconds (App.STATE w) = VNum d -> fits_float d = true ->
  exec (App.start_timer t0) w =
  App.publish "timer/control" (VDict [("running", VBool true)])
    (App.with_STATE
       (set_timer_end_time (Some (t0 + d))
          (set_timer_running (VBool true) (App.STATE w))) w).
Proof.
  intros Hd Hfit. unfold App.start_timer, App.on_STATE, time_plus. py_step.
  rewrite Hd. cbn [as_num]. rewrite Hfit. reflexivity.
Qed.




Lemma stop_timer_eq (w : App.World) :
  exec App.stop_timer w =
  App.publish "timer/control" (VDict [("running", VBool false)])
    (App.with_STATE
       (set_timer_end_time None
          (set_timer_running (VBool false) (App.STATE w))) w).
Proof. reflexivity. Qed.



(** A deadline of exactly 0 counts as no deadline: after a timer message
    with [-1000] seconds handled at time 1000 the timer runs, its deadline
    is 0, and the window reads the stored [-1000] at any time. *)
Example zero_deadline_reads_stored_seconds :
  timer_end_time
    (App.STATE
       (App.on_mqtt_message (fun _ => false) 1000 "conference/timer/control"
          (Some (VDict [("seconds", VNum (-1000)); ("running", VBool true)]))
          (App.initial_world "main"))) = Some (1000 + -1000) /\
  timer_reading 5
    (App.STATE
       (App.on_mqtt_message (fun _ => false) 1000 "conference/timer/control"
          (Some (VDict [("seconds", VNum (-1000)); ("running", VBool true)]))
          (App.initial_world "main"))) = VNum (-1000).
Proof. split; vm_compute; reflexivity. Qed.


(** ** Stopping the timer *)

(** C3, as the code has it.  [stop_timer] does not read the clock: it
    clears the running flag and the deadline, publishes
    [{"running": false}] and leaves [timer_seconds] as it finds it.  What
    it finds is what the last refresh of the window stored; stopped right
    after a refresh at [now], the timer keeps
    [max(0, int(deadline - now))]. *)
Theorem stop_timer_keeps_timer_seconds (w : App.World) :
  exec App.stop_timer w =
  App.publish "timer/control" (VDict [("running", VBool false)])
    (App.with_STATE
       (set_timer_end_time None
          (set_timer_running (VBool false) (App.STATE w))) w) /\
  timer_running (App.STATE (exec App.stop_timer w)) = VBool false /\
  timer_end_time (App.STATE (exec App.stop_timer w)) = None /\
  timer_seconds (App.STATE (exec App.stop_timer w))
  = timer_seconds (App.STATE w) /\
  (forall d now,
     truthy (timer_running (App.STATE w)) = true ->
     timer_end_time (App.STATE w) = Some d -> ~ d == 0 ->
     timer_seconds
       (App.STATE
          (exec App.stop_timer
             (App.with_STATE (update_ui now (App.STATE w)) w)))
     = VNum (inject_Z (Z.max 0 (py_int (d - now))))).
Proof.
  repeat split.
  intros d now Hrun Hend Hd.
  now rewrite stop_timer_eq, (update_ui_running _ _ _ Hrun Hend Hd).
Qed.

Lemma stop_timer_keeps_timer_seconds_witness :
  timer_seconds
    (App.STATE
       (exec App.stop_timer
          (App.with_STATE
             (update_ui 1100
                (App.STATE
                   (exec (App.start_timer 1000) (App.initial_world "main"))))
             (exec (App.start_timer 1000) (App.initial_world "main")))))
  = VNum (inject_Z (Z.max 0 (py_int (1000 + 600 - 1100)))).
Proof.
  apply (proj2 (proj2 (proj2 (proj2
           (stop_timer_keeps_timer_seconds
              (exec (App.start_timer 1000) (App.initial_world "main"))))))
           (1000 + 600) 1100);
    [reflexivity | reflexivity | unfold Qeq; cbn; lia].
Defined.

(** C3 as stated fails: a 600-second timer started at 1000 has its deadline
    at 1600; stopped before any refresh (at 1100, say, when 500 seconds
    remain), it still holds 600 in [timer_seconds]. *)
Lemma stop_timer_does_not_store_remaining :
  timer_end_time
    (App.STATE (exec (App.start_timer 1000) (App.initial_world "main")))
  = Some (1000 + 600) /\
  timer_seconds
    (App.STATE
       (exec App.stop_timer
          (exec (App.start_timer 1000) (App.initial_world "main"))))
  = VNum 600 /\
  ~ 600 == Qmax 0 (1000 + 600 - 1100).
Proof.
  repeat split. unfold Qeq. vm_compute. discriminate.
Qed.

(** ** Applying a message twice *)

Ltac split_cases :=
  repeat match goal with
         | |- context [match ?x with _ => _ end] =>
             lazymatch x with
             | context [match _ with _ => _ end] => fail
             | _ => destruct x eqn:?; py_step
             end
         end.

Ltac same_options :=
  repeat match goal with
         | H : Some _ = Some _ |- _ => inversion H; clear H; subst
         end.

Lemma timer_branch_idempotent now p (st : State) :
  exec (timer_branch now p) (exec (timer_branch now p) st)
  = exec (timer_branch now p) st.
Proof.
  destruct st. unfold timer_branch, time_plus. py_step.
  split_cases; same_options; try reflexivity; congruence.
Qed.

Lemma presenter_branch_idempotent p (st : State) :
  exec (presenter_branch p) (exec (presenter_branch p) st)
  = exec (presenter_branch p) st.
Proof.
  destruct st. unfold presenter_branch. py_step.
  split_cases; same_options; try reflexivity; congruence.
Qed.

Lemma announcement_branch_idempotent p (st : State) :
  exec (announcement_branch p) (exec (announcement_branch p) st)
  = exec (announcement_branch p) st.
Proof.
  destruct st. unfold announcement_branch. py_step.
  split_cases; same_options; try reflexivity; congruence.
Qed.

Lemma App_heartbeat_branch_idempotent p (st : State) :
  exec (App.heartbeat_branch p) (exec (App.heartbeat_branch p) st)
  = exec (App.heartbeat_branch p) st.
Proof.
  destruct st as [? ? ? ? ? ? ? ? ? [] ? ? ?].
  unfold App.heartbeat_branch, role_is. py_step.
  split_cases; same_options; try reflexivity; congruence.
Qed.

Lemma goto_slide_idempotent connected n (st : State) :
  exec (PowerPointController.goto_slide connected n)
       (exec (PowerPointController.goto_slide connected n) st)
  = exec (PowerPointController.goto_slide connected n) st.
Proof.
  destruct st. unfold PowerPointController.goto_slide. destruct connected;
    py_step; [|reflexivity].
  split_cases; same_options; try reflexivity; congruence.
Qed.

Lemma App_control_branch_idempotent connected p (st : State) :
  match py_getitem p "command" with
  | Some c => is_str "next_slide" c || is_str "previous_slide" c
  | None => false
  end = false ->
  exec (App.control_branch connected p)
       (exec (App.control_branch connected p) st)
  = exec (App.control_branch connected p) st.
Proof.
  intros Hrel. destruct st.
  unfold App.control_branch, slide_command, command_is. py_step.
  destruct (py_in "command" p) as [[]|]; py_step; try reflexivity.
  destruct (py_getitem p "command") as [c|]; py_step; [|reflexivity].
  apply orb_false_iff in Hrel. destruct Hrel as [Hnext Hprev].
  rewrite Hnext, Hprev. py_step.
  destruct (is_str "goto_slide" c); py_step; [|reflexivity].
  destruct (py_in "slide" p) as [[]|]; py_step; try reflexivity.
  destruct (py_getitem p "slide") as [n|]; py_step; [|reflexivity].
  unfold PowerPointController.goto_slide.
  destruct connected; py_step; [|reflexivity].
  split_cases; same_options; try reflexivity; congruence.
Qed.

Lemma App_dispatch_idempotent cfg connected now topic p (st : State) :
  App.is_relative_slide_command (App.mqtt_topic_prefix cfg) topic (Some p)
  = false ->
  exec (App.dispatch cfg connected now topic p)
       (exec (App.dispatch cfg connected now topic p) st)
  = exec (App.dispatch cfg connected now topic p) st.
Proof.
  unfold App.is_relative_slide_command, App.dispatch. cbv zeta. intros Hrel.
  destruct (on_topic _ "timer" topic); [apply timer_branch_idempotent|].
  destruct (on_topic _ "presenter" topic);
    [apply presenter_branch_idempotent|].
  destruct (on_topic _ "announcement" topic);
    [apply announcement_branch_idempotent|].
  destruct (on_topic _ "heartbeat" topic);
    [apply App_heartbeat_branch_idempotent|].
  destruct (on_topic _ "control" topic); [|reflexivity].
  now apply App_control_branch_idempotent.
Qed.

Lemma App_on_mqtt_message_keeps fails now topic payload (w : App.World) :
  App.CONFIG (App.on_mqtt_message fails now topic payload w) = App.CONFIG w /\
  App.powerpoint_connected (App.on_mqtt_message fails now topic payload w)
  = App.powerpoint_connected w.
Proof.
  unfold App.on_mqtt_message, App.on_STATE.
  cbv beta iota delta [exec try_except bind ret get modify eval fst snd].
  destruct payload as [p|]; [|now split].
  destruct (App.dispatch _ _ _ _ _ _) as [[[]|] st]; cbn [snd];
    [|now split].
  unfold App.broadcast_state_update. cbn [App.websocket_connections
                                           App.with_STATE].
  destruct (App.websocket_connections w); [now split|].
  now destruct (App.broadcast_loop _ _ _ _ _ _).
Qed.

(** C7, as the code has it.  At a fixed receipt time, handling a message a
    second time leaves [STATE] as the first handling left it, for every
    topic and payload (decodable or not) except the control commands
    [next_slide] and [previous_slide], which move the slide relative to
    where it is.  This holds whatever the sends of the two broadcasts
    do. *)
Theorem on_mqtt_message_idempotent fails1 fails2 now topic payload
        (w : App.World) :
  App.is_relative_slide_command
    (App.mqtt_topic_prefix (App.CONFIG w)) topic payload = false ->
  App.STATE
    (App.on_mqtt_message fails2 now topic payload
       (App.on_mqtt_message fails1 now topic payload w))
  = App.STATE (App.on_mqtt_message fails1 now topic payload w).
Proof.
  intros Hrel. destruct payload as [p|]; [|reflexivity].
  rewrite (App_on_mqtt_message_STATE fails2).
  destruct (App_on_mqtt_message_keeps fails1 now topic (Some p) w)
    as [-> ->].
  rewrite App_on_mqtt_message_STATE.
  now apply App_dispatch_idempotent.
Qed.

Lemma on_mqtt_message_idempotent_witness :
  App.STATE
    (App.on_mqtt_message (fun _ => false) 1000 "conference/timer/control"
       (Some (VDict [("seconds", VNum 300); ("running", VBool true)]))
       (App.on_mqtt_message (fun _ => false) 1000 "conference/timer/control"
          (Some (VDict [("seconds", VNum 300); ("running", VBool true)]))
          (App.initial_world "main")))
  = App.STATE
      (App.on_mqtt_message (fun _ => false) 1000 "conference/timer/control"
         (Some (VDict [("seconds", VNum 300); ("running", VBool true)]))
         (App.initial_world "main")).
Proof.
  apply (on_mqtt_message_idempotent (fun _ => false) (fun _ => false) 1000
           "conference/timer/control"
           (Some (VDict [("seconds", VNum 300); ("running", VBool true)]))
           (App.initial_world "main")).
  reflexivity.
Defined.

(** C7 as stated fails on a relative slide command: from slide 1 of 30,
    [next_slide] handled once leaves slide 2, handled twice slide 3. *)
Lemma next_slide_twice_differs :
  current_slide
    (App.STATE
       (App.on_mqtt_message (fun _ => false) 1000 "conference/control/slide"
          (Some (VDict [("command", VStr "next_slide")]))
          (App.initial_world "main"))) = VNum 2 /\
  current_slide
    (App.STATE
       (App.on_mqtt_message (fun _ => false) 1000 "conference/control/slide"
          (Some (VDict [("command", VStr "next_slide")]))
          (App.on_mqtt_message (fun _ => false) 1000
             "conference/control/slide"
             (Some (VDict [("command", VStr "next_slide")]))
             (App.initial_world "main")))) = VNum 3 /\
  App.STATE
    (App.on_mqtt_message (fun _ => false) 1000 "conference/control/slide"
       (Some (VDict [("command", VStr "next_slide")]))
       (App.on_mqtt_message (fun _ => false) 1000
          "conference/control/slide"
          (Some (VDict [("command", VStr "next_slide")]))
          (App.initial_world "main")))
  <> App.STATE
       (App.on_mqtt_message (fun _ => false) 1000 "conference/control/slide"
          (Some (VDict [("command", VStr "next_slide")]))
          (App.initial_world "main")).
Proof.
  split; [reflexivity|]. split; [reflexivity|].
  intros H. apply (f_equal current_slide) in H. vm_compute in H.
  discriminate.
Qed.

(** ** Whatever the scheduling

    A periodic check takes the failover signal of a round to reach its
    slot before the next round.  Without that, the count of transitions
    still cannot exceed one: once active, the backup stays active until
    the operator deactivates it. *)

Lemma no_transition_when_active ops (w : Backup.World) :
  Backup.is_active (Backup.CONFIG w) = true ->
  (forall now, ~ In (Backup.OpDeactivate now) ops) ->
  Backup.transitions ops w = 0%nat.
Proof.
  revert w. induction ops as [|op ops IH]; intros w Hact Hno; [reflexivity|].
  cbn [Backup.transitions]. rewrite Hact. cbn [negb andb].
  apply IH.
  - apply step_stays_active; [exact Hact|].
    intros now ->. apply (Hno now). now left.
  - intros now Hin. apply (Hno now). now right.
Qed.

Lemma at_most_one_transition ops (w : Backup.World) :
  (forall now, ~ In (Backup.OpDeactivate now) ops) ->
  (Backup.transitions ops w <= 1)%nat.
Proof.
  revert w. induction ops as [|op ops IH]; intros w Hno; cbn; [lia|].
  assert (Hrest : forall now, ~ In (Backup.OpDeactivate now) ops)
    by (intros now Hin; apply (Hno now); now right).
  destruct (Backup.is_active (Backup.CONFIG w)) eqn:Hw; cbn [negb andb].
  - specialize (IH (Backup.step op w) Hrest). lia.
  - destruct (Backup.is_active (Backup.CONFIG (Backup.step op w))) eqn:Hw'.
    + rewrite (no_transition_when_active _ _ Hw' Hrest). lia.
    + specialize (IH (Backup.step op w) Hrest). lia.
Qed.

(** ** The failover trigger over whole runs *)

Lemma calm_not_deactivate prefix op :
  Backup.calm prefix op -> forall now, op <> Backup.OpDeactivate now.
Proof. intros H now ->. exact H. Qed.

Lemma run_app ops1 ops2 (w : Backup.World) :
  Backup.run (ops1 ++ ops2) w = Backup.run ops2 (Backup.run ops1 w).
Proof. unfold Backup.run. apply fold_left_app. Qed.

Lemma run_stays_active ops (w : Backup.World) :
  Backup.is_active (Backup.CONFIG w) = true ->
  (forall now, ~ In (Backup.OpDeactivate now) ops) ->
  Backup.is_active (Backup.CONFIG (Backup.run ops w)) = true.
Proof.
  revert w. induction ops as [|op ops IH]; intros w Hact Hno; [exact Hact|].
  cbn. apply IH.
  - apply step_stays_active; [exact Hact|].
    intros now ->. apply (Hno now). now left.
  - intros now Hin. apply (Hno now). now right.
Qed.

(** Without [deactivate_backup] a run makes the transition once if it
    starts in standby and ends active, and never otherwise. *)
Lemma transitions_count ops (w : Backup.World) :
  (forall now, ~ In (Backup.OpDeactivate now) ops) ->
  Backup.transitions ops w =
  if Backup.is_active (Backup.CONFIG w) then 0%nat
  else if Backup.is_active (Backup.CONFIG (Backup.run ops w)) then 1%nat
       else 0%nat.
Proof.
  revert w. induction ops as [|op ops IH]; intros w Hno.
  - cbn. now destruct (Backup.is_active (Backup.CONFIG w)).
  - assert (Hrest : forall now, ~ In (Backup.OpDeactivate now) ops)
      by (intros now Hin; apply (Hno now); now right).
    cbn [Backup.transitions]. rewrite (IH _ Hrest).
    change (Backup.run (op :: ops) w)
      with (Backup.run ops (Backup.step op w)).
    destruct (Backup.is_active (Backup.CONFIG w)) eqn:Hw; cbn [negb andb].
    + rewrite step_stays_active; [reflexivity|exact Hw|].
      intros now ->. apply (Hno now). now left.
    + destruct (Backup.is_active (Backup.CONFIG (Backup.step op w))) eqn:Hw'.
      * now rewrite (run_stays_active _ _ Hw' Hrest).
      * reflexivity.
Qed.

(** What the slots do to the process, signal by signal. *)
Lemma slots_frame t q (w : Backup.World) :
  Backup.STATE (fold_left (Backup.slot t) q w) = Backup.STATE w /\
  Backup.event_queue (fold_left (Backup.slot t) q w) = Backup.event_queue w /\
  Backup.mqtt_topic_prefix (Backup.CONFIG (fold_left (Backup.slot t) q w))
  = Backup.mqtt_topic_prefix (Backup.CONFIG w) /\
  Backup.failover_timeout (Backup.CONFIG (fold_left (Backup.slot t) q w))
  = Backup.failover_timeout (Backup.CONFIG w) /\
  Backup.device_id (Backup.CONFIG (fold_left (Backup.slot t) q w))
  = Backup.device_id (Backup.CONFIG w).
Proof.
  revert w. induction q as [|sg q IH]; intros w; [now repeat split|].
  cbn [fold_left]. destruct (IH (Backup.slot t w sg)) as (-> & -> & -> & -> & ->).
  destruct sg; [|now repeat split].
  unfold Backup.slot, Backup.activate_backup. cbv zeta.
  destruct (_ && _); now repeat split.
Qed.

Lemma slots_only_status t q (w : Backup.World) :
  ~ In Backup.failover_signal q -> fold_left (Backup.slot t) q w = w.
Proof.
  revert w. induction q as [|sg q IH]; intros w Hno; [reflexivity|].
  cbn [fold_left]. destruct sg.
  - elim Hno. now left.
  - cbn [Backup.slot]. apply IH. intros Hin. apply Hno. now right.
Qed.

Lemma slots_activate t q (w : Backup.World) :
  In Backup.failover_signal q ->
  Backup.is_active (Backup.CONFIG (fold_left (Backup.slot t) q w)) = true.
Proof.
  revert w. induction q as [|sg q IH]; intros w Hin; [easy|].
  cbn [fold_left]. destruct Hin as [-> | Hin]; [|now apply IH].
  apply slots_stay_active. unfold Backup.slot, Backup.activate_backup.
  cbv zeta. now destruct (_ && _).
Qed.

Lemma takeover_publication_frame t (w w' : Backup.World) :
  Backup.mqtt_topic_prefix (Backup.CONFIG w')
  = Backup.mqtt_topic_prefix (Backup.CONFIG w) ->
  Backup.device_id (Backup.CONFIG w') = Backup.device_id (Backup.CONFIG w) ->
  Backup.takeover_publication t w' = Backup.takeover_publication t w.
Proof. intros H1 H2. unfold Backup.takeover_publication. now rewrite H1, H2. Qed.

Lemma activate_backup_published t (w : Backup.World) :
  Backup.published (Backup.activate_backup t w)
  = (Backup.published w ++ [Backup.takeover_publication t w])%list.
Proof.
  unfold Backup.activate_backup. cbv zeta. now destruct (_ && _).
Qed.

(** The slots only ever publish TAKEOVER messages, the first of them when
    the first failover signal is delivered. *)
Lemma slots_published t q (w : Backup.World) :
  exists k : nat,
    Backup.published (fold_left (Backup.slot t) q w)
    = (Backup.published w ++ repeat (Backup.takeover_publication t w) k)%list
    /\ (In Backup.failover_signal q -> (1 <= k)%nat)
    /\ (~ In Backup.failover_signal q -> k = 0%nat)
    /\ (k = 0%nat -> fold_left (Backup.slot t) q w = w).
Proof.
  revert w. induction q as [|sg q IH]; intros w.
  - exists 0%nat. cbn. rewrite app_nil_r. repeat split; easy.
  - cbn [fold_left].
    destruct (IH (Backup.slot t w sg)) as (k & Hk & Hin & Hout & Hzero).
    destruct sg.
    + exists (S k). rewrite Hk. cbn [Backup.slot].
      rewrite activate_backup_published, <- app_assoc. cbn [repeat app].
      rewrite (takeover_publication_frame t w (Backup.activate_backup t w)).
      * repeat split; [lia| |discriminate].
        intros Hno. elim Hno. now left.
      * unfold Backup.activate_backup. cbv zeta. now destruct (_ && _).
      * unfold Backup.activate_backup. cbv zeta. now destruct (_ && _).
    + exists k. rewrite Hk. cbn [Backup.slot]. repeat split.
      * intros [Hd | H]; [discriminate | now apply Hin].
      * intros Hno. apply Hout. intros H. apply Hno. now right.
      * exact Hzero.
Qed.

Lemma is_takeover_publication t (w : Backup.World) :
  Backup.is_takeover (Backup.takeover_publication t w) = true.
Proof. reflexivity. Qed.

(** The round's effect on [CONFIG], the publications and the queue. *)
Lemma run_iteration_round now resp (w : Backup.World) :
  Backup.CONFIG (exec (Backup.run_iteration now resp) w) = Backup.CONFIG w /\
  Backup.powerpoint_connected (exec (Backup.run_iteration now resp) w)
  = Backup.powerpoint_connected w /\
  Backup.published (exec (Backup.run_iteration now resp) w)
  = (Backup.published w ++ [Backup.heartbeat_publication now w])%list /\
  main_last_heartbeat (Backup.STATE (exec (Backup.run_iteration now resp) w))
  = main_last_heartbeat (Backup.STATE w) /\
  (Backup.timed_out now w = true ->
   Backup.STATE (exec (Backup.run_iteration now resp) w)
   = set_main OFFLINE (Backup.STATE w) /\
   Backup.event_queue (exec (Backup.run_iteration now resp) w)
   = (Backup.event_queue w
      ++ (if Backup.is_active (Backup.CONFIG w) then []
          else [Backup.failover_signal])
      ++ [Backup.status_signal OFFLINE])%list) /\
  (Backup.timed_out now w = false ->
   main (device_status
           (Backup.STATE (exec (Backup.run_iteration now resp) w))) = ONLINE /\
   Backup.event_queue (exec (Backup.run_iteration now resp) w)
   = (Backup.event_queue w ++ [Backup.status_signal ONLINE])%list).
Proof.
  rewrite run_iteration_eq. cbv zeta.
  destruct (Backup.timed_out now w).
  - destruct (Backup.is_active (Backup.CONFIG w));
      cbn -[String.append Backup.heartbeat_message];
      repeat split; try easy; try (now destruct (Backup.STATE w));
      now rewrite <- app_assoc.
  - destruct (Backup.is_active (Backup.CONFIG w));
      cbn -[String.append Backup.heartbeat_message Backup.fetch_main_state];
      repeat split; try easy; try (now destruct (Backup.STATE w)).
    + rewrite (keeps_exec main_last_heartbeat _ _
                 (fetch_main_state_keeps main_last_heartbeat resp
                    (setitem_frame main_last_heartbeat
                       (fun _ _ => eq_refl) (fun _ _ => eq_refl)
                       (fun _ _ => eq_refl) (fun _ _ => eq_refl)
                       (fun _ _ => eq_refl) (fun _ _ => eq_refl)
                       (fun _ _ => eq_refl) (fun _ _ => eq_refl)))).
      now destruct (Backup.STATE w).
    + rewrite (keeps_exec (fun st => main (device_status st)) _ _
                 (fetch_main_state_keeps
                    (fun st => main (device_status st)) resp
                    (setitem_frame (fun st => main (device_status st))
                       (fun _ _ => eq_refl) (fun _ _ => eq_refl)
                       (fun _ _ => eq_refl) (fun _ _ => eq_refl)
                       (fun _ _ => eq_refl) (fun _ _ => eq_refl)
                       (fun _ _ => eq_refl) (fun _ _ => eq_refl)))).
      now destruct (Backup.STATE w).
Qed.

Lemma step_calm_frame op (w : Backup.World) :
  Backup.calm (Backup.mqtt_topic_prefix (Backup.CONFIG w)) op ->
  Backup.mqtt_topic_prefix (Backup.CONFIG (Backup.step op w))
  = Backup.mqtt_topic_prefix (Backup.CONFIG w) /\
  Backup.failover_timeout (Backup.CONFIG (Backup.step op w))
  = Backup.failover_timeout (Backup.CONFIG w) /\
  main_last_heartbeat (Backup.STATE (Backup.step op w))
  = main_last_heartbeat (Backup.STATE w).
Proof.
  intros Hcalm.
  destruct op as [now topic payload|now resp|now|h|now|now|now];
    cbn [Backup.step Backup.calm] in *.
  - destruct (quiet_message now topic payload w Hcalm) as (st & -> & Hst).
    now repeat split.
  - destruct (run_iteration_round now resp w) as (-> & _ & _ & -> & _).
    now repeat split.
  - unfold Backup.process_events.
    destruct (slots_frame now (Backup.event_queue w) (Backup.with_queue [] w))
      as (-> & _ & -> & -> & _).
    now repeat split.
  - repeat split; cbn; now destruct (Backup.STATE w).
  - repeat split; cbn; unfold update_ui;
      (destruct (_ && _); [|reflexivity]);
      (destruct (timer_end_time _); [|reflexivity]);
      now destruct (Backup.STATE w).
  - unfold Backup.activate_backup. cbv zeta. now destruct (_ && _).
  - easy.
Qed.

Lemma run_calm_frame ops (w : Backup.World) :
  Forall (Backup.calm (Backup.mqtt_topic_prefix (Backup.CONFIG w))) ops ->
  Backup.mqtt_topic_prefix (Backup.CONFIG (Backup.run ops w))
  = Backup.mqtt_topic_prefix (Backup.CONFIG w) /\
  Backup.failover_timeout (Backup.CONFIG (Backup.run ops w))
  = Backup.failover_timeout (Backup.CONFIG w) /\
  main_last_heartbeat (Backup.STATE (Backup.run ops w))
  = main_last_heartbeat (Backup.STATE w).
Proof.
  revert w. induction ops as [|op ops IH]; intros w Hall; [now repeat split|].
  inversion Hall as [|? ? Hop Hrest]; subst.
  destruct (step_calm_frame op w Hop) as (Hp & Ht & Hh).
  change (Backup.run (op :: ops) w) with (Backup.run ops (Backup.step op w)).
  destruct (IH (Backup.step op w)) as (-> & -> & ->);
    [now rewrite Hp | now repeat split].
Qed.

Lemma calm_run_no_deactivate prefix ops :
  Forall (Backup.calm prefix) ops ->
  forall now, ~ In (Backup.OpDeactivate now) ops.
Proof.
  intros Hall now Hin. rewrite Forall_forall in Hall.
  exact (Hall _ Hin).
Qed.

(** Active, or with a failover signal waiting for its slot: this lasts
    until the operator steps in, and the next delivery makes it active. *)
Lemma step_keeps_armed op (w : Backup.World) :
  (forall now, op <> Backup.OpDeactivate now) ->
  Backup.is_active (Backup.CONFIG w) = true \/
  In Backup.failover_signal (Backup.event_queue w) ->
  Backup.is_active (Backup.CONFIG (Backup.step op w)) = true \/
  In Backup.failover_signal (Backup.event_queue (Backup.step op w)).
Proof.
  intros Hop [Hact | Hin]; [left; now apply step_stays_active|].
  destruct op as [now topic payload|now resp|now|h|now|now|now];
    cbn [Backup.step].
  - right. destruct payload as [p|].
    + now rewrite Backup_on_mqtt_message_eq.
    + now rewrite Backup_on_mqtt_message_undecodable.
  - right.
    destruct (run_iteration_round now resp w) as (_ & _ & _ & _ & Hout & Hon).
    destruct (Backup.timed_out now w).
    + destruct (Hout eq_refl) as [_ ->]. apply in_or_app. now left.
    + destruct (Hon eq_refl) as [_ ->]. apply in_or_app. now left.
  - left. unfold Backup.process_events. now apply slots_activate.
  - right. exact Hin.
  - right. exact Hin.
  - left. unfold Backup.activate_backup. cbv zeta. now destruct (_ && _).
  - now elim (Hop now).
Qed.

Lemma run_keeps_armed ops (w : Backup.World) :
  (forall now, ~ In (Backup.OpDeactivate now) ops) ->
  Backup.is_active (Backup.CONFIG w) = true \/
  In Backup.failover_signal (Backup.event_queue w) ->
  Backup.is_active (Backup.CONFIG (Backup.run ops w)) = true \/
  In Backup.failover_signal (Backup.event_queue (Backup.run ops w)).
Proof.
  revert w. induction ops as [|op ops IH]; intros w Hno Harmed;
    [exact Harmed|].
  change (Backup.run (op :: ops) w) with (Backup.run ops (Backup.step op w)).
  apply IH.
  - intros now Hin. apply (Hno now). now right.
  - apply step_keeps_armed; [|exact Harmed].
    intros now ->. apply (Hno now). now left.
Qed.

Lemma process_events_armed t (w : Backup.World) :
  Backup.is_active (Backup.CONFIG w) = true \/
  In Backup.failover_signal (Backup.event_queue w) ->
  Backup.is_active (Backup.CONFIG (Backup.process_events t w)) = true.
Proof.
  unfold Backup.process_events. intros [Hact | Hin].
  - now apply slots_stay_active.
  - now apply slots_activate.
Qed.

(** A round that finds the heartbeat timed out leaves the backup active or
    with the failover signal queued. *)
Lemma timed_out_round_arms now resp (w : Backup.World) :
  Backup.timed_out now w = true ->
  Backup.is_active (Backup.CONFIG (exec (Backup.run_iteration now resp) w))
  = true \/
  In Backup.failover_signal
     (Backup.event_queue (exec (Backup.run_iteration now resp) w)).
Proof.
  intros Hout.
  destruct (run_iteration_round now resp w) as (-> & _ & _ & _ & H & _).
  destruct (H Hout) as [_ ->].
  destruct (Backup.is_active (Backup.CONFIG w)); [now left|right].
  apply in_or_app. right. now left.
Qed.

Lemma episode_ends_active now t resp ops1 ops2 ops3 (w : Backup.World) :
  Forall (Backup.calm (Backup.mqtt_topic_prefix (Backup.CONFIG w))) ops1 ->
  Forall (Backup.calm (Backup.mqtt_topic_prefix (Backup.CONFIG w))) ops2 ->
  Forall (Backup.calm (Backup.mqtt_topic_prefix (Backup.CONFIG w))) ops3 ->
  Backup.failover_timeout (Backup.CONFIG w)
  < now - main_last_heartbeat (Backup.STATE w) ->
  Backup.is_active
    (Backup.CONFIG
       (Backup.run
          (ops1 ++ Backup.OpMonitor now resp
                :: ops2 ++ Backup.OpEvents t :: ops3) w)) = true.
Proof.
  intros H1 H2 H3 Hlate.
  rewrite run_app.
  change (Backup.run (Backup.OpMonitor now resp :: ?l) ?x)
    with (Backup.run l (exec (Backup.run_iteration now resp) x)).
  rewrite run_app.
  change (Backup.run (Backup.OpEvents t :: ?l) ?x)
    with (Backup.run l (Backup.process_events t x)).
  destruct (run_calm_frame ops1 w H1) as (Hp & Ht & Hh).
  apply run_stays_active; [|exact (calm_run_no_deactivate _ _ H3)].
  apply process_events_armed.
  apply run_keeps_armed; [exact (calm_run_no_deactivate _ _ H2)|].
  apply timed_out_round_arms. apply timed_out_iff. now rewrite Ht, Hh.
Qed.

(** A round at [now] whose signals are delivered at [t], on a backup with
    no signal pending, case by case. *)
Lemma check_at_eq now t resp (w : Backup.World) :
  Backup.event_queue w = [] ->
  Backup.check_at now t resp w =
  if Backup.timed_out now w
  then
    let w1 := Backup.with_STATE (set_main OFFLINE (Backup.STATE w))
                                (Backup.heartbeat_sent now w) in
    if Backup.is_active (Backup.CONFIG w) then w1
    else Backup.activate_backup t w1
  else
    Backup.with_STATE
      (if Backup.is_active (Backup.CONFIG w)
       then set_main ONLINE (Backup.STATE w)
       else exec (Backup.fetch_main_state resp)
                 (set_main ONLINE (Backup.STATE w)))
      (Backup.heartbeat_sent now w).
Proof.
  intros Hq. unfold Backup.check_at. rewrite run_iteration_eq. cbv zeta.
  unfold Backup.heartbeat_sent, Backup.process_events, Backup.emit.
  destruct w as [cfg st conn pubs q]. cbn in Hq. subst q.
  cbn -[Backup.fetch_main_state Backup.heartbeat_message String.append
        Backup.timed_out].
  destruct (Backup.timed_out now _);
    destruct (Backup.is_active cfg); reflexivity.
Qed.

Lemma timed_out_false_iff now (w : Backup.World) :
  Backup.timed_out now w = false <->
  ~ Backup.failover_timeout (Backup.CONFIG w)
    < now - main_last_heartbeat (Backup.STATE w).
Proof.
  rewrite <- timed_out_iff. now destruct (Backup.timed_out now w).
Qed.

(** A step that takes the backup from standby to active publishes a
    TAKEOVER message, once for each failover signal it delivers. *)
Lemma transition_publishes op (w : Backup.World) :
  Backup.is_active (Backup.CONFIG w) = false ->
  Backup.is_active (Backup.CONFIG (Backup.step op w)) = true ->
  exists (t : Q) (k : nat),
    Backup.published (Backup.step op w)
    = (Backup.published w
       ++ repeat (Backup.takeover_publication t w) (S k))%list.
Proof.
  intros Hw Hw'.
  destruct op as [now topic payload|now resp|now|h|now|now|now];
    cbn [Backup.step] in *.
  - destruct payload as [p|].
    + rewrite Backup_on_mqtt_message_eq in Hw'. cbn in Hw'. congruence.
    + rewrite Backup_on_mqtt_message_undecodable in Hw'. congruence.
  - rewrite (keeps_exec Backup.CONFIG _ _
               (run_iteration_keeps_CONFIG now resp)) in Hw'. congruence.
  - unfold Backup.process_events in *.
    destruct (slots_published now (Backup.event_queue w)
                (Backup.with_queue [] w)) as (k & Hk & Hin & Hout & Hzero).
    exists now. destruct k as [|k].
    + rewrite (Hzero eq_refl) in Hw'. cbn in Hw'. congruence.
    + exists k. exact Hk.
  - cbn in Hw'. congruence.
  - cbn in Hw'. congruence.
  - exists now, 0%nat. apply activate_backup_published.
  - cbn in Hw'. discriminate.
Qed.

(** C1, as the code has it.  The backup's liveness check is a round of
    [MainMonitor.run] at [now], which emits signals, and the delivery at
    [t] of the queued signals to their slots in the GUI thread; the
    failover signal's slot is [activate_backup].  With
    [failover_timeout = 15]:
    - the round never changes [CONFIG]; it publishes one heartbeat; if
      [now - main_last_heartbeat > 15] it sets [device_status["main"]] to
      OFFLINE and queues the failover signal if in standby, then the
      status signal; otherwise it sets [device_status["main"]] to ONLINE
      and queues the status signal;
    - a check on a backup with no signal pending, in standby: it is active
      afterwards if and only if [now - main_last_heartbeat > 15], and then
      a TAKEOVER message follows the round's heartbeat;
    - a check on a backup with no signal pending, already active: [CONFIG]
      is unchanged; if timed out, [device_status["main"]] becomes OFFLINE
      and nothing else in [STATE] changes, and only the heartbeat is
      published;
    - in any run of operations, a step from standby to active publishes a
      TAKEOVER message (one for each failover signal delivered), and
      without [deactivate_backup] there is at most one such step;
    - in a run from standby with no heartbeat of the main and no
      [deactivate_backup], in which a round finds the timeout elapsed and
      a delivery follows, there is exactly one such step;
    - with [deactivate_backup] between two timed-out checks of the same
      episode, there are two. *)
Theorem failover_trigger (now t : Q) (resp : Backup.Response)
        (w : Backup.World) :
  Backup.failover_timeout (Backup.CONFIG w) = 15 ->
  (Backup.CONFIG (exec (Backup.run_iteration now resp) w) = Backup.CONFIG w /\
   Backup.published (exec (Backup.run_iteration now resp) w)
   = (Backup.published w ++ [Backup.heartbeat_publication now w])%list /\
   (15 < now - main_last_heartbeat (Backup.STATE w) ->
    main (device_status
            (Backup.STATE (exec (Backup.run_iteration now resp) w)))
    = OFFLINE /\
    Backup.event_queue (exec (Backup.run_iteration now resp) w)
    = (Backup.event_queue w
       ++ (if Backup.is_active (Backup.CONFIG w) then []
           else [Backup.failover_signal])
       ++ [Backup.status_signal OFFLINE])%list) /\
   (~ 15 < now - main_last_heartbeat (Backup.STATE w) ->
    main (device_status
            (Backup.STATE (exec (Backup.run_iteration now resp) w)))
    = ONLINE /\
    Backup.event_queue (exec (Backup.run_iteration now resp) w)
    = (Backup.event_queue w ++ [Backup.status_signal ONLINE])%list)) /\
  (Backup.event_queue w = [] ->
   Backup.is_active (Backup.CONFIG w) = false ->
   (Backup.is_active (Backup.CONFIG (Backup.check_at now t resp w)) = true
    <-> 15 < now - main_last_heartbeat (Backup.STATE w)) /\
   (15 < now - main_last_heartbeat (Backup.STATE w) ->
    Backup.published (Backup.check_at now t resp w)
    = (Backup.published w
       ++ [Backup.heartbeat_publication now w;
           Backup.takeover_publication t w])%list /\
    Backup.is_takeover (Backup.takeover_publication t w) = true /\
    main (device_status (Backup.STATE (Backup.check_at now t resp w)))
    = OFFLINE /\
    Backup.event_queue (Backup.check_at now t resp w) = []) /\
   (~ 15 < now - main_last_heartbeat (Backup.STATE w) ->
    Backup.CONFIG (Backup.check_at now t resp w) = Backup.CONFIG w /\
    Backup.published (Backup.check_at now t resp w)
    = (Backup.published w ++ [Backup.heartbeat_publication now w])%list /\
    main (device_status (Backup.STATE (Backup.check_at now t resp w)))
    = ONLINE)) /\
  (Backup.event_queue w = [] ->
   Backup.is_active (Backup.CONFIG w) = true ->
   Backup.CONFIG (Backup.check_at now t resp w) = Backup.CONFIG w /\
   Backup.published (Backup.check_at now t resp w)
   = (Backup.published w ++ [Backup.heartbeat_publication now w])%list /\
   Backup.powerpoint_connected (Backup.check_at now t resp w)
   = Backup.powerpoint_connected w /\
   Backup.event_queue (Backup.check_at now t resp w) = [] /\
   (15 < now - main_last_heartbeat (Backup.STATE w) ->
    main (device_status (Backup.STATE (Backup.check_at now t resp w)))
    = OFFLINE /\
    Backup.STATE (Backup.check_at now t resp w) =
    {| current_presenter := current_presenter (Backup.STATE w);
       current_topic := current_topic (Backup.STATE w);
       timer_seconds := timer_seconds (Backup.STATE w);
       timer_running := timer_running (Backup.STATE w);
       timer_end_time := timer_end_time (Backup.STATE w);
       announcement := announcement (Backup.STATE w);
       announcement_visible := announcement_visible (Backup.STATE w);
       current_slide := current_slide (Backup.STATE w);
       total_slides := total_slides (Backup.STATE w);
       device_status :=
         {| main := OFFLINE;
            backup := backup (device_status (Backup.STATE w));
            moderator := moderator (device_status (Backup.STATE w)) |};
       system_health := system_health (Backup.STATE w);
       main_last_heartbeat := main_last_heartbeat (Backup.STATE w);
       connected_clients := connected_clients (Backup.STATE w) |})) /\
  (forall (op : Backup.Operation) (w0 : Backup.World),
     Backup.is_active (Backup.CONFIG w0) = false ->
     Backup.is_active (Backup.CONFIG (Backup.step op w0)) = true ->
     exists (t' : Q) (k : nat),
       Backup.published (Backup.step op w0)
       = (Backup.published w0
          ++ repeat (Backup.takeover_publication t' w0) (S k))%list /\
       Backup.is_takeover (Backup.takeover_publication t' w0) = true) /\
  (forall (ops : list Backup.Operation) (w0 : Backup.World),
     (forall n, ~ In (Backup.OpDeactivate n) ops) ->
     (Backup.transitions ops w0 <= 1)%nat) /\
  (forall ops1 ops2 ops3 : list Backup.Operation,
     Backup.is_active (Backup.CONFIG w) = false ->
     Forall (Backup.calm (Backup.mqtt_topic_prefix (Backup.CONFIG w))) ops1 ->
     Forall (Backup.calm (Backup.mqtt_topic_prefix (Backup.CONFIG w))) ops2 ->
     Forall (Backup.calm (Backup.mqtt_topic_prefix (Backup.CONFIG w))) ops3 ->
     15 < now - main_last_heartbeat (Backup.STATE w) ->
     Backup.transitions
       (ops1 ++ Backup.OpMonitor now resp
             :: ops2 ++ Backup.OpEvents t :: ops3) w = 1%nat) /\
  (forall (n now' t' : Q) (resp' : Backup.Response),
     Backup.event_queue w = [] ->
     Backup.is_active (Backup.CONFIG w) = false ->
     15 < now - main_last_heartbeat (Backup.STATE w) ->
     now <= now' ->
     Backup.transitions
       [Backup.OpMonitor now resp; Backup.OpEvents t;
        Backup.OpDeactivate n;
        Backup.OpMonitor now' resp'; Backup.OpEvents t'] w = 2%nat).
Proof.
  intros H15.
  assert (Hlate : Backup.timed_out now w = true <->
                  15 < now - main_last_heartbeat (Backup.STATE w))
    by (rewrite timed_out_iff; now rewrite H15).
  assert (Hearly : Backup.timed_out now w = false <->
                   ~ 15 < now - main_last_heartbeat (Backup.STATE w))
    by (rewrite timed_out_false_iff; now rewrite H15).
  destruct (run_iteration_round now resp w)
    as (Hcfg & Hconn & Hpub & Hhb & Hout & Hin).
  split; [|split; [|split; [|split; [|split; [|split]]]]].
  - split; [exact Hcfg|]. split; [exact Hpub|]. split.
    + intros H. apply Hlate in H. destruct (Hout H) as [-> ->].
      split; reflexivity.
    + intros H. apply Hearly in H. exact (Hin H).
  - intros Hq Hstandby. rewrite (check_at_eq _ _ _ _ Hq), Hstandby.
    destruct (Backup.timed_out now w) eqn:Hto.
    + assert (H : 15 < now - main_last_heartbeat (Backup.STATE w))
        by now apply Hlate.
      cbv zeta. split; [|split].
      * split; [intros _; exact H|intros _].
        unfold Backup.activate_backup. cbv zeta. now destruct (_ && _).
      * intros _. rewrite activate_backup_published.
        unfold Backup.activate_backup. cbv zeta.
        destruct (_ && _); cbn -[String.append Backup.heartbeat_message];
          rewrite Hq, <- app_assoc; repeat split; reflexivity.
      * intros Hno. now elim Hno.
    + assert (H : ~ 15 < now - main_last_heartbeat (Backup.STATE w))
        by now apply Hearly.
      split; [|split].
      * cbn. rewrite Hstandby. split; [discriminate | intros H'; now elim H].
      * intros H'. now elim H.
      * intros _. cbn -[String.append Backup.heartbeat_message
                         Backup.fetch_main_state].
        repeat split.
        rewrite (keeps_exec (fun st => main (device_status st)) _ _
                   (fetch_main_state_keeps
                      (fun st => main (device_status st)) resp
                      (setitem_frame (fun st => main (device_status st))
                         (fun _ _ => eq_refl) (fun _ _ => eq_refl)
                         (fun _ _ => eq_refl) (fun _ _ => eq_refl)
                         (fun _ _ => eq_refl) (fun _ _ => eq_refl)
                         (fun _ _ => eq_refl) (fun _ _ => eq_refl)))).
        reflexivity.
  - intros Hq Hactive. rewrite (check_at_eq _ _ _ _ Hq), Hactive.
    destruct (Backup.timed_out now w) eqn:Hto.
    + cbn -[String.append Backup.heartbeat_message].
      do 4 (split; [assumption || reflexivity|]).
      intros _. split; reflexivity.
    + cbn -[String.append Backup.heartbeat_message].
      do 4 (split; [assumption || reflexivity|]).
      intros Hl. apply Hlate in Hl. discriminate.
  - intros op w0 Hw0 Hw0'.
    destruct (transition_publishes op w0 Hw0 Hw0') as (t' & k & Hk).
    exists t', k. split; [exact Hk | apply is_takeover_publication].
  - intros ops w0. apply at_most_one_transition.
  - intros ops1 ops2 ops3 Hstandby H1 H2 H3 H.
    rewrite transitions_count, Hstandby.
    + rewrite (episode_ends_active now t resp ops1 ops2 ops3 w H1 H2 H3);
        [reflexivity | now rewrite H15].
    + intros n Hn. apply in_app_or in Hn. destruct Hn as [Hn | Hn].
      * exact (calm_run_no_deactivate _ _ H1 n Hn).
      * destruct Hn as [Hn | Hn]; [discriminate|].
        apply in_app_or in Hn. destruct Hn as [Hn | Hn].
        -- exact (calm_run_no_deactivate _ _ H2 n Hn).
        -- destruct Hn as [Hn | Hn]; [discriminate|].
           exact (calm_run_no_deactivate _ _ H3 n Hn).
  - intros n now' t' resp' Hq Hstandby H Hle.
    apply Hlate in H.
    cbn [Backup.transitions Backup.step].
    change (Backup.process_events t (exec (Backup.run_iteration now resp) w))
      with (Backup.check_at now t resp w).
    rewrite Hcfg, Hstandby. cbn [negb andb].
    rewrite (check_at_eq _ _ _ _ Hq), H, Hstandby. cbv zeta.
    set (w1 := Backup.activate_backup t _).
    assert (Hw1 : Backup.is_active (Backup.CONFIG w1) = true)
      by (unfold w1, Backup.activate_backup; cbv zeta; now destruct (_ && _)).
    rewrite Hw1. cbn [negb andb].
    set (w2 := Backup.deactivate_backup n w1).
    assert (Hw2 : Backup.is_active (Backup.CONFIG w2) = false) by reflexivity.
    rewrite (keeps_exec Backup.CONFIG _ _
               (run_iteration_keeps_CONFIG now' resp')).
    rewrite Hw2. cbn [negb andb].
    change (Backup.process_events t'
              (exec (Backup.run_iteration now' resp') w2))
      with (Backup.check_at now' t' resp' w2).
    assert (Hq2 : Backup.event_queue w2 = []).
    { unfold w2, w1, Backup.activate_backup. cbv zeta.
      destruct (_ && _); cbn; exact Hq. }
    assert (Hto2 : Backup.timed_out now' w2 = true).
    { apply timed_out_iff.
      assert (Hc : Backup.failover_timeout (Backup.CONFIG w2) = 15).
      { unfold w2, w1, Backup.activate_backup. cbv zeta.
        destruct (_ && _); cbn; exact H15. }
      assert (Hs : main_last_heartbeat (Backup.STATE w2)
                   = main_last_heartbeat (Backup.STATE w)).
      { unfold w2, w1, Backup.activate_backup. cbv zeta.
        destruct (_ && _); cbn; now destruct (Backup.STATE w). }
      rewrite Hc, Hs. apply Hlate in H. lra. }
    rewrite (check_at_eq _ _ _ _ Hq2), Hto2, Hw2. cbv zeta.
    unfold Backup.activate_backup at 1. cbv zeta.
    now destruct (_ && _).
Qed.

Lemma failover_trigger_witness :
  Backup.is_active
    (Backup.CONFIG
       (Backup.check_at 16 (33 # 2) Backup.RequestException
          (Backup.initial_world "backup-1" 0))) = true /\
  Backup.transitions
    [Backup.OpMessage 3 "conference/timer/control"
       (Some (VDict [("running", VBool true)]));
     Backup.OpMonitor 16 Backup.RequestException;
     Backup.OpMonitor 21 Backup.RequestException;
     Backup.OpEvents 22;
     Backup.OpMonitor 26 Backup.RequestException;
     Backup.OpEvents 26]
    (Backup.initial_world "backup-1" 0) = 1%nat.
Proof.
  destruct (failover_trigger 16 (33 # 2) Backup.RequestException
              (Backup.initial_world "backup-1" 0) eq_refl)
    as (_ & Hcheck & _).
  destruct (failover_trigger 16 22 Backup.RequestException
              (Backup.initial_world "backup-1" 0) eq_refl)
    as (_ & _ & _ & _ & _ & Hrun & _).
  split.
  - apply (proj1 (Hcheck eq_refl eq_refl)). unfold Qlt. cbn. lia.
  - apply (Hrun [Backup.OpMessage 3 "conference/timer/control"
                   (Some (VDict [("running", VBool true)]))]
                [Backup.OpMonitor 21 Backup.RequestException]
                [Backup.OpMonitor 26 Backup.RequestException;
                 Backup.OpEvents 26]).
    + reflexivity.
    + repeat constructor.
    + repeat constructor.
    + repeat constructor.
    + unfold Qlt. cbn. lia.
Defined.

(** C1 as stated fails when the operator returns the backup to standby
    during the episode: with no heartbeat of the main arriving at all (the
    last one stays at time 0), the check at 16 takes over, the operator
    deactivates at 17, and the check at 21 takes over again. *)
Lemma deactivate_rearms_failover :
  Backup.failover_timeout
    (Backup.CONFIG (Backup.initial_world "backup-1" 0)) = 15 /\
  Backup.transitions
    [Backup.OpMonitor 16 Backup.RequestException; Backup.OpEvents 16;
     Backup.OpDeactivate 17;
     Backup.OpMonitor 21 Backup.RequestException; Backup.OpEvents 21]
    (Backup.initial_world "backup-1" 0) = 2%nat /\
  main_last_heartbeat
    (Backup.STATE
       (Backup.run
          [Backup.OpMonitor 16 Backup.RequestException; Backup.OpEvents 16;
           Backup.OpDeactivate 17;
           Backup.OpMonitor 21 Backup.RequestException; Backup.OpEvents 21]
          (Backup.initial_world "backup-1" 0))) = 0 /\
  List.length
    (filter Backup.is_takeover
       (Backup.published
          (Backup.run
             [Backup.OpMonitor 16 Backup.RequestException; Backup.OpEvents 16;
              Backup.OpDeactivate 17;
              Backup.OpMonitor 21 Backup.RequestException;
              Backup.OpEvents 21]
             (Backup.initial_world "backup-1" 0)))) = 2%nat.
Proof. repeat split; vm_compute; reflexivity. Qed.

(** Rounds that run before any delivery each queue a failover signal, and
    each signal delivered publishes a TAKEOVER message: one transition,
    two TAKEOVER messages. *)
Example queued_rounds_publish_takeover_twice :
  Backup.transitions
    [Backup.OpMonitor 16 Backup.RequestException;
     Backup.OpMonitor 21 Backup.RequestException; Backup.OpEvents 22]
    (Backup.initial_world "backup-1" 0) = 1%nat /\
  List.length
    (filter Backup.is_takeover
       (Backup.published
          (Backup.run
             [Backup.OpMonitor 16 Backup.RequestException;
              Backup.OpMonitor 21 Backup.RequestException;
              Backup.OpEvents 22]
             (Backup.initial_world "backup-1" 0)))) = 2%nat.
Proof. split; vm_compute; reflexivity. Qed.

(** * Further properties of the code *)

(** ** The slide controller *)

Lemma Qle_bool_false (x y : Q) : Qle_bool x y = false <-> y < x.
Proof.
  split.
  - intros H. apply Qnot_le_lt. intros Hle.
    apply Qle_bool_iff in Hle. congruence.
  - intros H. destruct (Qle_bool x y) eqn:E; [|reflexivity].
    apply Qle_bool_iff in E. now apply Qlt_not_le in H.
Qed.



(** X2. The three slide operations never raise, whatever the controller's
    connection, the slide number asked for and the values held in
    [STATE] (a string for a slide, say): they return a boolean, and the
    only key of [STATE] they can change is [current_slide]. *)
Theorem slide_operations_contained (connected : bool) (n : value)
        (st : State) :
  (exists b v, PowerPointController.next_slide connected st
               = (Returned b, set_current_slide v st)) /\
  (exists b v, PowerPointController.previous_slide connected st
               = (Returned b, set_current_slide v st)) /\
  (exists b v, PowerPointController.goto_slide connected n st
               = (Returned b, set_current_slide v st)).
Proof.
  destruct st.
  unfold PowerPointController.next_slide, PowerPointController.previous_slide,
    PowerPointController.goto_slide.
  repeat split; destruct connected; py_step;
    try (eexists; eexists; reflexivity);
    split_cases; eexists; eexists; reflexivity.
Qed.

(** ** Invariants of the main process *)

Section Preserves.

Context {S : Type} (P : S -> Prop).

Lemma preserves_ret {A} (a : A) : preserves P (ret a).
Proof. now intros s. Qed.

Lemma preserves_eval {A} (o : option A) : preserves P (eval o).
Proof. intros s. now destruct o. Qed.

Lemma preserves_bind {A B} (m : Py S A) (k : A -> Py S B) :
  preserves P m -> (forall a, preserves P (k a)) -> preserves P (bind m k).
Proof.
  intros Hm Hk s Hs. unfold bind. specialize (Hm s Hs).
  destruct (m s) as [[a|] s']; cbn [snd] in *; [now apply Hk | exact Hm].
Qed.

Lemma preserves_when (b : bool) (m : Py S unit) :
  preserves P m -> preserves P (when b m).
Proof. intros H. destruct b; [exact H | apply preserves_ret]. Qed.

End Preserves.

(** A statement that keeps an observation keeps every property of it. *)
Lemma keeps_preserves {S B A} (f : S -> B) (Q : B -> Prop) (m : Py S A) :
  keeps f m -> preserves (fun s => Q (f s)) m.
Proof. intros H s Hs. now rewrite H. Qed.

Lemma keeps_slide_in_deck {A} (m : Py State A) :
  keeps current_slide m -> keeps total_slides m ->
  preserves App.slide_in_deck m.
Proof.
  intros Hc Ht s (c & t & H1 & H2 & H3). exists c, t.
  now rewrite Hc, Ht.
Qed.

Ltac bool_facts :=
  repeat match goal with
         | H : Qle_bool _ _ = true |- _ => apply Qle_bool_iff in H
         | H : Qle_bool _ _ = false |- _ => apply Qle_bool_false in H
         | H : negb _ = true |- _ => apply negb_true_iff in H
         | H : negb _ = false |- _ => apply negb_false_iff in H
         end.

Lemma next_slide_in_deck connected :
  preserves App.slide_in_deck (PowerPointController.next_slide connected).
Proof.
  intros st (c & t & Hc & Ht & H1 & H2). destruct st. cbn in Hc, Ht.
  unfold PowerPointController.next_slide, py_gt, py_lt, py_add.
  destruct connected; py_step; [|now exists c, t].
  rewrite Hc. py_step. rewrite Ht. py_step.
  destruct (Qle_bool (c + 1) t) eqn:E; py_step; bool_facts.
  - exists (c + 1), t. repeat split; auto. lra.
  - exists t, t. repeat split; auto; lra.
Qed.

Lemma previous_slide_in_deck connected :
  preserves App.slide_in_deck (PowerPointController.previous_slide connected).
Proof.
  intros st (c & t & Hc & Ht & H1 & H2). destruct st. cbn in Hc, Ht.
  unfold PowerPointController.previous_slide, py_lt, py_add.
  destruct connected; py_step; [|now exists c, t].
  rewrite Hc. py_step.
  destruct (Qle_bool 1 (c + -1)) eqn:E; py_step; bool_facts.
  - exists (c + -1), t. repeat split; auto. lra.
  - exists 1, t. repeat split; auto; lra.
Qed.

Lemma goto_slide_in_deck connected n :
  preserves App.slide_in_deck (PowerPointController.goto_slide connected n).
Proof.
  intros st (c & t & Hc & Ht & H1 & H2). destruct st. cbn in Hc, Ht.
  unfold PowerPointController.goto_slide, PowerPointController.in_range,
    py_le.
  destruct connected; py_step; [|now exists c, t].
  destruct (as_num n) as [q|] eqn:Hn; py_step; [|now exists c, t].
  destruct (Qle_bool 1 q) eqn:E1; py_step; [|now exists c, t].
  rewrite Ht. py_step.
  destruct (Qle_bool q t) eqn:E2; py_step; [|now exists c, t].
  bool_facts. exists q, t. repeat split; auto.
Qed.

Lemma discard_preserves {S A} (P : S -> Prop) (m : Py S A) :
  preserves P m -> preserves P (bind m (fun _ => ret tt)).
Proof.
  intros H. apply preserves_bind; [exact H | intro; apply preserves_ret].
Qed.

Lemma slide_command_in_deck connected p :
  preserves App.slide_in_deck (slide_command connected p).
Proof.
  unfold slide_command, command_is.
  apply preserves_bind; [|intros []].
  { apply preserves_bind; [apply preserves_eval|intro; apply preserves_ret]. }
  { apply discard_preserves, next_slide_in_deck. }
  apply preserves_bind; [|intros []].
  { apply preserves_bind; [apply preserves_eval|intro; apply preserves_ret]. }
  { apply discard_preserves, previous_slide_in_deck. }
  apply preserves_bind; [|intros []; [|apply preserves_ret]].
  { apply preserves_bind; [apply preserves_eval|intro; apply preserves_ret]. }
  apply preserves_bind; [apply preserves_eval|intro].
  apply preserves_when.
  apply preserves_bind; [apply preserves_eval|intro].
  apply discard_preserves, goto_slide_in_deck.
Qed.

Lemma App_dispatch_in_deck cfg connected now topic p :
  preserves App.slide_in_deck (App.dispatch cfg connected now topic p).
Proof.
  unfold App.dispatch. cbv zeta.
  destruct (on_topic _ "timer" topic).
  { apply keeps_slide_in_deck; unfold timer_branch; keeps_tac. }
  destruct (on_topic _ "presenter" topic).
  { apply keeps_slide_in_deck; unfold presenter_branch; keeps_tac. }
  destruct (on_topic _ "announcement" topic).
  { apply keeps_slide_in_deck; unfold announcement_branch; keeps_tac. }
  destruct (on_topic _ "heartbeat" topic).
  { apply keeps_slide_in_deck; unfold App.heartbeat_branch;
      (apply keeps_bind; [apply role_is_keeps | intro]);
      (apply keeps_if; [keeps_tac|]);
      (apply keeps_bind; [apply role_is_keeps | intro]); keeps_tac. }
  destruct (on_topic _ "control" topic); [|apply preserves_ret].
  unfold App.control_branch.
  apply preserves_bind; [apply preserves_eval|intro].
  apply preserves_when, slide_command_in_deck.
Qed.

Lemma App_with_STATE_same (w : App.World) : App.with_STATE (App.STATE w) w = w.
Proof. now destruct w. Qed.

Lemma endpoint_cleanup_STATE ws (w : App.World) :
  exists n, App.STATE (App.endpoint_cleanup ws w)
            = set_connected_clients n (App.STATE w).
Proof. unfold App.endpoint_cleanup. cbv zeta. eexists. reflexivity. Qed.

Lemma endpoint_receive_body_keeps_STATE fails (data : option value) :
  keeps App.STATE
    (bind (eval data)
       (fun message =>
          bind (eval (py_in "type" message))
            (fun has_type =>
               bind
                 (when has_type
                    (bind (eval (py_getitem message "type"))
                       (fun type =>
                          match App.forward_topic type with
                          | Some name =>
                              bind (eval (py_getitem message "data"))
                                (fun payload =>
                                   modify (App.publish name payload))
                          | None => ret tt
                          end)))
                 (fun _ => modify (App.broadcast_state_update fails))))).
Proof.
  apply keeps_bind; [apply keeps_eval | intro].
  apply keeps_bind; [apply keeps_eval | intro].
  apply keeps_bind; [|intro; apply keeps_modify; apply broadcast_keeps_STATE].
  apply keeps_when. apply keeps_bind; [apply keeps_eval | intro].
  destruct (App.forward_topic _); [|apply keeps_ret].
  apply keeps_bind; [apply keeps_eval | intro].
  apply keeps_modify. reflexivity.
Qed.

Lemma endpoint_receive_STATE fails ws data (w : App.World) :
  App.STATE (exec (App.endpoint_receive fails ws data) w) = App.STATE w \/
  exists n, App.STATE (exec (App.endpoint_receive fails ws data) w)
            = set_connected_clients n (App.STATE w).
Proof.
  unfold App.endpoint_receive, exec, try_except.
  pose proof (endpoint_receive_body_keeps_STATE fails data w) as Hk.
  match goal with
  | |- context [match ?b w with _ => _ end] =>
      change (App.STATE (snd (b w)) = App.STATE w) in Hk;
      destruct (b w) as [[[]|] w1]
  end; cbn [snd] in *.
  - now left.
  - right. unfold modify. cbn [snd].
    destruct (endpoint_cleanup_STATE ws w1) as [n Hn].
    exists n. now rewrite Hn, Hk.
Qed.

(** What an operation of the main other than an MQTT message can do to
    [STATE]: it stays within the timer keys, [system_health] and
    [connected_clients]. *)
Lemma App_step_frame {B} (f : State -> B) op (w : App.World) :
  (forall v st, f (set_timer_seconds v st) = f st) ->
  (forall v st, f (set_timer_running v st) = f st) ->
  (forall e st, f (set_timer_end_time e st) = f st) ->
  (forall h st, f (set_system_health h st) = f st) ->
  (forall n st, f (set_connected_clients n st) = f st) ->
  (forall fails now topic payload,
     op <> App.OpMessage fails now topic payload) ->
  f (App.STATE (App.step op w)) = f (App.STATE w).
Proof.
  intros Hs Hr He Hh Hn Hop.
  destruct op as [fails now topic payload|now| | |now|now|h|sf ws
                  |fails ws data|ws]; cbn [App.step].
  - now elim (Hop fails now topic payload).
  - unfold App.start_timer, App.on_STATE, exec. py_step.
    destruct (time_plus now (timer_seconds (App.STATE w))); cbn;
      now rewrite ?He, ?Hr.
  - cbn. now rewrite He, Hr.
  - cbn. now rewrite He, Hr, Hs.
  - cbn [App.STATE App.with_STATE]. unfold update_ui.
    destruct (_ && _); [|reflexivity].
    destruct (timer_end_time (App.STATE w)); [apply Hs | reflexivity].
  - reflexivity.
  - cbn. apply Hh.
  - unfold App.endpoint_open. cbv zeta. destruct sf.
    + destruct (endpoint_cleanup_STATE ws
                  (App.with_connections (App.websocket_connections w ++ [ws])
                     (App.sent w) w)) as [n ->].
      cbn. apply Hn.
    + cbn. apply Hn.
  - destruct (endpoint_receive_STATE fails ws data w) as [-> | [n ->]];
      [reflexivity | apply Hn].
  - unfold App.endpoint_close.
    destruct (endpoint_cleanup_STATE ws w) as [n ->]. apply Hn.
Qed.

Lemma App_step_preserves (P : State -> Prop) op (w : App.World) :
  (forall cfg connected now topic p,
     preserves P (App.dispatch cfg connected now topic p)) ->
  (forall st, P st ->
     forall op' w', App.STATE w' = st ->
       (forall fails now topic payload,
          op' <> App.OpMessage fails now topic payload) ->
       P (App.STATE (App.step op' w'))) ->
  P (App.STATE w) -> P (App.STATE (App.step op w)).
Proof.
  intros Hdispatch Hother HP.
  destruct op as [fails now topic [p|]|now| | |now|now|h|sf ws
                  |fails ws data|ws];
    try (apply (Hother _ HP _ w eq_refl); intros; discriminate).
  - cbn [App.step]. rewrite App_on_mqtt_message_STATE. now apply Hdispatch.
  - exact HP.
Qed.

Lemma App_run_preserves (P : State -> Prop) :
  (forall op w, P (App.STATE w) -> P (App.STATE (App.step op w))) ->
  forall ops w, P (App.STATE w) -> P (App.STATE (App.run ops w)).
Proof.
  intros Hstep ops. induction ops as [|op ops IH]; intros w HP; [exact HP|].
  cbn. apply IH. now apply Hstep.
Qed.

Lemma preserves_modify {S} (P : S -> Prop) (g : S -> S) :
  (forall s, P s -> P (g s)) -> preserves P (modify g).
Proof. intros H s. apply H. Qed.

Lemma App_heartbeat_keeps {B} (f : State -> B) p :
  (forall d st, f (set_backup d st) = f st) ->
  (forall d st, f (set_moderator d st) = f st) ->
  keeps f (App.heartbeat_branch p).
Proof.
  intros Hb Hm. unfold App.heartbeat_branch.
  apply keeps_bind; [apply role_is_keeps | intro].
  apply keeps_if; [apply keeps_modify; apply Hb|].
  apply keeps_bind; [apply role_is_keeps | intro].
  apply keeps_when. apply keeps_modify. apply Hm.
Qed.

Lemma slide_command_keeps {B} (f : State -> B) connected p :
  (forall v st, f (set_current_slide v st) = f st) ->
  keeps f (slide_command connected p).
Proof.
  intros Hf. unfold slide_command, command_is,
    PowerPointController.next_slide, PowerPointController.previous_slide,
    PowerPointController.goto_slide.
  repeat first
    [ apply keeps_ret | apply keeps_get | apply keeps_eval
    | apply keeps_when | apply keeps_if | apply keeps_try_except
    | apply keeps_bind; [|intro]
    | apply keeps_modify; intro; apply Hf ].
Qed.

(** X3. On the main process every operation (an MQTT message of any topic
    and payload, the timer buttons, the window refresh, the monitor
    rounds, a viewer session opening, sending or closing) keeps
    [1 <= current_slide <= total_slides] once it holds, so it holds after
    any sequence of them. *)
Theorem main_keeps_slide_in_deck (ops : list App.Operation) (w : App.World) :
  App.slide_in_deck (App.STATE w) ->
  App.slide_in_deck (App.STATE (App.run ops w)).
Proof.
  revert w. apply App_run_preserves. intros op w.
  apply App_step_preserves.
  - intros. apply App_dispatch_in_deck.
  - intros st (c & t & Hc & Ht & H1 & H2) op' w' Hw' Hop'. subst st.
    pose proof (App_step_frame
                  (fun st => (current_slide st, total_slides st)) op' w'
                  ltac:(reflexivity) ltac:(reflexivity) ltac:(reflexivity)
                  ltac:(reflexivity) ltac:(reflexivity) Hop') as E.
    cbv beta in E. injection E as E1 E2.
    exists c, t. now rewrite E1, E2.
Qed.

Lemma main_keeps_slide_in_deck_witness :
  App.slide_in_deck
    (App.STATE
       (App.run
          [App.OpMessage (fun _ => false) 5 "conference/control/slide"
             (Some (VDict [("command", VStr "goto_slide");
                           ("slide", VNum 99)]));
           App.OpMessage (fun _ => false) 6 "conference/control/slide"
             (Some (VDict [("command", VStr "previous_slide")]))]
          (App.initial_world "main"))).
Proof.
  apply main_keeps_slide_in_deck.
  exists 1, 30. repeat split; try reflexivity; unfold Qle; cbn; lia.
Defined.

(** X4. Nothing on the main process hides an announcement: once
    [announcement_visible] is [True], it is [True] after any sequence of
    operations. *)
Theorem main_never_hides_announcement (ops : list App.Operation)
        (w : App.World) :
  announcement_visible (App.STATE w) = VBool true ->
  announcement_visible (App.STATE (App.run ops w)) = VBool true.
Proof.
  revert w.
  apply (App_run_preserves (fun st => announcement_visible st = VBool true)).
  intros op w.
  apply (App_step_preserves (fun st => announcement_visible st = VBool true)).
  - intros cfg connected now topic p. unfold App.dispatch. cbv zeta.
    destruct (on_topic _ "timer" topic).
    { apply (keeps_preserves announcement_visible (fun v => v = VBool true)).
      unfold timer_branch. keeps_tac. }
    destruct (on_topic _ "presenter" topic).
    { apply (keeps_preserves announcement_visible (fun v => v = VBool true)).
      unfold presenter_branch. keeps_tac. }
    destruct (on_topic _ "announcement" topic).
    { unfold announcement_branch.
      apply preserves_bind; [apply preserves_eval | intro].
      apply preserves_when.
      apply preserves_bind; [apply preserves_eval | intro].
      apply preserves_bind; [|intro]; apply preserves_modify; auto. }
    destruct (on_topic _ "heartbeat" topic).
    { apply (keeps_preserves announcement_visible (fun v => v = VBool true)).
      apply App_heartbeat_keeps; reflexivity. }
    destruct (on_topic _ "control" topic); [|apply preserves_ret].
    apply (keeps_preserves announcement_visible (fun v => v = VBool true)).
    unfold App.control_branch.
    apply keeps_bind; [apply keeps_eval | intro]. apply keeps_when.
    apply slide_command_keeps. reflexivity.
  - intros st Hst op' w' Hw' Hop'. subst st.
    now rewrite (App_step_frame announcement_visible op' w'
                   ltac:(reflexivity) ltac:(reflexivity) ltac:(reflexivity)
                   ltac:(reflexivity) ltac:(reflexivity) Hop').
Qed.

Lemma main_never_hides_announcement_witness :
  announcement_visible
    (App.STATE
       (App.run
          [App.OpMessage (fun _ => false) 5 "conference/announcement/new"
             (Some (VDict [("message", VStr "")]));
           App.OpReset]
          (App.with_STATE
             (set_announcement_visible (VBool true) App.initial_state)
             (App.initial_world "main")))) = VBool true.
Proof.
  apply main_never_hides_announcement. reflexivity.
Defined.

Lemma role_is_preserves {S} (P : S -> Prop) r p : preserves P (role_is r p).
Proof.
  apply (keeps_preserves (fun s => s) P). apply role_is_keeps.
Qed.

Lemma App_dispatch_device_status (P : DeviceStatusMap -> Prop)
      cfg connected now topic p :
  (forall st, P (device_status st) ->
     P (device_status (set_backup ONLINE st))) ->
  (forall st, P (device_status st) ->
     P (device_status (set_moderator ONLINE st))) ->
  preserves (fun st => P (device_status st))
            (App.dispatch cfg connected now topic p).
Proof.
  intros Hb Hm. unfold App.dispatch. cbv zeta.
  destruct (on_topic _ "timer" topic).
  { apply (keeps_preserves device_status P). unfold timer_branch. keeps_tac. }
  destruct (on_topic _ "presenter" topic).
  { apply (keeps_preserves device_status P).
    unfold presenter_branch. keeps_tac. }
  destruct (on_topic _ "announcement" topic).
  { apply (keeps_preserves device_status P).
    unfold announcement_branch. keeps_tac. }
  destruct (on_topic _ "heartbeat" topic).
  { unfold App.heartbeat_branch.
    apply preserves_bind; [apply role_is_preserves | intros []].
    - apply preserves_modify. exact Hb.
    - apply preserves_bind; [apply role_is_preserves | intro].
      apply preserves_when. apply preserves_modify. exact Hm. }
  destruct (on_topic _ "control" topic); [|apply preserves_ret].
  apply (keeps_preserves device_status P).
  unfold App.control_branch.
  apply keeps_bind; [apply keeps_eval | intro]. apply keeps_when.
  apply slide_command_keeps. reflexivity.
Qed.

Lemma App_run_device_status (d0 : DeviceStatusMap) ops (w : App.World) :
  (main (device_status (App.STATE w)) = main d0 /\
   (backup (device_status (App.STATE w)) = backup d0 \/
    backup (device_status (App.STATE w)) = ONLINE) /\
   (moderator (device_status (App.STATE w)) = moderator d0 \/
    moderator (device_status (App.STATE w)) = ONLINE)) ->
  main (device_status (App.STATE (App.run ops w))) = main d0 /\
  (backup (device_status (App.STATE (App.run ops w))) = backup d0 \/
   backup (device_status (App.STATE (App.run ops w))) = ONLINE) /\
  (moderator (device_status (App.STATE (App.run ops w))) = moderator d0 \/
   moderator (device_status (App.STATE (App.run ops w))) = ONLINE).
Proof.
  set (P := fun d : DeviceStatusMap =>
              main d = main d0 /\
              (backup d = backup d0 \/ backup d = ONLINE) /\
              (moderator d = moderator d0 \/ moderator d = ONLINE)).
  revert w. apply (App_run_preserves (fun st => P (device_status st))).
  intros op w.
  apply (App_step_preserves (fun st => P (device_status st))).
  - intros. apply App_dispatch_device_status; unfold P; cbn; tauto.
  - intros st Hst op' w' Hw' Hop'. subst st.
    now rewrite (App_step_frame device_status op' w'
                   ltac:(reflexivity) ltac:(reflexivity) ltac:(reflexivity)
                   ltac:(reflexivity) ltac:(reflexivity) Hop').
Qed.

(** X5. The main process has no way back from ONLINE in [device_status]:
    after any sequence of its operations the entry for ["main"] is what
    it was, and the entries for ["backup"] and ["moderator"] are what
    they were or ONLINE.  A peer seen once stays ONLINE however long its
    heartbeats have stopped. *)
Theorem main_never_marks_peer_offline (ops : list App.Operation)
        (w : App.World) :
  main (device_status (App.STATE (App.run ops w)))
  = main (device_status (App.STATE w)) /\
  (backup (device_status (App.STATE (App.run ops w)))
   = backup (device_status (App.STATE w)) \/
   backup (device_status (App.STATE (App.run ops w))) = ONLINE) /\
  (moderator (device_status (App.STATE (App.run ops w)))
   = moderator (device_status (App.STATE w)) \/
   moderator (device_status (App.STATE (App.run ops w))) = ONLINE).
Proof.
  apply (App_run_device_status (device_status (App.STATE w))). auto.
Qed.

(** ** Malformed payloads *)

Ltac non_object p Hp :=
  destruct p as [| | | | |d]; [| | | | |now elim (Hp d)].

Lemma App_dispatch_non_object cfg connected now topic p (st : State) :
  (forall d, p <> VDict d) ->
  exec (App.dispatch cfg connected now topic p) st = st.
Proof.
  intros Hp. unfold App.dispatch, timer_branch, presenter_branch,
    announcement_branch, App.heartbeat_branch, App.control_branch,
    slide_command, role_is, command_is. cbv zeta.
  non_object p Hp; py_step; split_cases; reflexivity.
Qed.

Lemma Backup_dispatch_non_object cfg connected now topic p (st : State) :
  (forall d, p <> VDict d) ->
  exec (Backup.dispatch cfg connected now topic p) st = st.
Proof.
  intros Hp. unfold Backup.dispatch, timer_branch, presenter_branch,
    announcement_branch, Backup.heartbeat_branch, Backup.control_branch,
    slide_command, role_is, command_is. cbv zeta.
  non_object p Hp; py_step; split_cases; reflexivity.
Qed.

(** X6. A payload that cannot be decoded, or that decodes to anything but
    a JSON object (a number, a string, a list, [null], a boolean), changes
    no key of [STATE], on any topic, in either process; on the backup, and
    on the main when the payload is undecodable, the whole process is left
    as it was. *)
Theorem malformed_payload_changes_nothing fails now topic
        (wa : App.World) (wb : Backup.World) :
  App.on_mqtt_message fails now topic None wa = wa /\
  Backup.on_mqtt_message now topic None wb = wb /\
  (forall p, (forall d, p <> VDict d) ->
     App.STATE (App.on_mqtt_message fails now topic (Some p) wa)
     = App.STATE wa /\
     Backup.on_mqtt_message now topic (Some p) wb = wb).
Proof.
  split; [reflexivity|]. split; [reflexivity|]. intros p Hp. split.
  - rewrite App_on_mqtt_message_STATE. now apply App_dispatch_non_object.
  - rewrite Backup_on_mqtt_message_eq.
    rewrite Backup_dispatch_non_object by exact Hp.
    apply Backup_with_STATE_same.
Qed.

Lemma malformed_payload_changes_nothing_witness :
  App.STATE
    (App.on_mqtt_message (fun _ => false) 5 "conference/timer/control"
       (Some (VStr "seconds and running")) (App.initial_world "main"))
  = App.STATE (App.initial_world "main").
Proof.
  apply (proj2 (proj2 (malformed_payload_changes_nothing
                         (fun _ => false) 5 "conference/timer/control"
                         (App.initial_world "main")
                         (Backup.initial_world "backup-1" 0)))).
  intros d. discriminate.
Defined.

(** ** Timer messages *)

Lemma App_dispatch_timer cfg connected now topic p :
  on_topic (App.mqtt_topic_prefix cfg) "timer" topic = true ->
  App.dispatch cfg connected now topic p = timer_branch now p.
Proof. intros H. unfold App.dispatch. cbv zeta. now rewrite H. Qed.

Lemma timer_branch_dict now (d : list (string * value)) (st : State) :
  timer_branch now (VDict d) st =
  let st1 := match assoc "seconds" d with
             | Some v => set_timer_seconds v st
             | None => st
             end in
  match assoc "running" d with
  | None => (Returned tt, st1)
  | Some r =>
      if truthy r
      then match time_plus now (timer_seconds st1) with
           | Some e => (Returned tt,
                        set_timer_end_time (Some e)
                          (set_timer_running r st1))
           | None => (Raised, set_timer_running r st1)
           end
      else (Returned tt, set_timer_end_time None (set_timer_running r st1))
  end.
Proof.
  unfold timer_branch. py_step.
  destruct (assoc "seconds" d) as [v|]; py_step;
    (destruct (assoc "running" d) as [r|]; py_step; [|reflexivity]);
    (destruct (truthy r); py_step; [|reflexivity]);
    match goal with
    | |- context [time_plus ?t ?x] => destruct (time_plus t x)
    end; reflexivity.
Qed.

Lemma time_plus_num now (x : value) (q : Q) :
  as_num x = Some q -> fits_float q = true -> time_plus now x = Some (now + q).
Proof. intros Hq Hfit. unfold time_plus. now rewrite Hq, Hfit. Qed.

Lemma time_plus_not_num now (x : value) :
  as_num x = None -> time_plus now x = None.
Proof. intros Hq. unfold time_plus. now rewrite Hq. Qed.

(** X7. A timer message that is an object with a ["running"] key, handled
    by the main.  If the flag is truthy, suppose the duration in force (the
    message's ["seconds"] if it has the key, else the stored one) is a
    number that a float can hold.  Then [timer_seconds] holds the duration
    in force, [timer_running] the flag, every key other than the deadline is
    as before, and the deadline is a time (not [None]) exactly when the flag
    is truthy: after the message the deadline is set exactly when the timer
    runs. *)
Theorem timer_message_sets_deadline fails now topic
        (d : list (string * value)) (r : value) (q : Q) (w : App.World) :
  on_topic (App.mqtt_topic_prefix (App.CONFIG w)) "timer" topic = true ->
  assoc "running" d = Some r ->
  (truthy r = true ->
   as_num (Backup.merged d "seconds" (timer_seconds (App.STATE w))) = Some q /\
   fits_float q = true) ->
  (exists e : option Q,
     App.STATE (App.on_mqtt_message fails now topic (Some (VDict d)) w) =
     {| current_presenter := current_presenter (App.STATE w);
        current_topic := current_topic (App.STATE w);
        timer_seconds :=
          Backup.merged d "seconds" (timer_seconds (App.STATE w));
        timer_running := r;
        timer_end_time := e;
        announcement := announcement (App.STATE w);
        announcement_visible := announcement_visible (App.STATE w);
        current_slide := current_slide (App.STATE w);
        total_slides := total_slides (App.STATE w);
        device_status := device_status (App.STATE w);
        system_health := system_health (App.STATE w);
        main_last_heartbeat := main_last_heartbeat (App.STATE w);
        connected_clients := connected_clients (App.STATE w) |} /\
     (e <> None <-> truthy r = true)) /\
  (timer_end_time
     (App.STATE (App.on_mqtt_message fails now topic (Some (VDict d)) w))
   <> None <->
   truthy
     (timer_running
        (App.STATE (App.on_mqtt_message fails now topic (Some (VDict d)) w)))
   = true).
Proof.
  intros Htopic Hr Hq.
  rewrite App_on_mqtt_message_STATE, (App_dispatch_timer _ _ _ _ _ Htopic).
  unfold exec. rewrite timer_branch_dict. cbv zeta. rewrite Hr.
  unfold Backup.merged in *.
  destruct (App.STATE w) as [? ? secs ? ? ? ? ? ? ? ? ? ?].
  cbn [timer_seconds] in Hq.
  destruct (truthy r) eqn:Er.
  - destruct (Hq eq_refl) as [Hnum Hfit].
    destruct (assoc "seconds" d) as [v|];
      cbn [timer_seconds set_timer_seconds];
      rewrite (time_plus_num _ _ _ Hnum Hfit); cbn;
      (split; [eexists; split; [reflexivity|]|]);
      rewrite ?Er; split; congruence.
  - destruct (assoc "seconds" d) as [v|]; cbn;
      (split; [eexists; split; [reflexivity|]|]);
      rewrite ?Er; split; congruence.
Qed.

Lemma timer_message_sets_deadline_witness :
  timer_end_time
    (App.STATE
       (App.on_mqtt_message (fun _ => false) 1000 "conference/timer/control"
          (Some (VDict [("seconds", VNum 90); ("running", VBool true)]))
          (App.initial_world "main"))) <> None.
Proof.
  apply (proj2 (timer_message_sets_deadline (fun _ => false) 1000
                  "conference/timer/control"
                  [("seconds", VNum 90); ("running", VBool true)]
                  (VBool true) 90 (App.initial_world "main")
                  eq_refl eq_refl (fun _ => conj eq_refl eq_refl))).
  reflexivity.
Defined.

(** X8. A timer message is not applied as a whole.  When its ["seconds"]
    is not a number (a string, say) and its ["running"] is truthy, the
    handler on the main stores both and stops at the deadline computation:
    [timer_seconds] and [timer_running] are changed, [timer_end_time] is
    not, and no broadcast is made. *)
Theorem timer_message_partly_applied fails now topic
        (d : list (string * value)) (v r : value) (w : App.World) :
  on_topic (App.mqtt_topic_prefix (App.CONFIG w)) "timer" topic = true ->
  assoc "seconds" d = Some v -> as_num v = None ->
  assoc "running" d = Some r -> truthy r = true ->
  App.on_mqtt_message fails now topic (Some (VDict d)) w =
  App.with_STATE (set_timer_running r (set_timer_seconds v (App.STATE w))) w.
Proof.
  intros Htopic Hv Hnum Hr Htrue.
  unfold App.on_mqtt_message, App.on_STATE.
  cbv beta iota delta [exec try_except bind ret get modify eval fst snd].
  rewrite (App_dispatch_timer _ _ _ _ _ Htopic), timer_branch_dict.
  cbv zeta. rewrite Hv, Hr, Htrue. cbn [timer_seconds set_timer_seconds].
  now rewrite (time_plus_not_num _ _ Hnum).
Qed.

Lemma timer_message_partly_applied_witness :
  App.on_mqtt_message (fun _ => false) 1000 "conference/timer/control"
    (Some (VDict [("seconds", VStr "90"); ("running", VBool true)]))
    (App.initial_world "main") =
  App.with_STATE
    (set_timer_running (VBool true)
       (set_timer_seconds (VStr "90") App.initial_state))
    (App.initial_world "main").
Proof.
  exact (timer_message_partly_applied (fun _ => false) 1000
           "conference/timer/control"
           [("seconds", VStr "90"); ("running", VBool true)]
           (VStr "90") (VBool true) (App.initial_world "main")
           eq_refl eq_refl eq_refl eq_refl eq_refl).
Defined.

(** ** The main hears what it publishes *)

Lemma prefix_append (a b : string) : String.prefix a (a ++ b) = true.
Proof.
  induction a as [|c a IH]; cbn; [now destruct b|].
  now destruct (ascii_dec c c).
Qed.

Lemma string_append_assoc (a b c : string) :
  ((a ++ b) ++ c)%string = (a ++ (b ++ c))%string.
Proof. induction a as [|x a IH]; cbn; [reflexivity | now rewrite IH]. Qed.

(** A topic published under a family's name is matched by that family. *)
Lemma on_topic_published (prefix name rest : string) :
  on_topic prefix name (prefix ++ name ++ "/" ++ rest) = true.
Proof.
  unfold on_topic.
  rewrite <- (string_append_assoc name "/" rest).
  rewrite <- (string_append_assoc prefix (name ++ "/") rest).
  apply prefix_append.
Qed.

(** X9. The main is subscribed to the timer topic it publishes on, so it
    handles the message of each of its own timer buttons.  For Stop and
    Reset this changes nothing in [STATE], whenever the message arrives.
    For Start (the stored duration being a number that a float can hold)
    the message received at [t1] leaves [STATE] as pressing Start at [t1]
    would have: running, with a deadline counted from the receipt time, not
    from the press. *)
Theorem timer_buttons_loop_back fails (t0 t1 q : Q) (w : App.World) :
  (timer_seconds (App.STATE w) = VNum q ->
   fits_float q = true ->
   exists p,
     App.published (exec (App.start_timer t0) w)
     = (App.published w ++ [p])%list /\
     App.STATE
       (App.on_mqtt_message fails t1 (pub_topic p) (Some (pub_payload p))
          (exec (App.start_timer t0) w))
     = App.STATE (exec (App.start_timer t1) w) /\
     timer_running (App.STATE (exec (App.start_timer t1) w)) = VBool true /\
     timer_end_time (App.STATE (exec (App.start_timer t1) w)) <> None) /\
  (exists p,
     App.published (exec App.stop_timer w) = (App.published w ++ [p])%list /\
     App.STATE
       (App.on_mqtt_message fails t1 (pub_topic p) (Some (pub_payload p))
          (exec App.stop_timer w))
     = App.STATE (exec App.stop_timer w)) /\
  (exists p,
     App.published (exec App.reset_timer w) = (App.published w ++ [p])%list /\
     App.STATE
       (App.on_mqtt_message fails t1 (pub_topic p) (Some (pub_payload p))
          (exec App.reset_timer w))
     = App.STATE (exec App.reset_timer w)).
Proof.
  assert (Htopic : forall cfg,
             on_topic (App.mqtt_topic_prefix cfg) "timer"
               (App.mqtt_topic_prefix cfg ++ "timer/control") = true)
    by (intros; apply (on_topic_published _ "timer" "control")).
  split; [intros Hq Hfit; rewrite !(start_timer_eq _ q w Hq Hfit)|split];
    eexists; (split; [reflexivity|]);
    rewrite App_on_mqtt_message_STATE;
    cbn [pub_topic pub_payload];
    rewrite App_dispatch_timer by apply Htopic;
    unfold exec; rewrite timer_branch_dict; cbv zeta.
  - destruct (App.STATE w). cbn in Hq. subst.
    cbn -[time_plus].
    rewrite (time_plus_num _ (VNum q) q eq_refl Hfit). cbn.
    repeat split; congruence.
  - cbn. now destruct (App.STATE w).
  - cbn. now destruct (App.STATE w).
Qed.

Lemma timer_buttons_loop_back_witness :
  exists p,
    App.published (exec (App.start_timer 1000) (App.initial_world "main"))
    = (App.published (App.initial_world "main") ++ [p])%list /\
    App.STATE
      (App.on_mqtt_message (fun _ => false) 1002 (pub_topic p)
         (Some (pub_payload p))
         (exec (App.start_timer 1000) (App.initial_world "main")))
    = App.STATE (exec (App.start_timer 1002) (App.initial_world "main")) /\
    timer_running
      (App.STATE (exec (App.start_timer 1002) (App.initial_world "main")))
    = VBool true /\
    timer_end_time
      (App.STATE (exec (App.start_timer 1002) (App.initial_world "main")))
    <> None.
Proof.
  exact (proj1 (timer_buttons_loop_back (fun _ => false) 1000 1002 600
                  (App.initial_world "main")) eq_refl eq_refl).
Defined.

(** ** The countdown *)

(** X10. The countdown does not drift with the refresh rate: a refresh of
    the window only overwrites [timer_seconds], never the deadline or the
    running flag, so what a refresh at [now2] leaves is the same whether
    or not the window was refreshed at some [now1] before. *)
Theorem refresh_history_is_forgotten (now1 now2 : Q) (st : State) :
  update_ui now2 (update_ui now1 st) = update_ui now2 st /\
  timer_end_time (update_ui now1 st) = timer_end_time st /\
  timer_running (update_ui now1 st) = timer_running st.
Proof.
  destruct st as [? ? ? running deadline ? ? ? ? ? ? ? ?].
  unfold update_ui, end_time_set. cbn.
  destruct (truthy running) eqn:Hrun; cbn; [|now rewrite Hrun].
  destruct deadline as [e|]; cbn; [|now rewrite Hrun].
  destruct (Qeq_bool e 0) eqn:He; cbn; rewrite Hrun; cbn; rewrite ?He;
    repeat split; reflexivity.
Qed.






(** ** More on the fan-out *)

(** X13. When no send fails, a broadcast sends the current snapshot once
    to every connected session, in list order, and leaves the connection
    list as it was. *)
Theorem broadcast_reaches_everyone fails (w : App.World) :
  (forall ws, In ws (App.websocket_connections w) -> fails ws = false) ->
  App.websocket_connections (App.broadcast_state_update fails w)
  = App.websocket_connections w /\
  App.sent (App.broadcast_state_update fails w)
  = (App.sent w ++
     map (fun ws => (ws, App.STATE w)) (App.websocket_connections w))%list.
Proof.
  intros Hok. unfold App.broadcast_state_update.
  destruct (App.websocket_connections w) as [|ws conns] eqn:E.
  - cbn. rewrite E, app_nil_r. now split.
  - pose proof (broadcast_loop_no_failure fails (App.STATE w) (ws :: conns)
                  Hok [] (App.sent w)) as H.
    cbn [List.length app] in H. cbn [List.length]. rewrite H. now split.
Qed.

Lemma broadcast_reaches_everyone_witness :
  App.sent
    (App.broadcast_state_update (fun _ => false)
       (App.with_connections [4; 7]%nat [] (App.initial_world "main")))
  = [(4%nat, App.initial_state); (7%nat, App.initial_state)].
Proof.
  apply (proj2 (broadcast_reaches_everyone (fun _ => false)
                  (App.with_connections [4; 7]%nat []
                     (App.initial_world "main"))
                  (fun _ _ => eq_refl))).
Defined.

Lemma remove_first_keeps_healthy (fails : App.Session -> bool) ws conns :
  fails ws = true ->
  filter (fun x => negb (fails x)) (App.remove_first ws conns)
  = filter (fun x => negb (fails x)) conns.
Proof.
  intros Hws. induction conns as [|y conns IH]; cbn; [reflexivity|].
  destruct (Nat.eqb ws y) eqn:E.
  - apply Nat.eqb_eq in E. subst y. now rewrite Hws.
  - cbn. now rewrite IH.
Qed.

Lemma remove_first_incl ws conns x :
  In x (App.remove_first ws conns) -> In x conns.
Proof.
  induction conns as [|y conns IH]; cbn; [tauto|].
  destruct (Nat.eqb ws y); cbn; tauto.
Qed.

Lemma broadcast_loop_safe fails message fuel :
  forall i conns log,
    let r := App.broadcast_loop fuel fails message i conns log in
    filter (fun x => negb (fails x)) (fst r)
    = filter (fun x => negb (fails x)) conns /\
    (forall x, In x (fst r) -> In x conns) /\
    exists extra,
      snd r = (log ++ extra)%list /\
      Forall (fun e => fails (fst e) = false /\ In (fst e) conns /\
                       snd e = message) extra.
Proof.
  induction fuel as [|fuel IH]; intros i conns log; cbn.
  - repeat split; auto. exists []. now rewrite app_nil_r.
  - destruct (nth_error conns i) as [ws|] eqn:Hi.
    2:{ repeat split; auto. exists []. now rewrite app_nil_r. }
    destruct (fails ws) eqn:Hws.
    + match goal with
      | |- context [App.broadcast_loop fuel fails message (S i) ?c log] =>
          destruct (IH (S i) c log) as (Hf & Hin & extra & Hlog & Hall);
          assert (Hc : filter (fun x => negb (fails x)) c
                       = filter (fun x => negb (fails x)) conns /\
                       forall x, In x c -> In x conns)
      end.
      { destruct (existsb (Nat.eqb ws) conns); split; auto.
        - now apply remove_first_keeps_healthy.
        - intros x. apply remove_first_incl. }
      destruct Hc as [Hc1 Hc2]. repeat split.
      * now rewrite Hf.
      * intros x Hx. auto.
      * exists extra. split; [exact Hlog|].
        eapply Forall_impl; [|exact Hall]. cbn. intros e (? & ? & ?). auto.
    + destruct (IH (S i) conns (log ++ [(ws, message)])%list)
        as (Hf & Hin & extra & Hlog & Hall).
      repeat split; auto.
      exists ((ws, message) :: extra). split.
      * rewrite Hlog. now rewrite <- app_assoc.
      * constructor; [|exact Hall]. cbn. repeat split; auto.
        eapply nth_error_In; eauto.
Qed.

(** X14. Whatever sends fail, a broadcast never prunes a session whose
    send succeeds and never adds one: the sessions left are among those
    before, and the healthy ones are all still there, in order.  What it
    sends goes only to healthy sessions of the list, and is the snapshot of
    [STATE] at the start.  [STATE] itself is untouched, so
    [connected_clients] is not lowered when sessions are pruned. *)
Theorem broadcast_prunes_only_failed fails (w : App.World) :
  filter (fun ws => negb (fails ws))
         (App.websocket_connections (App.broadcast_state_update fails w))
  = filter (fun ws => negb (fails ws)) (App.websocket_connections w) /\
  (forall ws,
     In ws (App.websocket_connections (App.broadcast_state_update fails w)) ->
     In ws (App.websocket_connections w)) /\
  (exists extra,
     App.sent (App.broadcast_state_update fails w)
     = (App.sent w ++ extra)%list /\
     Forall (fun e => fails (fst e) = false /\
                      In (fst e) (App.websocket_connections w) /\
                      snd e = App.STATE w) extra) /\
  App.STATE (App.broadcast_state_update fails w) = App.STATE w.
Proof.
  split; [|split; [|split]]; [| | |apply broadcast_keeps_STATE];
    unfold App.broadcast_state_update;
    destruct (App.websocket_connections w) as [|ws conns] eqn:E;
    try (rewrite E; auto; fail).
  - destruct (broadcast_loop_safe fails (App.STATE w)
                (List.length (ws :: conns)) 0 (ws :: conns) (App.sent w))
      as (Hf & _ & _).
    destruct (App.broadcast_loop _ _ _ _ _ _). exact Hf.
  - destruct (broadcast_loop_safe fails (App.STATE w)
                (List.length (ws :: conns)) 0 (ws :: conns) (App.sent w))
      as (_ & Hin & _).
    destruct (App.broadcast_loop _ _ _ _ _ _). exact Hin.
  - exists []. rewrite app_nil_r. now split.
  - destruct (broadcast_loop_safe fails (App.STATE w)
                (List.length (ws :: conns)) 0 (ws :: conns) (App.sent w))
      as (_ & _ & Hex).
    destruct (App.broadcast_loop _ _ _ _ _ _). exact Hex.
Qed.

Lemma remove_first_middle ws done rest :
  ~ In ws done ->
  App.remove_first ws (done ++ ws :: rest) = (done ++ rest)%list.
Proof.
  intros Hn. induction done as [|y done IH]; cbn.
  - now rewrite Nat.eqb_refl.
  - destruct (Nat.eqb ws y) eqn:E.
    + apply Nat.eqb_eq in E. subst y. elim Hn. now left.
    + rewrite IH; [reflexivity|]. intros H. apply Hn. now right.
Qed.

Lemma existsb_middle ws (done rest : list App.Session) :
  existsb (Nat.eqb ws) (done ++ ws :: rest) = true.
Proof.
  apply existsb_exists. exists ws. split; [|apply Nat.eqb_refl].
  apply in_or_app. right. now left.
Qed.

Lemma nth_error_middle {A} (done : list A) x rest :
  nth_error (done ++ x :: rest) (List.length done) = Some x.
Proof. rewrite nth_error_app2 by lia. now rewrite Nat.sub_diag. Qed.

(** The index loop over distinct sessions does what [receivers] and
    [survivors] say. *)
Lemma broadcast_loop_spec fails message fuel :
  forall done todo log,
    (List.length todo <= fuel)%nat ->
    NoDup (done ++ todo) ->
    App.broadcast_loop fuel fails message (List.length done)
      (done ++ todo)%list log =
    ((done ++ App.survivors fails todo)%list,
     (log ++ map (fun ws => (ws, message)) (App.receivers fails todo))%list).
Proof.
  induction fuel as [|fuel IH]; intros done todo log Hlen Hnd.
  - destruct todo; [|cbn in Hlen; lia]. cbn. now rewrite !app_nil_r.
  - destruct todo as [|ws rest].
    { cbn. rewrite app_nil_r.
      replace (nth_error done (List.length done)) with (@None App.Session)
        by (symmetry; apply nth_error_None; lia).
      now rewrite !app_nil_r. }
    cbn [App.broadcast_loop]. rewrite nth_error_middle.
    cbn [App.survivors App.receivers]. cbn in Hlen.
    destruct (fails ws) eqn:Hws.
    + rewrite existsb_middle.
      assert (Hn : ~ In ws done).
      { intros Hin. apply NoDup_remove_2 in Hnd. apply Hnd.
        apply in_or_app. now left. }
      rewrite remove_first_middle by exact Hn.
      apply NoDup_remove_1 in Hnd.
      destruct rest as [|next rest'].
      * rewrite app_nil_r. cbn [map]. rewrite !app_nil_r.
        assert (Hout : nth_error done (S (List.length done)) = None)
          by (apply nth_error_None; lia).
        clear IH. destruct fuel; cbn [App.broadcast_loop];
          [reflexivity | now rewrite Hout].
      * replace (S (List.length done)) with (List.length (done ++ [next]))
          by (rewrite length_app; cbn; lia).
        replace (done ++ next :: rest')%list
          with ((done ++ [next]) ++ rest')%list
          by now rewrite <- app_assoc.
        rewrite IH.
        -- now rewrite <- app_assoc.
        -- cbn in Hlen. lia.
        -- now rewrite <- app_assoc.
    + replace (S (List.length done)) with (List.length (done ++ [ws]))
        by (rewrite length_app; cbn; lia).
      replace (done ++ ws :: rest)%list with ((done ++ [ws]) ++ rest)%list
        by now rewrite <- app_assoc.
      rewrite IH.
      * cbn [map]. now rewrite <- !app_assoc.
      * lia.
      * now rewrite <- app_assoc.
Qed.

(** X15. With distinct sessions connected, one broadcast leaves exactly
    [survivors] connected and sends the snapshot exactly to [receivers], in
    order: read from the left, a session whose send fails is dropped and
    the session listed right after it is passed over, staying connected
    without being sent. *)
Theorem broadcast_outcome fails (w : App.World) :
  NoDup (App.websocket_connections w) ->
  App.websocket_connections (App.broadcast_state_update fails w)
  = App.survivors fails (App.websocket_connections w) /\
  App.sent (App.broadcast_state_update fails w)
  = (App.sent w ++
     map (fun ws => (ws, App.STATE w))
         (App.receivers fails (App.websocket_connections w)))%list.
Proof.
  intros Hnd. unfold App.broadcast_state_update.
  destruct (App.websocket_connections w) as [|ws conns] eqn:E.
  - cbn. rewrite E, app_nil_r. now split.
  - pose proof (broadcast_loop_spec fails (App.STATE w)
                  (List.length (ws :: conns)) [] (ws :: conns) (App.sent w)
                  (le_n _) Hnd) as H.
    cbn [List.length app] in H. cbn [List.length]. rewrite H. now split.
Qed.

Lemma broadcast_outcome_witness :
  App.websocket_connections
    (App.broadcast_state_update (Nat.eqb 2)
       (App.with_connections [1; 2; 3; 4]%nat []
          (App.initial_world "main")))
  = [1; 3; 4]%nat /\
  App.sent
    (App.broadcast_state_update (Nat.eqb 2)
       (App.with_connections [1; 2; 3; 4]%nat []
          (App.initial_world "main")))
  = [(1%nat, App.initial_state); (4%nat, App.initial_state)].
Proof.
  apply (broadcast_outcome (Nat.eqb 2)
           (App.with_connections [1; 2; 3; 4]%nat []
              (App.initial_world "main"))).
  repeat constructor; cbn; intuition lia.
Defined.

(** ** Viewer sessions *)

(** X16. A viewer command is forwarded, not applied.  A received object
    whose ["type"] is one of the four command types and that has a
    ["data"] key has its data published unchanged on the topic of that
    type, after which the snapshot is broadcast; an object with another
    type, or with no ["type"], publishes nothing and is followed by the
    broadcast all the same.  In every case [STATE] is left as it was. *)
Theorem viewer_command_is_forwarded fails ws
        (m : list (string * value)) (w : App.World) :
  (forall type name payload,
     assoc "type" m = Some type ->
     App.forward_topic type = Some name ->
     assoc "data" m = Some payload ->
     exec (App.endpoint_receive fails ws (Some (VDict m))) w
     = App.broadcast_state_update fails (App.publish name payload w)) /\
  (forall type,
     assoc "type" m = Some type ->
     App.forward_topic type = None ->
     exec (App.endpoint_receive fails ws (Some (VDict m))) w
     = App.broadcast_state_update fails w) /\
  (assoc "type" m = None ->
   exec (App.endpoint_receive fails ws (Some (VDict m))) w
   = App.broadcast_state_update fails w) /\
  (assoc "type" m = None \/
   (exists type, assoc "type" m = Some type /\
                 (App.forward_topic type = None \/
                  exists payload, assoc "data" m = Some payload)) ->
   App.STATE (exec (App.endpoint_receive fails ws (Some (VDict m))) w)
   = App.STATE w).
Proof.
  assert (H1 : forall type name payload,
             assoc "type" m = Some type ->
             App.forward_topic type = Some name ->
             assoc "data" m = Some payload ->
             exec (App.endpoint_receive fails ws (Some (VDict m))) w
             = App.broadcast_state_update fails (App.publish name payload w)).
  { intros type name payload Ht Hf Hd. unfold App.endpoint_receive. py_step.
    rewrite Ht. py_step. rewrite Hf. py_step. rewrite Hd. reflexivity. }
  assert (H2 : forall type,
             assoc "type" m = Some type ->
             App.forward_topic type = None ->
             exec (App.endpoint_receive fails ws (Some (VDict m))) w
             = App.broadcast_state_update fails w).
  { intros type Ht Hf. unfold App.endpoint_receive. py_step.
    rewrite Ht. py_step. rewrite Hf. reflexivity. }
  assert (H3 : assoc "type" m = None ->
               exec (App.endpoint_receive fails ws (Some (VDict m))) w
               = App.broadcast_state_update fails w).
  { intros Ht. unfold App.endpoint_receive. py_step.
    rewrite Ht. reflexivity. }
  repeat split; auto.
  intros [Ht | (type & Ht & [Hf | (payload & Hd)])].
  - rewrite (H3 Ht). apply broadcast_keeps_STATE.
  - rewrite (H2 _ Ht Hf). apply broadcast_keeps_STATE.
  - destruct (App.forward_topic type) as [name|] eqn:Hf.
    + rewrite (H1 _ _ _ Ht Hf Hd). now rewrite broadcast_keeps_STATE.
    + rewrite (H2 _ Ht Hf). apply broadcast_keeps_STATE.
Qed.

Lemma viewer_command_is_forwarded_witness :
  exec (App.endpoint_receive (fun _ => false) 3%nat
          (Some (VDict [("type", VStr "slide_control");
                        ("data", VDict [("command", VStr "next_slide")])])))
       (App.initial_world "main")
  = App.broadcast_state_update (fun _ => false)
      (App.publish "control/slide" (VDict [("command", VStr "next_slide")])
         (App.initial_world "main")).
Proof.
  apply (proj1 (viewer_command_is_forwarded (fun _ => false) 3%nat
                  [("type", VStr "slide_control");
                   ("data", VDict [("command", VStr "next_slide")])]
                  (App.initial_world "main"))
           (VStr "slide_control") "control/slide"
           (VDict [("command", VStr "next_slide")]));
    reflexivity.
Defined.

(** X17. A malformed text from a viewer ends its session.  Text that is
    not JSON, a JSON number, boolean or [null], or an object with one of
    the four command types but no ["data"] key: nothing is published and
    nothing is broadcast, the session is taken off the connection list and
    [connected_clients] is set to the length of the list. *)
Theorem malformed_viewer_text_ends_session fails ws (w : App.World) :
  exec (App.endpoint_receive fails ws None) w = App.endpoint_cleanup ws w /\
  (forall p, p = VNone \/ (exists b, p = VBool b) \/ (exists q, p = VNum q) ->
     exec (App.endpoint_receive fails ws (Some p)) w
     = App.endpoint_cleanup ws w) /\
  (forall m type name,
     assoc "type" m = Some type ->
     App.forward_topic type = Some name ->
     assoc "data" m = None ->
     exec (App.endpoint_receive fails ws (Some (VDict m))) w
     = App.endpoint_cleanup ws w) /\
  App.published (App.endpoint_cleanup ws w) = App.published w /\
  App.sent (App.endpoint_cleanup ws w) = App.sent w /\
  connected_clients (App.STATE (App.endpoint_cleanup ws w))
  = List.length (App.websocket_connections (App.endpoint_cleanup ws w)) /\
  (In ws (App.websocket_connections w) ->
   App.websocket_connections (App.endpoint_cleanup ws w)
   = App.remove_first ws (App.websocket_connections w)).
Proof.
  split; [reflexivity|]. split; [|split].
  - intros p [-> | [[b ->] | [q ->]]]; reflexivity.
  - intros m type name Ht Hf Hd. unfold App.endpoint_receive. py_step.
    rewrite Ht. py_step. rewrite Hf. py_step. rewrite Hd. reflexivity.
  - repeat split. intros Hin. unfold App.endpoint_cleanup. cbv zeta. cbn.
    replace (existsb (Nat.eqb ws) (App.websocket_connections w)) with true;
      [reflexivity|].
    symmetry. apply existsb_exists. exists ws. split; [exact Hin|].
    apply Nat.eqb_refl.
Qed.

Lemma malformed_viewer_text_ends_session_witness :
  exec (App.endpoint_receive (fun _ => false) 3%nat
          (Some (VDict [("type", VStr "timer_control")])))
       (App.endpoint_open false 3%nat (App.initial_world "main"))
  = App.endpoint_cleanup 3%nat
      (App.endpoint_open false 3%nat (App.initial_world "main")).
Proof.
  apply (proj1 (proj2 (proj2 (malformed_viewer_text_ends_session
                                (fun _ => false) 3%nat
                                (App.endpoint_open false 3%nat
                                   (App.initial_world "main")))))
           [("type", VStr "timer_control")] (VStr "timer_control")
           "timer/control");
    reflexivity.
Defined.

(** X18. A session that opens is listed last and counted, but the snapshot
    it is sent first was taken before the count was brought up to date.
    If it was not listed before, closing it (or failing that first send)
    puts the list back as it was, with [connected_clients] equal to its
    length. *)
Theorem session_open_and_close ws (w : App.World) :
  App.websocket_connections (App.endpoint_open false ws w)
  = (App.websocket_connections w ++ [ws])%list /\
  App.sent (App.endpoint_open false ws w)
  = (App.sent w ++ [(ws, App.STATE w)])%list /\
  connected_clients (App.STATE (App.endpoint_open false ws w))
  = S (List.length (App.websocket_connections w)) /\
  (~ In ws (App.websocket_connections w) ->
   App.websocket_connections
     (App.endpoint_close ws (App.endpoint_open false ws w))
   = App.websocket_connections w /\
   connected_clients
     (App.STATE (App.endpoint_close ws (App.endpoint_open false ws w)))
   = List.length (App.websocket_connections w) /\
   App.websocket_connections (App.endpoint_open true ws w)
   = App.websocket_connections w /\
   connected_clients (App.STATE (App.endpoint_open true ws w))
   = List.length (App.websocket_connections w)).
Proof.
  split; [reflexivity|]. split; [reflexivity|]. split.
  - unfold App.endpoint_open. cbv zeta. cbn. rewrite length_app. cbn. lia.
  - intros Hn.
    assert (Hrm : App.remove_first ws (App.websocket_connections w ++ [ws])
                  = App.websocket_connections w)
      by (rewrite remove_first_middle by exact Hn; apply app_nil_r).
    unfold App.endpoint_close, App.endpoint_open, App.endpoint_cleanup.
    cbv zeta. cbn. rewrite existsb_middle, Hrm. auto.
Qed.

Lemma session_open_and_close_witness :
  App.websocket_connections
    (App.endpoint_close 3%nat
       (App.endpoint_open false 3%nat (App.initial_world "main")))
  = App.websocket_connections (App.initial_world "main").
Proof.
  apply (proj2 (proj2 (proj2 (session_open_and_close 3%nat
                                (App.initial_world "main"))))).
  cbn. tauto.
Defined.

(** ** Between the two processes *)

Lemma App_dispatch_heartbeat cfg connected now topic p :
  on_topic (App.mqtt_topic_prefix cfg) "heartbeat" topic = true ->
  App.dispatch cfg connected now topic p = App.heartbeat_branch p.
Proof.
  intros H. unfold App.dispatch. cbv zeta.
  other_topic H "timer".
  other_topic H "presenter".
  other_topic H "announcement".
  now rewrite H.
Qed.

Lemma App_dispatch_presenter cfg connected now topic p :
  on_topic (App.mqtt_topic_prefix cfg) "presenter" topic = true ->
  App.dispatch cfg connected now topic p = presenter_branch p.
Proof.
  intros H. unfold App.dispatch. cbv zeta.
  other_topic H "timer".
  now rewrite H.
Qed.

Lemma monitor_round_publishes now resp (w : Backup.World) :
  Backup.published (exec (Backup.run_iteration now resp) w)
  = (Backup.published w ++ [Backup.heartbeat_publication now w])%list.
Proof.
  rewrite run_iteration_eq. cbv zeta.
  destruct (Backup.timed_out now w);
    destruct (Backup.is_active (Backup.CONFIG w)); reflexivity.
Qed.

(** X19. Heartbeats, end to end, between a main and a backup that use the
    same topic prefix and have the roles ["MAIN"] and ["BACKUP"]:
    - the heartbeat the main publishes, handled by the backup at [t1],
      sets [main_last_heartbeat] to the receipt time [t1] (not to the
      timestamp it carries) and marks the main ONLINE;
    - the heartbeat a monitor round of the backup publishes, handled by
      the main, marks the backup ONLINE and changes nothing else;
    - each process also receives its own heartbeat, which changes nothing
      in it. *)
Theorem heartbeats_between_processes fails t0 t1 resp
        (wa : App.World) (wb : Backup.World) :
  App.mqtt_topic_prefix (App.CONFIG wa)
  = Backup.mqtt_topic_prefix (Backup.CONFIG wb) ->
  App.device_role (App.CONFIG wa) = "MAIN" ->
  Backup.device_role (Backup.CONFIG wb) = "BACKUP" ->
  (exists p,
     App.published (App.backup_monitor_iteration t0 wa)
     = (App.published wa ++ [p])%list /\
     Backup.on_mqtt_message t1 (pub_topic p) (Some (pub_payload p)) wb
     = Backup.with_STATE
         (set_main ONLINE (set_main_last_heartbeat t1 (Backup.STATE wb))) wb /\
     App.STATE
       (App.on_mqtt_message fails t1 (pub_topic p) (Some (pub_payload p)) wa)
     = App.STATE wa) /\
  (exists p,
     Backup.published (exec (Backup.run_iteration t0 resp) wb)
     = (Backup.published wb ++ [p])%list /\
     App.STATE
       (App.on_mqtt_message fails t1 (pub_topic p) (Some (pub_payload p)) wa)
     = set_backup ONLINE (App.STATE wa) /\
     Backup.on_mqtt_message t1 (pub_topic p) (Some (pub_payload p)) wb = wb).
Proof.
  intros Hprefix Hmain Hbackup. split; eexists;
    (split; [first [reflexivity | apply monitor_round_publishes]|]);
    cbn [pub_topic pub_payload Backup.heartbeat_publication].
  - assert (Ha : on_topic (App.mqtt_topic_prefix (App.CONFIG wa)) "heartbeat"
                   (App.mqtt_topic_prefix (App.CONFIG wa) ++
                    "heartbeat/" ++ App.device_id (App.CONFIG wa)) = true)
      by apply (on_topic_published _ "heartbeat").
    split.
    + rewrite Backup_on_mqtt_message_eq.
      rewrite Backup_dispatch_heartbeat by (rewrite <- Hprefix; exact Ha).
      unfold App.heartbeat_message. rewrite Hmain.
      now rewrite heartbeat_from_main.
    + rewrite App_on_mqtt_message_STATE.
      rewrite App_dispatch_heartbeat by exact Ha.
      unfold App.heartbeat_message. rewrite Hmain. reflexivity.
  - assert (Hb : on_topic (Backup.mqtt_topic_prefix (Backup.CONFIG wb))
                   "heartbeat"
                   (Backup.mqtt_topic_prefix (Backup.CONFIG wb) ++
                    "heartbeat/" ++ Backup.device_id (Backup.CONFIG wb))
                 = true)
      by apply (on_topic_published _ "heartbeat").
    split.
    + rewrite App_on_mqtt_message_STATE.
      rewrite App_dispatch_heartbeat by (rewrite Hprefix; exact Hb).
      unfold Backup.heartbeat_message. rewrite Hbackup. reflexivity.
    + rewrite Backup_on_mqtt_message_eq.
      rewrite Backup_dispatch_heartbeat by exact Hb.
      unfold Backup.heartbeat_message. rewrite Hbackup.
      apply Backup_with_STATE_same.
Qed.

Lemma heartbeats_between_processes_witness :
  exists p,
    App.published (App.backup_monitor_iteration 100 (App.initial_world "main"))
    = (App.published (App.initial_world "main") ++ [p])%list /\
    Backup.on_mqtt_message 101 (pub_topic p) (Some (pub_payload p))
      (Backup.initial_world "backup-1" 0)
    = Backup.with_STATE
        (set_main ONLINE
           (set_main_last_heartbeat 101
              (Backup.STATE (Backup.initial_world "backup-1" 0))))
        (Backup.initial_world "backup-1" 0) /\
    App.STATE
      (App.on_mqtt_message (fun _ => false) 101 (pub_topic p)
         (Some (pub_payload p)) (App.initial_world "main"))
    = App.STATE (App.initial_world "main").
Proof.
  exact (proj1 (heartbeats_between_processes (fun _ => false) 100 101
                  Backup.RequestException (App.initial_world "main")
                  (Backup.initial_world "backup-1" 0)
                  eq_refl eq_refl eq_refl)).
Defined.

Lemma failover_message_is_no_command connected (w : Backup.World) now action
      (st : State) :
  exec (App.control_branch connected (Backup.failover_message w now action)) st
  = st /\
  forall active,
    exec (Backup.control_branch active connected
            (Backup.failover_message w now action)) st = st.
Proof. split; [|intros active]; reflexivity. Qed.

(** X20. The failover messages go out on a control topic, so both
    processes receive them, and neither acts on them: handling the
    TAKEOVER message of [activate_backup] or the STANDBY message of
    [deactivate_backup] changes no key of [STATE] on the main and leaves
    its [CONFIG] (with [is_active] true) as it was, and changes nothing on
    the backup that sent it. *)
Theorem failover_messages_are_not_acted_on fails now t1
        (wa : App.World) (wb : Backup.World) :
  App.mqtt_topic_prefix (App.CONFIG wa)
  = Backup.mqtt_topic_prefix (Backup.CONFIG wb) ->
  (exists p,
     Backup.published (Backup.activate_backup now wb)
     = (Backup.published wb ++ [p])%list /\
     Backup.is_takeover p = true /\
     App.STATE
       (App.on_mqtt_message fails t1 (pub_topic p) (Some (pub_payload p)) wa)
     = App.STATE wa /\
     App.CONFIG
       (App.on_mqtt_message fails t1 (pub_topic p) (Some (pub_payload p)) wa)
     = App.CONFIG wa /\
     Backup.on_mqtt_message t1 (pub_topic p) (Some (pub_payload p))
       (Backup.activate_backup now wb)
     = Backup.activate_backup now wb) /\
  (exists p,
     Backup.published (Backup.deactivate_backup now wb)
     = (Backup.published wb ++ [p])%list /\
     App.STATE
       (App.on_mqtt_message fails t1 (pub_topic p) (Some (pub_payload p)) wa)
     = App.STATE wa /\
     App.CONFIG
       (App.on_mqtt_message fails t1 (pub_topic p) (Some (pub_payload p)) wa)
     = App.CONFIG wa /\
     Backup.on_mqtt_message t1 (pub_topic p) (Some (pub_payload p))
       (Backup.deactivate_backup now wb)
     = Backup.deactivate_backup now wb).
Proof.
  intros Hprefix.
  assert (Hb : on_topic (Backup.mqtt_topic_prefix (Backup.CONFIG wb))
                 "control"
                 (Backup.mqtt_topic_prefix (Backup.CONFIG wb) ++
                  "control/failover") = true)
    by apply (on_topic_published _ "control" "failover").
  assert (Ha : on_topic (App.mqtt_topic_prefix (App.CONFIG wa)) "control"
                 (Backup.mqtt_topic_prefix (Backup.CONFIG wb) ++
                  "control/failover") = true)
    by (rewrite Hprefix; exact Hb).
  split.
  - exists {| pub_topic := Backup.mqtt_topic_prefix (Backup.CONFIG wb) ++
                           "control/failover";
              pub_payload :=
                Backup.failover_message
                  (Backup.with_CONFIG
                     (Backup.set_is_active true (Backup.CONFIG wb)) wb)
                  now "TAKEOVER" |}.
    cbn [pub_topic pub_payload].
    split; [unfold Backup.activate_backup; cbv zeta;
            now destruct (_ && _)|].
    split; [reflexivity|].
    split; [|split].
    + rewrite App_on_mqtt_message_STATE.
      rewrite (App_dispatch_control _ _ _ _ _ Ha).
      apply failover_message_is_no_command.
    + apply App_on_mqtt_message_keeps.
    + rewrite Backup_on_mqtt_message_eq.
      rewrite Backup_dispatch_control
        by (unfold Backup.activate_backup; cbv zeta;
            destruct (_ && _); exact Hb).
      rewrite (proj2 (failover_message_is_no_command _ _ _ _ _)).
      apply Backup_with_STATE_same.
  - exists {| pub_topic := Backup.mqtt_topic_prefix (Backup.CONFIG wb) ++
                           "control/failover";
              pub_payload :=
                Backup.failover_message
                  (Backup.with_CONFIG
                     (Backup.set_is_active false (Backup.CONFIG wb)) wb)
                  now "STANDBY" |}.
    cbn [pub_topic pub_payload].
    split; [reflexivity|]. split; [|split].
    + rewrite App_on_mqtt_message_STATE.
      rewrite (App_dispatch_control _ _ _ _ _ Ha).
      apply failover_message_is_no_command.
    + apply App_on_mqtt_message_keeps.
    + rewrite Backup_on_mqtt_message_eq.
      rewrite Backup_dispatch_control by exact Hb.
      rewrite (proj2 (failover_message_is_no_command _ _ _ _ _)).
      apply Backup_with_STATE_same.
Qed.

Lemma failover_messages_are_not_acted_on_witness :
  exists p,
    Backup.published
      (Backup.activate_backup 20 (Backup.initial_world "backup-1" 0))
    = (Backup.published (Backup.initial_world "backup-1" 0) ++ [p])%list /\
    Backup.is_takeover p = true /\
    App.STATE
      (App.on_mqtt_message (fun _ => false) 21 (pub_topic p)
         (Some (pub_payload p)) (App.initial_world "main"))
    = App.STATE (App.initial_world "main") /\
    App.CONFIG
      (App.on_mqtt_message (fun _ => false) 21 (pub_topic p)
         (Some (pub_payload p)) (App.initial_world "main"))
    = App.CONFIG (App.initial_world "main") /\
    Backup.on_mqtt_message 21 (pub_topic p) (Some (pub_payload p))
      (Backup.activate_backup 20 (Backup.initial_world "backup-1" 0))
    = Backup.activate_backup 20 (Backup.initial_world "backup-1" 0).
Proof.
  exact (proj1 (failover_messages_are_not_acted_on (fun _ => false) 20 21
                  (App.initial_world "main")
                  (Backup.initial_world "backup-1" 0) eq_refl)).
Defined.

(** ** More on the backup's monitor *)

(** X21. A heartbeat of the main holds the failover off for the length of
    the timeout.  On a standby backup with no signal pending, after a
    message on the heartbeat topic whose role is ["MAIN"] is handled at
    [t1], a check at any [t2] with [t2 - t1 <= failover_timeout] does not
    take over: the backup is still in standby, the main is marked ONLINE,
    and the check has published its heartbeat and nothing else. *)
Theorem heartbeat_holds_failover_off t1 t2 topic
        (d : list (string * value)) resp (w : Backup.World) :
  Backup.event_queue w = [] ->
  Backup.is_active (Backup.CONFIG w) = false ->
  on_topic (Backup.mqtt_topic_prefix (Backup.CONFIG w)) "heartbeat" topic
  = true ->
  assoc "role" d = Some (VStr "MAIN") ->
  t2 - t1 <= Backup.failover_timeout (Backup.CONFIG w) ->
  let w1 := Backup.on_mqtt_message t1 topic (Some (VDict d)) w in
  Backup.CONFIG (Backup.check t2 resp w1) = Backup.CONFIG w /\
  main (device_status (Backup.STATE (Backup.check t2 resp w1))) = ONLINE /\
  Backup.published (Backup.check t2 resp w1)
  = (Backup.published w ++ [Backup.heartbeat_publication t2 w])%list /\
  Backup.event_queue (Backup.check t2 resp w1) = [].
Proof.
  intros Hq Hstandby Htopic Hrole Hfresh w1. subst w1.
  rewrite Backup_on_mqtt_message_eq.
  rewrite (Backup_dispatch_heartbeat _ _ _ _ _ Htopic).
  rewrite (heartbeat_from_main _ _ _ Hrole).
  rewrite check_eq by exact Hq.
  assert (Hto : Backup.timed_out t2
                  (Backup.with_STATE
                     (set_main ONLINE
                        (set_main_last_heartbeat t1 (Backup.STATE w))) w)
                = false).
  { unfold Backup.timed_out. cbn. apply negb_false_iff.
    now apply Qle_bool_iff. }
  rewrite Hto. cbn [Backup.CONFIG Backup.with_STATE]. rewrite Hstandby.
  repeat split; try reflexivity; try exact Hq.
  cbn [Backup.STATE Backup.with_STATE Backup.heartbeat_sent Backup.publish].
  rewrite (keeps_exec (fun st => main (device_status st)));
    [reflexivity|].
  apply fetch_main_state_keeps.
  apply (setitem_frame (fun st => main (device_status st))); reflexivity.
Qed.

Lemma heartbeat_holds_failover_off_witness :
  Backup.CONFIG
    (Backup.check 115 Backup.RequestException
       (Backup.on_mqtt_message 100 "conference/heartbeat/main"
          (Some (VDict [("role", VStr "MAIN")]))
          (Backup.initial_world "backup-1" 0)))
  = Backup.CONFIG (Backup.initial_world "backup-1" 0).
Proof.
  apply (heartbeat_holds_failover_off 100 115 "conference/heartbeat/main"
           [("role", VStr "MAIN")] Backup.RequestException
           (Backup.initial_world "backup-1" 0));
    try reflexivity.
  unfold Qle. cbn. lia.
Defined.

Lemma sync_fields_non_object keys p (st : State) :
  (forall d, p <> VDict d) ->
  exec (Backup.sync_fields keys p) st = st.
Proof.
  intros Hp. unfold exec. induction keys as [|key keys IH];
    cbn [Backup.sync_fields]; [reflexivity|].
  unfold bind at 1. unfold bind at 1. unfold eval at 1.
  destruct (py_in key p) as [[]|] eqn:Hin; cbn [snd when ret].
  - unfold bind at 1, eval at 1.
    destruct (py_getitem p key) eqn:Hget; [|reflexivity].
    destruct p; try discriminate. now elim (Hp d).
  - exact IH.
  - reflexivity.
Qed.

(** The responses that give the loop nothing to copy. *)
Lemma fetch_main_state_failed resp (st : State) :
  resp = Backup.RequestException \/
  (exists code body, resp = Backup.HttpResponse code body /\ code <> 200%Z) \/
  resp = Backup.HttpResponse 200 None \/
  (exists p, resp = Backup.HttpResponse 200 (Some p) /\
             forall d, p <> VDict d) ->
  exec (Backup.fetch_main_state resp) st = st.
Proof.
  intros [-> | [(code & body & -> & Hcode) | [-> | (p & -> & Hp)]]].
  - reflexivity.
  - cbn [Backup.fetch_main_state].
    destruct (Z.eqb_spec code 200); [contradiction | reflexivity].
  - reflexivity.
  - cbn [Backup.fetch_main_state Z.eqb Pos.eqb when].
    unfold exec, bind. cbn [eval].
    apply (sync_fields_non_object Backup.sync_keys p st Hp).
Qed.

(** X22. The reconciliation request never weighs on the failover.  For a
    check with no signal pending, the role, the publications, the pending
    signals, the controller connection and the main's status entry come
    out the same whatever the request gives; and a request that fails, is
    answered with another status than 200, or with a body that is not a
    JSON object, leaves the whole process as a failed request does. *)
Theorem pull_never_decides_failover now (resp1 resp2 : Backup.Response)
        (w : Backup.World) :
  Backup.event_queue w = [] ->
  (Backup.CONFIG (Backup.check now resp1 w)
   = Backup.CONFIG (Backup.check now resp2 w) /\
   Backup.published (Backup.check now resp1 w)
   = Backup.published (Backup.check now resp2 w) /\
   Backup.event_queue (Backup.check now resp1 w)
   = Backup.event_queue (Backup.check now resp2 w) /\
   Backup.powerpoint_connected (Backup.check now resp1 w)
   = Backup.powerpoint_connected (Backup.check now resp2 w) /\
   main (device_status (Backup.STATE (Backup.check now resp1 w)))
   = main (device_status (Backup.STATE (Backup.check now resp2 w)))) /\
  (resp1 = Backup.RequestException \/
   (exists code body,
      resp1 = Backup.HttpResponse code body /\ code <> 200%Z) \/
   resp1 = Backup.HttpResponse 200 None \/
   (exists p, resp1 = Backup.HttpResponse 200 (Some p) /\
              forall d, p <> VDict d) ->
   Backup.check now resp1 w = Backup.check now Backup.RequestException w).
Proof.
  intros Hq. rewrite !(check_eq _ _ _ Hq). split.
  - destruct (Backup.timed_out now w); [repeat split; reflexivity|].
    cbn [Backup.CONFIG Backup.published Backup.event_queue
         Backup.powerpoint_connected Backup.STATE Backup.with_STATE].
    repeat split.
    destruct (Backup.is_active (Backup.CONFIG w)); [reflexivity|].
    rewrite !(keeps_exec (fun st => main (device_status st)));
      try reflexivity;
      apply fetch_main_state_keeps;
      apply (setitem_frame (fun st => main (device_status st)));
      reflexivity.
  - intros Hfailed. destruct (Backup.timed_out now w); [reflexivity|].
    destruct (Backup.is_active (Backup.CONFIG w)); [reflexivity|].
    now rewrite (fetch_main_state_failed resp1 _ Hfailed).
Qed.

Lemma pull_never_decides_failover_witness :
  Backup.check 10 (Backup.HttpResponse 200 (Some (VList [VStr "current_slide"])))
    (Backup.initial_world "backup-1" 0)
  = Backup.check 10 Backup.RequestException
      (Backup.initial_world "backup-1" 0).
Proof.
  apply (proj2 (pull_never_decides_failover 10
                  (Backup.HttpResponse 200
                     (Some (VList [VStr "current_slide"])))
                  Backup.RequestException
                  (Backup.initial_world "backup-1" 0) eq_refl)).
  right. right. right. eexists. split; [reflexivity|]. discriminate.
Defined.

Lemma slide_command_disconnected p (st : State) :
  exec (slide_command false p) st = st.
Proof.
  unfold slide_command, command_is, PowerPointController.next_slide,
    PowerPointController.previous_slide, PowerPointController.goto_slide.
  py_step. split_cases; reflexivity.
Qed.

(** X23. Taking over gives the backup the slides only through the slide
    controller.  With [powerpoint_enabled], [activate_backup] connects the
    controller, and a [goto_slide] command for a slide within the deck,
    received afterwards on the control topic, moves [current_slide] there.
    With [powerpoint_enabled] off and the controller not connected, the
    active backup leaves every control message without effect. *)
Theorem takeover_and_slide_control now t1 topic (w : Backup.World) :
  on_topic (Backup.mqtt_topic_prefix (Backup.CONFIG w)) "control" topic
  = true ->
  (Backup.powerpoint_enabled (Backup.CONFIG w) = true ->
   Backup.powerpoint_connected (Backup.activate_backup now w) = true /\
   forall n total : Q,
     total_slides (Backup.STATE w) = VNum total ->
     1 <= n -> n <= total ->
     Backup.STATE
       (Backup.on_mqtt_message t1 topic
          (Some (VDict [("command", VStr "goto_slide"); ("slide", VNum n)]))
          (Backup.activate_backup now w))
     = set_current_slide (VNum n) (Backup.STATE w)) /\
  (Backup.powerpoint_enabled (Backup.CONFIG w) = false ->
   Backup.powerpoint_connected w = false ->
   forall payload,
     Backup.on_mqtt_message t1 topic payload (Backup.activate_backup now w)
     = Backup.activate_backup now w).
Proof.
  intros Htopic. split.
  - intros Hen.
    assert (Hc : Backup.powerpoint_connected (Backup.activate_backup now w)
                 = true).
    { unfold Backup.activate_backup. cbv zeta. cbn. rewrite Hen. cbn.
      destruct (Backup.powerpoint_connected w) eqn:E; cbn; [exact E|].
      reflexivity. }
    split; [exact Hc|]. intros n total Htotal H1 H2.
    rewrite Backup_on_mqtt_message_eq. rewrite Hc.
    rewrite Backup_dispatch_control
      by (unfold Backup.activate_backup; cbv zeta;
          destruct (_ && _); exact Htopic).
    replace (Backup.is_active (Backup.CONFIG (Backup.activate_backup now w)))
      with true
      by (unfold Backup.activate_backup; cbv zeta; now destruct (_ && _)).
    replace (Backup.STATE (Backup.activate_backup now w))
      with (Backup.STATE w)
      by (unfold Backup.activate_backup; cbv zeta; now destruct (_ && _)).
    cbn [Backup.STATE Backup.with_STATE].
    pose proof (goto_slide_num n total (Backup.STATE w) Htotal) as Hg.
    apply Qle_bool_iff in H1, H2. rewrite H1, H2 in Hg. cbn [andb] in Hg.
    unfold Backup.control_branch, slide_command, command_is, exec, bind,
      eval, ret, when.
    cbn -[PowerPointController.goto_slide]. now rewrite Hg.
  - intros Hen Hc payload.
    assert (Hact : Backup.activate_backup now w
                   = Backup.publish "control/failover"
                       (Backup.failover_message
                          (Backup.with_CONFIG
                             (Backup.set_is_active true (Backup.CONFIG w)) w)
                          now "TAKEOVER")
                       (Backup.with_CONFIG
                          (Backup.set_is_active true (Backup.CONFIG w)) w)).
    { unfold Backup.activate_backup. cbv zeta. cbn. now rewrite Hen. }
    rewrite Hact. destruct payload as [p|]; [|reflexivity].
    rewrite Backup_on_mqtt_message_eq.
    rewrite Backup_dispatch_control by exact Htopic.
    cbn [Backup.powerpoint_connected Backup.publish Backup.with_CONFIG].
    rewrite Hc.
    replace (exec (Backup.control_branch _ false p) _)
      with (Backup.STATE w); [reflexivity|].
    unfold Backup.control_branch, exec, bind, eval.
    destruct (py_in "command" p) as [b|]; [|reflexivity].
    cbn [Backup.is_active Backup.CONFIG Backup.publish Backup.with_CONFIG
         Backup.set_is_active Backup.STATE].
    rewrite andb_true_r. destruct b; cbn [when snd]; [|reflexivity].
    symmetry. apply slide_command_disconnected.
Qed.

Lemma takeover_and_slide_control_witness :
  Backup.STATE
    (Backup.on_mqtt_message 30 "conference/control/slide"
       (Some (VDict [("command", VStr "goto_slide"); ("slide", VNum 7)]))
       (Backup.activate_backup 20 (Backup.initial_world "backup-1" 0)))
  = set_current_slide (VNum 7)
      (Backup.STATE (Backup.initial_world "backup-1" 0)).
Proof.
  apply (proj2 (proj1 (takeover_and_slide_control 20 30
                         "conference/control/slide"
                         (Backup.initial_world "backup-1" 0) eq_refl)
                 eq_refl) 7 30 eq_refl);
    unfold Qle; cbn; lia.
Defined.

(** ** Messages on different topics *)

Lemma timer_presenter_commute now p1 p2 (st : State) :
  exec (presenter_branch p2) (exec (timer_branch now p1) st)
  = exec (timer_branch now p1) (exec (presenter_branch p2) st).
Proof.
  destruct st. unfold timer_branch, presenter_branch, time_plus. py_step.
  split_cases; same_options; try reflexivity; congruence.
Qed.

Lemma timer_announcement_commute now p1 p2 (st : State) :
  exec (announcement_branch p2) (exec (timer_branch now p1) st)
  = exec (timer_branch now p1) (exec (announcement_branch p2) st).
Proof.
  destruct st. unfold timer_branch, announcement_branch, time_plus. py_step.
  split_cases; same_options; try reflexivity; congruence.
Qed.

Lemma presenter_announcement_commute p1 p2 (st : State) :
  exec (announcement_branch p2) (exec (presenter_branch p1) st)
  = exec (presenter_branch p1) (exec (announcement_branch p2) st).
Proof.
  destruct st. unfold presenter_branch, announcement_branch. py_step.
  split_cases; same_options; try reflexivity; congruence.
Qed.

Lemma App_on_mqtt_message_STATE' fails now topic payload (w : App.World) :
  App.STATE (App.on_mqtt_message fails now topic payload w) =
  match payload with
  | Some p =>
      exec (App.dispatch (App.CONFIG w) (App.powerpoint_connected w)
                         now topic p) (App.STATE w)
  | None => App.STATE w
  end.
Proof.
  destruct payload; [apply App_on_mqtt_message_STATE | reflexivity].
Qed.

(** X24. Messages on two different topics among timer, presenter and
    announcement can be handled in either order: the main ends with the
    same [STATE], whatever the two payloads (malformed ones included) and
    the two receipt times. *)
Theorem messages_on_different_topics_commute fa fb fc fd t1 t2
        topic1 topic2 payload1 payload2 (w : App.World) :
  (on_topic (App.mqtt_topic_prefix (App.CONFIG w)) "timer" topic1 = true /\
   on_topic (App.mqtt_topic_prefix (App.CONFIG w)) "presenter" topic2 = true)
  \/
  (on_topic (App.mqtt_topic_prefix (App.CONFIG w)) "timer" topic1 = true /\
   on_topic (App.mqtt_topic_prefix (App.CONFIG w)) "announcement" topic2
   = true) \/
  (on_topic (App.mqtt_topic_prefix (App.CONFIG w)) "presenter" topic1 = true /\
   on_topic (App.mqtt_topic_prefix (App.CONFIG w)) "announcement" topic2
   = true) ->
  App.STATE
    (App.on_mqtt_message fb t2 topic2 payload2
       (App.on_mqtt_message fa t1 topic1 payload1 w))
  = App.STATE
      (App.on_mqtt_message fd t1 topic1 payload1
         (App.on_mqtt_message fc t2 topic2 payload2 w)).
Proof.
  intros H.
  rewrite (App_on_mqtt_message_STATE' fb), (App_on_mqtt_message_STATE' fd).
  destruct (App_on_mqtt_message_keeps fa t1 topic1 payload1 w) as [-> ->].
  destruct (App_on_mqtt_message_keeps fc t2 topic2 payload2 w) as [-> ->].
  rewrite !App_on_mqtt_message_STATE'.
  destruct payload1 as [p1|], payload2 as [p2|]; try reflexivity.
  destruct H as [[H1 H2] | [[H1 H2] | [H1 H2]]].
  - rewrite !(App_dispatch_timer _ _ _ _ _ H1).
    rewrite !(App_dispatch_presenter _ _ _ _ _ H2).
    apply timer_presenter_commute.
  - rewrite !(App_dispatch_timer _ _ _ _ _ H1).
    rewrite !(App_dispatch_announcement _ _ _ _ _ H2).
    apply timer_announcement_commute.
  - rewrite !(App_dispatch_presenter _ _ _ _ _ H1).
    rewrite !(App_dispatch_announcement _ _ _ _ _ H2).
    apply presenter_announcement_commute.
Qed.

Lemma messages_on_different_topics_commute_witness :
  App.STATE
    (App.on_mqtt_message (fun _ => false) 11 "conference/presenter/update"
       (Some (VDict [("name", VStr "Ada")]))
       (App.on_mqtt_message (fun _ => false) 10 "conference/timer/control"
          (Some (VDict [("running", VBool true)]))
          (App.initial_world "main")))
  = App.STATE
      (App.on_mqtt_message (fun _ => false) 10 "conference/timer/control"
         (Some (VDict [("running", VBool true)]))
         (App.on_mqtt_message (fun _ => false) 11
            "conference/presenter/update"
            (Some (VDict [("name", VStr "Ada")]))
            (App.initial_world "main"))).
Proof.
  apply (messages_on_different_topics_commute
           (fun _ => false) (fun _ => false) (fun _ => false) (fun _ => false)
           10 11 "conference/timer/control" "conference/presenter/update"
           (Some (VDict [("running", VBool true)]))
           (Some (VDict [("name", VStr "Ada")]))
           (App.initial_world "main")).
  left. split; reflexivity.
Defined.

(** ** The main never steps down *)

Lemma endpoint_receive_keeps_CONFIG fails ws data (w : App.World) :
  App.CONFIG (exec (App.endpoint_receive fails ws data) w) = App.CONFIG w /\
  App.powerpoint_connected (exec (App.endpoint_receive fails ws data) w)
  = App.powerpoint_connected w.
Proof.
  assert (Hb : forall w0,
             App.CONFIG (App.broadcast_state_update fails w0) = App.CONFIG w0 /\
             App.powerpoint_connected (App.broadcast_state_update fails w0)
             = App.powerpoint_connected w0).
  { intros w0. unfold App.broadcast_state_update.
    destruct (App.websocket_connections w0); [now split|].
    now destruct (App.broadcast_loop _ _ _ _ _ _). }
  unfold App.endpoint_receive. py_step.
  destruct data as [m|]; py_step; [|now split].
  destruct (py_in "type" m) as [[]|]; py_step; [| |now split].
  - destruct (py_getitem m "type") as [type|]; py_step; [|now split].
    destruct (App.forward_topic type) as [name|]; py_step.
    + destruct (py_getitem m "data") as [payload|]; py_step; [|now split].
      destruct (Hb (App.publish name payload w)) as [-> ->]. now split.
    + apply Hb.
  - apply Hb.
Qed.

(** X25. Nothing that happens on the main process changes its [CONFIG] or
    disconnects its slide controller: after any sequence of operations,
    including the receipt of a TAKEOVER message from the backup, the main
    has the role, the [is_active] flag and the controller connection it
    started with. *)
Theorem main_never_steps_down (ops : list App.Operation) (w : App.World) :
  App.CONFIG (App.run ops w) = App.CONFIG w /\
  App.powerpoint_connected (App.run ops w) = App.powerpoint_connected w.
Proof.
  revert w. induction ops as [|op ops IH]; intros w; [now split|].
  cbn [App.run fold_left]. fold (App.run ops (App.step op w)).
  destruct (IH (App.step op w)) as [-> ->]. clear IH.
  destruct op as [fails now topic payload|now| | |now|now|h|sf ws
                  |fails ws data|ws]; cbn [App.step].
  - apply App_on_mqtt_message_keeps.
  - unfold App.start_timer, App.on_STATE, exec. py_step.
    now destruct (time_plus now (timer_seconds (App.STATE w))).
  - now split.
  - now split.
  - now split.
  - now split.
  - now split.
  - unfold App.endpoint_open. cbv zeta. now destruct sf.
  - apply endpoint_receive_keeps_CONFIG.
  - now split.
Qed.

(** ** What the backup's window shows *)



